(** * api-helper: token refresh and retry around an HTTP client

    A shallow embedding of the request layer (utils.js, constants.js,
    classes/Exception.js, classes/UnauthorizedManager.js and the module that
    installs the interceptors and exports [callApi]), followed by the
    properties established for it.

    Conventions of the embedding.
    - JavaScript values that travel over the wire or sit in localStorage are
      [JSON]; a possibly-undefined one is [option JSON]; configuration values
      are [JS] (they may also be host objects such as a cancel token).
    - Mutable state (localStorage, the clock, the manager's private fields,
      the caller's objects) is threaded explicitly through [World]; the
      observable effects are appended to its [trace].
    - A computation either completes normally or throws: [Completion].
    - Whatever lies outside the repository (the HTTP adapter, the helper
      [isReqSuccess], coercion of odd values to numbers) is a field of [Env].
    - The pipeline of one call is modelled run in isolation ([M Settled]);
      the manager shared by several callers is modelled under the event
      loop ([Loop]), both built from the same pieces of the worker. *)

From stdpp Require Import gmap strings list.

Local Open Scope string_scope.
Local Open Scope list_scope.

(** ** Values *)

(** A value as JSON.parse delivers it. [JInf] is a number whose literal
    was too large for a double: it parses to [Infinity] or [-Infinity]. *)
#[warnings="-register-all"]
Inductive JSON : Type :=
  | JNull
  | JBool (b : bool)
  | JNum (n : Z)
  | JInf (negative : bool)
  | JStr (s : string)
  | JArr (items : list JSON)
  | JObj (members : list (string * JSON)).

Inductive JS : Type :=
  | Undef
  | Jv (j : JSON)
  | Opaque (tag : nat).

Definition of_json (o : option JSON) : JS :=
  match o with
  | Some j => Jv j
  | None => Undef
  end.

(** ToBoolean. *)
Definition truthy_json (j : JSON) : bool :=
  match j with
  | JNull => false
  | JBool b => b
  | JNum n => negb (n =? 0)%Z
  | JStr s => negb (String.eqb s "")
  | JInf _ | JArr _ | JObj _ => true
  end.

Definition truthy (v : JS) : bool :=
  match v with
  | Undef => false
  | Jv j => truthy_json j
  | Opaque _ => true
  end.

(** [x === undefined || x === null], the test behind [??]. *)
Definition nullish (v : JS) : bool :=
  match v with
  | Undef | Jv JNull => true
  | _ => false
  end.

(** [typeof v === "object"] for a value produced by JSON.parse. *)
Definition typeof_object (j : JSON) : bool :=
  match j with
  | JNull | JArr _ | JObj _ => true
  | JBool _ | JNum _ | JInf _ | JStr _ => false
  end.

Definition is_null (j : JSON) : bool :=
  match j with
  | JNull => true
  | _ => false
  end.

Fixpoint assoc (k : string) (ms : list (string * JSON)) : option JSON :=
  match ms with
  | [] => None
  | (k', v) :: rest => if String.eqb k k' then Some v else assoc k rest
  end.

(** [j.k] for a non-null [j]; the names read by this program are not
    properties of arrays or primitives. *)
Definition member (k : string) (j : JSON) : option JSON :=
  match j with
  | JObj ms => assoc k ms
  | _ => None
  end.

Fixpoint assoc_set (k : string) (v : JSON) (ms : list (string * JSON))
  : list (string * JSON) :=
  match ms with
  | [] => [(k, v)]
  | (k', v') :: rest =>
      if String.eqb k k' then (k, v) :: rest else (k', v') :: assoc_set k v rest
  end.

(** The text kept under a localStorage key, identified by what JSON.parse
    makes of it: the value it denotes, or a syntax error. *)
Inductive Text : Type :=
  | Json (j : JSON)
  | NotJson (raw : string).

(** Rendered strings: literals and the template literals of the source. *)
Inductive Msg : Type :=
  | MNone
  | MLit (s : string)
  | MValue (v : JS)                  (* the value, as a string where one is built *)
  | MErrorStatus (status : option JSON)  (* the title built from ${status} *)
  | MCodeStatus (v : option JSON).   (* `Server Error with code/status: ${v}` *)

(** ** classes/Exception.js *)

Inductive ErrClass : Type :=
  | PlainObject
  | Cancel
  | Error
  | TypeError
  | SyntaxError
  | ServerNoResponseError
  | NoAuthTokenError
  | AuthTokenExpiredError
  | BEResponseError.

Definition ErrClass_eqb (a b : ErrClass) : bool :=
  match a, b with
  | PlainObject, PlainObject | Cancel, Cancel | Error, Error
  | TypeError, TypeError | SyntaxError, SyntaxError
  | ServerNoResponseError, ServerNoResponseError
  | NoAuthTokenError, NoAuthTokenError
  | AuthTokenExpiredError, AuthTokenExpiredError
  | BEResponseError, BEResponseError => true
  | _, _ => false
  end.

(** The configuration object the client works on: the request options and
    the headers attached to them. *)
Record AxiosConfig : Type := mkConfig {
  opts : gmap string JS;
  headers : gmap string JS;
}.

Record Response : Type := mkResponse {
  r_status : Z;
  r_data : option JSON;
  r_config : AxiosConfig;
}.

(** [new C(message)]. *)
Record SimpleError : Type := mkSimple {
  se_class : ErrClass;
  se_message : Msg;
}.

(** An object that is thrown or rejected with; the fields are the ones the
    program inspects ([undefined] is [None] / [false]). *)
Record ErrObj : Type := mkErr {
  e_class : ErrClass;
  e_message : Msg;
  e_requestInterceptorError : option SimpleError;
  e_config : option AxiosConfig;
  e_response : option Response;
  e_request : bool;
}.

Definition new_error (c : ErrClass) (m : Msg) : ErrObj :=
  mkErr c m None None None false.

Definition of_simple (s : SimpleError) : ErrObj :=
  new_error (se_class s) (se_message s).

(** [RequestError] and the values that can be thrown. The [error] of a
    RequestError is whatever was caught, so the two are defined together. *)
#[warnings="-register-all"]
Inductive RequestError : Type :=
  mkRequestError (error : option Thrown) (config : option AxiosConfig)
                 (response : option Response) (isCancelled : bool)
with Thrown : Type :=
  | ThrownErr (e : ErrObj)
  | ThrownReq (r : RequestError).

Definition rq_error (r : RequestError) : option Thrown :=
  let 'mkRequestError error _ _ _ := r in error.

Definition rq_config (r : RequestError) : option AxiosConfig :=
  let 'mkRequestError _ config _ _ := r in config.

Definition rq_response (r : RequestError) : option Response :=
  let 'mkRequestError _ _ response _ := r in response.

Definition rq_isCancelled (r : RequestError) : bool :=
  let 'mkRequestError _ _ _ isCancelled := r in isCancelled.

(** Property reads on a caught value. *)
Definition t_class (t : Thrown) : ErrClass :=
  match t with
  | ThrownErr e => e_class e
  | ThrownReq _ => PlainObject
  end.

Definition t_config (t : Thrown) : option AxiosConfig :=
  match t with
  | ThrownErr e => e_config e
  | ThrownReq r => rq_config r
  end.

Definition t_response (t : Thrown) : option Response :=
  match t with
  | ThrownErr e => e_response e
  | ThrownReq r => rq_response r
  end.

Definition t_request (t : Thrown) : bool :=
  match t with
  | ThrownErr e => e_request e
  | ThrownReq _ => false
  end.

Definition t_message (t : Thrown) : Msg :=
  match t with
  | ThrownErr e => e_message e
  | ThrownReq _ => MNone
  end.

Definition t_requestInterceptorError (t : Thrown) : option SimpleError :=
  match t with
  | ThrownErr e => e_requestInterceptorError e
  | ThrownReq _ => None
  end.

Definition t_isCancelled (t : Thrown) : bool :=
  match t with
  | ThrownErr _ => false
  | ThrownReq r => rq_isCancelled r
  end.

(** [requestError?.error?.message]. *)
Definition t_error_message (t : Thrown) : Msg :=
  match t with
  | ThrownReq r =>
      match rq_error r with
      | Some (ThrownErr e) => e_message e
      | _ => MNone
      end
  | ThrownErr _ => MNone
  end.

Inductive Completion (A : Type) : Type :=
  | Normal (a : A)
  | Throw (t : Thrown)
  | OutOfFuel.

Arguments Normal {A} a.
Arguments Throw {A} t.
Arguments OutOfFuel {A}.

(** ** constants.js *)

Definition DEBUG_TOKEN_EXPIRED_AFTER_10_SEC : bool := false.

Definition LOGOUT_LOCK_TIME : Z := 1000.

Definition PATHS_WHITELIST : list string :=
  ["endpoint"; "method"; "body"; "cancelToken"; "withoutAuth";
   "disableErrorNotification"].

(** ** The world *)

Inductive Event : Type :=
  | EvInstance (config : AxiosConfig)      (* instance(config) was called *)
  | EvHttp (config : AxiosConfig)          (* the request was handed to the transport *)
  | EvRefreshPost (refreshToken token : option JSON) (* axios.post(URL_REFRESH_TOKEN) *)
  | EvLogout                               (* utils.logout ran *)
  | EvNotify (mode title content : Msg).   (* a notification was dispatched *)

(** [P] is the representation of the promise kept in [#worker]. *)
Record World (P : Type) : Type := mkWorld {
  storage : option Text;               (* localStorage["token"] *)
  now : Z;                             (* Date.now() *)
  logoutTimeout : option Z;            (* #logoutTimeout: when its timer is due *)
  worker : option P;                   (* #worker *)
  objs : gmap nat (gmap string JS);    (* objects owned by the caller *)
  trace : list Event;
}.

Arguments mkWorld {P}.
Arguments storage {P}.
Arguments now {P}.
Arguments logoutTimeout {P}.
Arguments worker {P}.
Arguments objs {P}.
Arguments trace {P}.

Section WorldUpdates.
Context {P : Type}.

Definition set_storage (s : option Text) (w : World P) : World P :=
  mkWorld s (now w) (logoutTimeout w) (worker w) (objs w) (trace w).

Definition set_logoutTimeout (t : option Z) (w : World P) : World P :=
  mkWorld (storage w) (now w) t (worker w) (objs w) (trace w).

Definition set_worker (p : option P) (w : World P) : World P :=
  mkWorld (storage w) (now w) (logoutTimeout w) p (objs w) (trace w).

Definition set_objs (o : gmap nat (gmap string JS)) (w : World P) : World P :=
  mkWorld (storage w) (now w) (logoutTimeout w) (worker w) o (trace w).

Definition emit (e : Event) (w : World P) : World P :=
  mkWorld (storage w) (now w) (logoutTimeout w) (worker w) (objs w)
          (trace w ++ [e]).

(** Time passes while a task is suspended; a timer that has become due
    runs its callback, which for the logout lock is
    [this.#logoutTimeout = null]. *)
Definition advance (dt : nat) (w : World P) : World P :=
  let t := (now w + Z.of_nat dt)%Z in
  let lock :=
    match logoutTimeout w with
    | Some due => if (due <=? t)%Z then None else Some due
    | None => None
    end in
  mkWorld (storage w) t lock (worker w) (objs w) (trace w).
End WorldUpdates.

(** ** Computations *)

Definition M (P A : Type) : Type := World P -> World P * Completion A.

Section Monad.
Context {P : Type}.

Definition ret {A} (a : A) : M P A := fun w => (w, Normal a).

Definition throw {A} (t : Thrown) : M P A := fun w => (w, Throw t).

Definition throw_new {A} (c : ErrClass) (m : Msg) : M P A :=
  throw (ThrownErr (new_error c m)).

Definition bind {A B} (m : M P A) (k : A -> M P B) : M P B :=
  fun w =>
    match m w with
    | (w', Normal a) => k a w'
    | (w', Throw t) => (w', Throw t)
    | (w', OutOfFuel) => (w', OutOfFuel)
    end.

Definition lift {A} (c : Completion A) : M P A := fun w => (w, c).

Definition effect (f : World P -> World P) : M P unit :=
  fun w => (f w, Normal tt).

Definition gets {A} (f : World P -> A) : M P A := fun w => (w, Normal (f w)).

(** [try { body } catch (x) { handler x }]. *)
Definition try_catch {A} (body : M P A) (handler : Thrown -> M P A) : M P A :=
  fun w =>
    match body w with
    | (w', Throw t) => handler t w'
    | r => r
    end.

(** [try { body } finally { cleanup }], for a cleanup that does not throw. *)
Definition finally {A} (body : M P A) (cleanup : World P -> World P) : M P A :=
  fun w => let '(w', c) := body w in (cleanup w', c).
End Monad.

Notation "'let!' x ':=' m 'in' k" := (bind m (fun x => k))
  (at level 10, x pattern, m at level 100, k at level 200).
Notation "'run!' m 'in' k" := (bind m (fun _ => k))
  (at level 10, m at level 100, k at level 200).

(** ** The environment *)

(** What the network does with a request that was sent. *)
Inductive Outcome : Type :=
  | Responded (status : Z) (data : option JSON)
  | NoReply
  | SetupFailure (message : Msg)
  | Cancelled (message : Msg).

(** What the program takes from outside the repository.
    - [isReqSuccess]: the helper of responseHelper.js that reads the
      status convention of a payload.
    - [ToNumber]: the number a string, array or object converts to when it
      is compared with [<] ([None] for NaN).
    - [adapter]: the network behind [instance]; [refresh_adapter]: the
      network behind [axios.post(URL_REFRESH_TOKEN, { refreshToken },
      { headers: { 'Access-Token': token } })]. They answer a request
      knowing what has happened so far and say how long the answer took
      (milliseconds). *)
Record Env : Type := mkEnv {
  isReqSuccess : option JSON -> bool;
  ToNumber : JSON -> option Z;
  adapter : AxiosConfig -> list Event -> Outcome * nat;
  refresh_adapter : option JSON -> option JSON -> list Event -> Outcome * nat;
}.

Definition URL_REFRESH_TOKEN : string := "/api/users/refresh/token".

(** The wrapped client's contract: a response whose status is in the 2xx
    range fulfils the call; anything else rejects it with an error that
    carries the response (if one was received), whether the request was
    sent, and the configuration. A cancellation rejects with a Cancel. *)
Definition settle (config : AxiosConfig) (o : Outcome) : Completion Response :=
  match o with
  | Responded status data =>
      let response := mkResponse status data config in
      if ((200 <=? status) && (status <? 300))%Z then Normal response
      else Throw (ThrownErr
             (mkErr Error (MLit "Request failed") None (Some config)
                    (Some response) true))
  | NoReply =>
      Throw (ThrownErr
        (mkErr Error (MLit "Network Error") None (Some config) None true))
  | SetupFailure m =>
      Throw (ThrownErr (mkErr Error m None (Some config) None false))
  | Cancelled m =>
      Throw (ThrownErr (mkErr Cancel m None None None false))
  end.

(** [axios.isCancel]. *)
Definition isCancel (t : Thrown) : bool := ErrClass_eqb (t_class t) Cancel.

(** [x instanceof C] for an optional [requestInterceptorError]. *)
Definition instanceof (o : option SimpleError) (c : ErrClass) : bool :=
  match o with
  | Some s => ErrClass_eqb (se_class s) c
  | None => false
  end.

(** ** utils.js *)

Abbreviation NotificationInfo := (gmap string Msg).

Section Utils.
Context {P : Type} (E : Env).

Definition _displayNotification (info : NotificationInfo) : M P unit :=
  effect (emit (EvNotify (default MNone (info !! "mode"))
                         (default MNone (info !! "title"))
                         (default MNone (info !! "content")))).

Definition displayFailNotification (notificationInfo : NotificationInfo)
  : M P unit :=
  _displayNotification (notificationInfo ∪ {[ "mode" := MLit "fail" ]}).

Definition displaySuccessNotification (notificationInfo : NotificationInfo)
  : M P unit :=
  _displayNotification notificationInfo.

Definition logout : M P unit :=
  effect (fun w => emit EvLogout (set_storage None w)).

(** [JSON.parse(localStorage.getItem("token"))]: a missing item is
    [null], which parses to [null]. *)
Definition JSON_parse (t : option Text) : Completion JSON :=
  match t with
  | None => Normal JNull
  | Some (Json j) => Normal j
  | Some (NotJson _) => Throw (ThrownErr (new_error SyntaxError MNone))
  end.

Definition getLocalStorageToken : M P JSON :=
  try_catch
    (let! localStorageToken := gets storage in
     let! parsedToken := lift (JSON_parse localStorageToken) in
     if typeof_object parsedToken then ret parsedToken else ret JNull)
    (fun _ => ret JNull).

(** [v < t] for a number [t]. *)
Definition less_than (v : JSON) (t : Z) : bool :=
  match v with
  | JNum n => (n <? t)%Z
  | JInf negative => negative
  | JBool b => ((if b then 1 else 0) <? t)%Z
  | JNull => (0 <? t)%Z
  | _ =>
      match ToNumber E v with
      | Some n => (n <? t)%Z
      | None => false
      end
  end.

Definition isTokenExpired (tokenObject : JSON) : M P bool :=
  let tokenExpiredAt :=
    match member "expireAt" tokenObject with
    | None | Some JNull => JNum 0
    | Some v => v
    end in
  let! t := gets now in
  ret (less_than tokenExpiredAt t).
End Utils.

(** ** classes/UnauthorizedManager.js *)

(** [const { k } = v]: reading a property of [undefined] or [null] throws. *)
Definition destructure (k : string) (v : option JSON)
  : Completion (option JSON) :=
  match v with
  | None | Some JNull => Throw (ThrownErr (new_error TypeError MNone))
  | Some j => Normal (member k j)
  end.

(** [data.expireAt = t]. *)
Definition override_expireAt (t : Z) (data : option JSON)
  : Completion (option JSON) :=
  match data with
  | None | Some JNull => Throw (ThrownErr (new_error TypeError MNone))
  | Some (JObj ms) => Normal (Some (JObj (assoc_set "expireAt" (JNum t) ms)))
  | Some j => Normal (Some j)
  end.

(** What JSON.stringify keeps of a value: a number that is [Infinity] or
    [-Infinity] is written as [null], at any depth; everything else is
    written as it is. *)
Fixpoint written (j : JSON) : JSON :=
  match j with
  | JInf _ => JNull
  | JArr items => JArr (written <$> items)
  | JObj members => JObj ((fun kv => (kv.1, written kv.2)) <$> members)
  | _ => j
  end.

(** [localStorage.setItem("token", JSON.stringify(data))]: the text stored
    for [undefined] is the string "undefined", which is not JSON. *)
Definition stringify (data : option JSON) : Text :=
  match data with
  | Some j => Json (written j)
  | None => NotJson "undefined"
  end.

Definition refresh_config (refreshToken token : option JSON) : AxiosConfig :=
  mkConfig
    {[ "url" := Jv (JStr URL_REFRESH_TOKEN);
       "method" := Jv (JStr "post");
       "data" := Jv (JObj match refreshToken with
                          | Some r => [("refreshToken", r)]
                          | None => []
                          end) ]}
    {[ "Access-Token" := of_json token ]}.

Section Manager.
Context {P : Type} (E : Env).

Definition UnauthorizedManager_logout : M P unit :=
  fun w =>
    match logoutTimeout w with
    | None =>
        logout (set_logoutTimeout (Some (now w + LOGOUT_LOCK_TIME)%Z) w)
    | Some _ => (w, Normal tt)
    end.

(** [#_refreshingToken] up to the point where it suspends on
    [axios.post]: the request has been issued. *)
Definition refresh_begin : M P (option JSON * option JSON) :=
  let! tokenObj := getLocalStorageToken in
  if is_null tokenObj then throw_new NoAuthTokenError MNone
  else
    let token := member "token" tokenObj in
    let refreshToken := member "refreshToken" tokenObj in
    run! effect (emit (EvRefreshPost refreshToken token)) in
    ret (refreshToken, token).

(** The body of the [try] once [axios.post] has settled. *)
Definition refresh_try (r : Completion Response) : M P (option JSON) :=
  let! response := lift r in
  if isReqSuccess E (r_data response) then
    let! data := lift (destructure "data" (r_data response)) in
    let! data :=
      if DEBUG_TOKEN_EXPIRED_AFTER_10_SEC then
        let! t := gets now in
        lift (override_expireAt (t + 10000)%Z data)
      else ret data in
    run! effect (set_storage (Some (stringify data))) in
    ret data
  else
    throw_new BEResponseError (MLit "Requesting refresh token fail").

(** The [catch] block. *)
Definition refresh_catch (error : Thrown) : M P (option JSON) :=
  run! UnauthorizedManager_logout in
  if ErrClass_eqb (t_class error) BEResponseError then throw error
  else if bool_decide (is_Some (t_response error)) then
    throw_new Error
      (MLit "Server responded with HTTP status code out of the range of 2xx")
  else if t_request error then
    throw_new Error (MLit "No response was received")
  else throw error.

(** [#_refreshingToken] from the moment the network has answered. *)
Definition refresh_resume (o : Outcome) (refreshToken token : option JSON)
  : M P (option JSON) :=
  try_catch (refresh_try (settle (refresh_config refreshToken token) o))
            refresh_catch.

(** [#_refreshingToken], run without interruption. *)
Definition _refreshingToken : M P (option JSON) :=
  let! (refreshToken, token) := refresh_begin in
  let! (o, dt) := gets (fun w => refresh_adapter E refreshToken token (trace w)) in
  run! effect (advance dt) in
  refresh_resume o refreshToken token.
End Manager.

(** In a run without interruption a promise is known by the completion it
    settles with: [worker w = Some c] says that the slot holds a promise
    that has settled with [c] and was not cleared yet. A refresh of another
    caller that is still pending is not a state of this model; it is one of
    [Loop] below. *)
Abbreviation Settled := (Completion (option JSON)).

Section SequentialManager.
Context (E : Env).

Definition refreshingToken : M Settled (option JSON) :=
  let! tokenObj := getLocalStorageToken in
  if is_null tokenObj then throw_new NoAuthTokenError MNone
  else
    finally
      (try_catch
         (run! (fun w =>
                  match worker w with
                  | None =>
                      let '(w', p) := _refreshingToken E w in
                      (set_worker (Some p) w', Normal tt)
                  | Some _ => (w, Normal tt)
                  end) in
          let! p := gets worker in
          let! nextTokenObj :=
            match p with
            | Some settled => lift settled
            | None => ret (Some JNull)
            end in
          ret nextTokenObj)
         (fun error => throw error))
      (set_worker None).
End SequentialManager.

(** ** The interceptors and the public functions *)

Inductive Ret : Type :=
  | Data (data : option JSON)        (* [resp.data] *)
  | Caught (requestError : Thrown).  (* the value the [catch] received *)

Record Options : Type := mkOptions {
  onSuccess : option NotificationInfo;
  onFail : option NotificationInfo;
}.

Definition opt (config : AxiosConfig) (k : string) : JS :=
  default Undef (opts config !! k).

Definition set_opt (k : string) (v : JS) (config : AxiosConfig) : AxiosConfig :=
  mkConfig (<[k := v]> (opts config)) (headers config).

Definition set_header (k : string) (v : JS) (config : AxiosConfig) : AxiosConfig :=
  mkConfig (opts config) (<[k := v]> (headers config)).

(** [Promise.reject({ config, requestInterceptorError })]. *)
Definition interceptor_rejection (config : AxiosConfig) (err : SimpleError)
  : Thrown :=
  ThrownErr (mkErr PlainObject MNone (Some err) (Some config) None false).

(** [error.response?.status === 401]. *)
Definition status_is_401 (r : option Response) : bool :=
  match r with
  | Some response => (r_status response =? 401)%Z
  | None => false
  end.

(** [_pick(object, paths)]: a fresh object with the listed own keys. *)
Definition _pick (object : gmap string JS) (paths : list string)
  : gmap string JS :=
  foldr (fun k acc =>
           match object !! k with
           | Some v => <[k := v]> acc
           | None => acc
           end) ∅ paths.

(** The object literal [{ url: endpoint, method, data: body, ...configs }]
    of [_callApi], with [method] defaulting to ['get']. *)
Definition request_config (arg : gmap string JS) : AxiosConfig :=
  let endpoint := default Undef (arg !! "endpoint") in
  let method :=
    match arg !! "method" with
    | None | Some Undef => Jv (JStr "get")
    | Some m => m
    end in
  let body := default Undef (arg !! "body") in
  let configs := delete "endpoint" (delete "method" (delete "body" arg)) in
  mkConfig
    (configs ∪ {[ "url" := endpoint; "method" := method; "data" := body ]})
    ∅.

(** [config.disableErrorNotification ?? !!onFail]. *)
Definition disableErrorNotification_default (current : JS)
           (onFail : option NotificationInfo) : JS :=
  if nullish current then Jv (JBool (bool_decide (is_Some onFail)))
  else current.

Section Pipeline.
Context (E : Env).

(** Run a computation and hand back how it completed. *)
Definition attempt {A} (m : M Settled A) : M Settled (Completion A) :=
  fun w => let '(w', c) := m w in (w', Normal c).

Definition request_interceptor (config : AxiosConfig)
  : M Settled AxiosConfig :=
  let withoutAuth := opt config "withoutAuth" in
  if negb (truthy withoutAuth) then
    let! tokenObject := getLocalStorageToken in
    if is_null tokenObject then
      throw (interceptor_rejection config
               (mkSimple NoAuthTokenError (MLit "No access token")))
    else
      let! expired := isTokenExpired E tokenObject in
      if expired then
        throw (interceptor_rejection config
                 (mkSimple AuthTokenExpiredError
                           (MLit "Token is already expired")))
      else
        ret (set_header "Access-Token"
                        (of_json (member "token" tokenObject)) config)
  else ret config.

(** Between the two interceptors the request is handed to the transport,
    which answers with what became of it. *)
Definition dispatch (config : AxiosConfig) : M Settled Response :=
  run! effect (emit (EvHttp config)) in
  let! (o, dt) := gets (fun w => adapter E config (trace w)) in
  run! effect (advance dt) in
  lift (settle config o).

Definition response_onFulfilled (axiosResponse : Response)
  : M Settled Response :=
  let config := r_config axiosResponse in
  let data := r_data axiosResponse in
  if truthy (of_json data) && isReqSuccess E data then ret axiosResponse
  else
    let! code := lift (destructure "code" data) in
    let! status := lift (destructure "status" data) in
    let! message := lift (destructure "message" data) in
    run! (if negb (truthy (opt config "disableErrorNotification")) then
            let notificationTitle := MErrorStatus status in
            let notificationContent :=
              if truthy (of_json message) then MValue (of_json message)
              else MLit "call api failed" in
            displayFailNotification
              {[ "title" := notificationTitle;
                 "content" := notificationContent ]}
          else ret tt) in
    let errorMessage :=
      if truthy (of_json message) then MValue (of_json message)
      else MCodeStatus (if truthy (of_json code) then code else status) in
    throw (ThrownReq
             (mkRequestError
                (Some (ThrownErr (new_error BEResponseError errorMessage)))
                (Some config) (Some axiosResponse) false)).

(** [onReject]; [retry] stands for the call [instance(error.config)]. *)
Definition response_onReject (retry : AxiosConfig -> M Settled Response)
           (error : Thrown) : M Settled Response :=
  if isCancel error then
    throw (ThrownReq (mkRequestError None (t_config error) None true))
  else if instanceof (t_requestInterceptorError error) NoAuthTokenError then
    run! UnauthorizedManager_logout in
    throw (ThrownReq
             (mkRequestError
                (ThrownErr ∘ of_simple <$> t_requestInterceptorError error)
                (t_config error) (t_response error) false))
  else if status_is_401 (t_response error)
          || instanceof (t_requestInterceptorError error)
                        AuthTokenExpiredError then
    let! config :=
      match t_config error with
      | Some c => ret c
      | None => throw_new TypeError MNone
      end in
    if truthy (opt config "retried") then
      run! UnauthorizedManager_logout in
      throw (ThrownReq
               (mkRequestError
                  (Some (ThrownErr
                     (new_error AuthTokenExpiredError
                        (MLit "The request have been retried, but still receive unauthorized error"))))
                  (t_config error) (t_response error) false))
    else
      let! refreshed := attempt (refreshingToken E) in
      match refreshed with
      | Normal _ => retry (set_opt "retried" (Jv (JBool true)) config)
      | Throw error =>
          throw (ThrownReq
                   (mkRequestError (Some error) (t_config error)
                                   (t_response error) false))
      | OutOfFuel => lift OutOfFuel
      end
  else if bool_decide (is_Some (t_response error)) then
    throw (ThrownReq
             (mkRequestError
                (Some (ThrownErr
                   (new_error Error
                      (MLit "Server responded with a status code that is out of range of 2xx"))))
                (t_config error) (t_response error) false))
  else if t_request error then
    throw (ThrownReq
             (mkRequestError
                (Some (ThrownErr (new_error ServerNoResponseError MNone)))
                (t_config error) None false))
  else
    throw (ThrownReq
             (mkRequestError
                (Some (ThrownErr (new_error Error (t_message error))))
                (t_config error) None false)).

(** [instance(config)]: request interceptor, network, response
    interceptor. [fuel] bounds the nesting of [instance] inside [onReject]. *)
Fixpoint instance (fuel : nat) (config : AxiosConfig) : M Settled Response :=
  match fuel with
  | 0 => lift OutOfFuel
  | S fuel' =>
      run! effect (emit (EvInstance config)) in
      let! sent :=
        attempt (let! config' := request_interceptor config in
                 dispatch config') in
      match sent with
      | Normal axiosResponse => response_onFulfilled axiosResponse
      | Throw error => response_onReject (instance fuel') error
      | OutOfFuel => lift OutOfFuel
      end
  end.

Definition _callApi (fuel : nat) (arg : gmap string JS) : M Settled Response :=
  instance fuel (request_config arg).

Definition callApi (fuel : nat) (config : gmap string JS) : M Settled Ret :=
  try_catch
    (let pickedConfig := _pick config PATHS_WHITELIST in
     let! resp := _callApi fuel pickedConfig in
     ret (Data (r_data resp)))
    (fun requestError => ret (Caught requestError)).

(** The [try] / [catch] of [callApiWithNotification]; [config] is a
    reference to the caller's object. *)
Definition callApiWithNotification_try (fuel : nat) (config : nat)
           (options : Options) : M Settled Ret :=
  try_catch
    (let! fields := gets (fun w => default ∅ (objs w !! config)) in
     let pickedConfig := _pick fields PATHS_WHITELIST in
     let! resp := _callApi fuel pickedConfig in
     run! match onSuccess options with
          | Some info => displaySuccessNotification info
          | None => ret tt
          end in
     ret (Data (r_data resp)))
    (fun requestError =>
       run! match onFail options with
            | Some info =>
                if negb (t_isCancelled requestError) then
                  displayFailNotification
                    (info ∪ {[ "mode" := MLit "fail";
                               "content" := t_error_message requestError ]})
                else ret tt
            | None => ret tt
            end in
       ret (Caught requestError)).

Definition callApiWithNotification (fuel : nat) (config : nat)
           (options : Options) : M Settled Ret :=
  let! target := gets (fun w => objs w !! config) in
  match target with
  | None => throw_new TypeError MNone
  | Some fields =>
      let flag :=
        disableErrorNotification_default
          (default Undef (fields !! "disableErrorNotification"))
          (onFail options) in
      run! effect (fun w =>
             set_objs (<[config := <["disableErrorNotification" := flag]> fields]>
                         (objs w)) w) in
      callApiWithNotification_try fuel config options
  end.
End Pipeline.

(** ** The manager under the event loop

    Several tasks call [refreshingToken] while one refresh is in flight.
    [#worker] holds a promise, here an index into the table of promises.
    A task runs until it suspends: a call runs up to [await this.#worker];
    the network's answer resumes [#_refreshingToken], which runs to its end
    and settles its promise; the reactions of a settled promise are queued
    as microtasks and run in the order they were registered. *)

Definition Caller : Type := nat.

Inductive Promise : Type :=
  | Pending (refreshToken token : option JSON) (reactions : list Caller)
  | Done (settled : Settled).

Record Loop : Type := mkLoop {
  world : World nat;
  promises : list Promise;
  microtasks : list (Caller * nat);
  observed : list (Caller * Settled);
}.

Inductive Task : Type :=
  | Call (c : Caller)                       (* a task calls refreshingToken *)
  | Reply (p : nat) (o : Outcome) (dt : nat) (* the refresh request of [p] is answered *)
  | Job.                                    (* the next microtask runs *)

Definition is_pending (p : Promise) : bool :=
  match p with
  | Pending _ _ _ => true
  | Done _ => false
  end.

(** The refreshes that are in flight. *)
Definition live (l : Loop) : nat := length (filter is_pending (promises l)).

Definition is_refresh_post (e : Event) : bool :=
  match e with
  | EvRefreshPost _ _ => true
  | _ => false
  end.

(** The refresh calls issued to the network so far. *)
Definition refresh_posts {P} (w : World P) : nat :=
  length (filter is_refresh_post (trace w)).

Section EventLoop.
Context (E : Env).

(** [this.#worker = this.#_refreshingToken()]. *)
Definition start_worker (l : Loop) : Loop :=
  let p := length (promises l) in
  match refresh_begin (world l) with
  | (w, Normal (refreshToken, token)) =>
      mkLoop (set_worker (Some p) w)
             (promises l ++ [Pending refreshToken token []])
             (microtasks l) (observed l)
  | (w, Throw t) =>
      mkLoop (set_worker (Some p) w) (promises l ++ [Done (Throw t)])
             (microtasks l) (observed l)
  | (w, OutOfFuel) =>
      mkLoop (set_worker (Some p) w) (promises l ++ [Done OutOfFuel])
             (microtasks l) (observed l)
  end.

(** [await this.#worker]: register on a pending promise, or queue the
    continuation when it has already settled. *)
Definition await_worker (c : Caller) (l : Loop) : Loop :=
  match worker (world l) with
  | Some p =>
      match promises l !! p with
      | Some (Pending refreshToken token reactions) =>
          mkLoop (world l)
                 (<[p := Pending refreshToken token (reactions ++ [c])]>
                    (promises l))
                 (microtasks l) (observed l)
      | Some (Done _) =>
          mkLoop (world l) (promises l) (microtasks l ++ [(c, p)])
                 (observed l)
      | None => l
      end
  | None => l
  end.

(** [refreshingToken()] up to its [await]. *)
Definition call (c : Caller) (l : Loop) : Loop :=
  match getLocalStorageToken (world l) with
  | (w, Normal tokenObj) =>
      if is_null tokenObj then
        mkLoop w (promises l) (microtasks l)
               (observed l ++
                  [(c, Throw (ThrownErr (new_error NoAuthTokenError MNone)))])
      else
        let l1 := mkLoop w (promises l) (microtasks l) (observed l) in
        let l2 :=
          match worker w with
          | None => start_worker l1
          | Some _ => l1
          end in
        await_worker c l2
  | (_, _) => l
  end.

(** The answer to the refresh request of promise [p] arrives. *)
Definition reply (p : nat) (o : Outcome) (dt : nat) (l : Loop) : Loop :=
  match promises l !! p with
  | Some (Pending refreshToken token reactions) =>
      let '(w, settled) :=
        refresh_resume E o refreshToken token (advance dt (world l)) in
      mkLoop w (<[p := Done settled]> (promises l))
             (microtasks l ++ ((fun c => (c, p)) <$> reactions))
             (observed l)
  | _ => l
  end.

(** The continuation of [refreshingToken] after its [await]: the caller
    gets the promise's outcome and the [finally] block clears [#worker]. *)
Definition job (l : Loop) : Loop :=
  match microtasks l with
  | [] => l
  | (c, p) :: rest =>
      match promises l !! p with
      | Some (Done settled) =>
          mkLoop (set_worker None (world l)) (promises l) rest
                 (observed l ++ [(c, settled)])
      | _ => mkLoop (world l) (promises l) rest (observed l)
      end
  end.

Definition step (t : Task) (l : Loop) : Loop :=
  match t with
  | Call c => call c l
  | Reply p o dt => reply p o dt l
  | Job => job l
  end.

Definition run (ts : list Task) (l : Loop) : Loop :=
  fold_left (fun l t => step t l) ts l.

(** The states a schedule passes through, the first one included. *)
Fixpoint states (ts : list Task) (l : Loop) : list Loop :=
  l :: match ts with
       | [] => []
       | t :: ts' => states ts' (step t l)
       end.
End EventLoop.

Definition idle (w : World nat) : Loop := mkLoop w [] [] [].

(** [n] callers in the window of one refresh: the calls, the network's
    answer, and the continuations the answer makes runnable. *)
Definition window (callers : list Caller) (o : Outcome) (dt : nat)
  : list Task :=
  (Call <$> callers) ++ [Reply 0 o dt] ++ replicate (length callers) Job.

(** A schedule in which a call is made only when no continuation is
    waiting to run. *)
Fixpoint calls_at_rest (E : Env) (ts : list Task) (l : Loop) : Prop :=
  match ts with
  | [] => True
  | t :: ts' =>
      match t with
      | Call _ => microtasks l = []
      | _ => True
      end /\ calls_at_rest E ts' (step E t l)
  end.

(** The slot and the table agree: a pending promise is the one in the
    slot, and nothing is pending while continuations are queued. *)
Definition slot_invariant (l : Loop) : Prop :=
  (forall p refreshToken token reactions,
      promises l !! p = Some (Pending refreshToken token reactions) ->
      worker (world l) = Some p) /\
  (microtasks l <> [] ->
   forall p x, promises l !! p = Some x -> is_pending x = false).

(** ** Observations on a world *)

Definition is_logout (e : Event) : bool :=
  match e with
  | EvLogout => true
  | _ => false
  end.

(** How many times the token was cleared and the page sent to the root. *)
Definition logouts {P} (w : World P) : nat :=
  length (filter is_logout (trace w)).

Definition is_http (e : Event) : bool :=
  match e with
  | EvHttp _ => true
  | _ => false
  end.

(** The requests handed to the transport. *)
Definition http_requests {P} (w : World P) : nat :=
  length (filter is_http (trace w)).

Definition is_notify (e : Event) : bool :=
  match e with
  | EvNotify _ _ _ => true
  | _ => false
  end.

(** The notifications dispatched so far. *)
Definition notifications {P} (w : World P) : list Event :=
  filter is_notify (trace w).

(** The default of [disableErrorNotification] as the specification words
    it: failure notifications of the pipeline are "enabled only when onFail
    was provided", that is, disabled exactly when it was not. *)
Definition spec_disableErrorNotification_default
           (onFail : option NotificationInfo) : JS :=
  Jv (JBool (negb (bool_decide (is_Some onFail)))).


(** What [getLocalStorageToken] makes of the stored text. *)
Definition read_token (s : option Text) : JSON :=
  match s with
  | Some (Json j) => if typeof_object j then j else JNull
  | Some (NotJson _) | None => JNull
  end.

(** ** Sample data *)

(** The status convention of the backend: [status] 200. *)
Definition sample_isReqSuccess (d : option JSON) : bool :=
  match d with
  | Some j =>
      match member "status" j with
      | Some (JNum 200) => true
      | _ => false
      end
  | None => false
  end.

Definition token_A : JSON :=
  JObj [("token", JStr "A"); ("refreshToken", JStr "R"); ("expireAt", JNum 9000)].

Definition token_B : JSON :=
  JObj [("token", JStr "B"); ("refreshToken", JStr "R2");
        ("expireAt", JNum 900000)].

Definition orders : JSON :=
  JObj [("status", JNum 200); ("code", JStr "CM000000");
        ("data", JArr [JStr "order-1"])].

Definition refresh_ok : Outcome :=
  Responded 200 (Some (JObj [("status", JNum 200); ("data", token_B)])).

Definition refresh_refused : Outcome :=
  Responded 200 (Some (JObj [("status", JStr "FAIL")])).

(** An environment whose network answers every request with [o] and every
    refresh with [r]. *)
Definition sample_env (o r : Outcome) : Env :=
  mkEnv sample_isReqSuccess (fun _ => None)
        (fun _ _ => (o, 5)) (fun _ _ _ => (r, 7)).

Definition world_with {P} (s : option Text) : World P :=
  mkWorld s 10000 None None ∅ [].

(** The errors that take [onReject] to its Unauthorized branch. *)
Definition unauthorized (error : Thrown) : bool :=
  negb (isCancel error)
  && negb (instanceof (t_requestInterceptorError error) NoAuthTokenError)
  && (status_is_401 (t_response error)
      || instanceof (t_requestInterceptorError error) AuthTokenExpiredError).

Definition still_unauthorized : Thrown :=
  ThrownErr
    (new_error AuthTokenExpiredError
       (MLit "The request have been retried, but still receive unauthorized error")).

Definition orders_request : gmap string JS :=
  {[ "endpoint" := Jv (JStr "/orders"); "traceId" := Jv (JNum 7) ]}.

Definition retried_config : AxiosConfig :=
  set_opt "retried" (Jv (JBool true)) (request_config orders_request).

Definition bad_input : Outcome :=
  Responded 200
    (Some (JObj [("status", JStr "FAIL"); ("code", JStr "X");
                 ("message", JStr "bad input")])).

Definition save_failed : NotificationInfo := {[ "title" := MLit "Save failed" ]}.

(** A world in which the caller holds [orders_request] at reference 0. *)
Definition caller_world : World Settled :=
  set_objs {[ 0%nat := orders_request ]} (world_with (Some (Json token_B))).

(** A computation that leaves the caller's objects alone. *)
Definition keeps_objs {P A} (m : M P A) : Prop :=
  forall w, objs (m w).1 = objs w.

(** A computation that, started with no refresh in flight, ends with none
    in flight and does not exhaust its fuel. *)
Definition settles {A} (m : M Settled A) : Prop :=
  forall w, worker w = None ->
            worker (m w).1 = None /\ (m w).2 <> OutOfFuel.

(** A computation whose rejections are RequestErrors, a bare [TypeError]
    excepted. *)
Definition rejects_classified {A} (m : M Settled A) : Prop :=
  forall w,
    match (m w).2 with
    | Throw (ThrownErr e) => e = new_error TypeError MNone
    | _ => True
    end.

Definition is_instance (e : Event) : bool :=
  match e with
  | EvInstance _ => true
  | _ => false
  end.

(** How many times [instance] was entered. *)
Definition instances {P} (w : World P) : nat :=
  length (filter is_instance (trace w)).

(** [w'] was reached from [w] by entering [instance] at most [i] times,
    sending at most [h] requests, issuing at most [r] refresh requests,
    logging out at most [g] times and dispatching at most [n]
    notifications. *)
Definition within {P} (w w' : World P) (i h r g n : nat) : Prop :=
  instances w' <= instances w + i /\
  http_requests w' <= http_requests w + h /\
  refresh_posts w' <= refresh_posts w + r /\
  logouts w' <= logouts w + g /\
  length (notifications w') <= length (notifications w) + n.

(** A computation whose normal results all satisfy [Q]. *)
Definition yields {A} (Q : A -> Prop) (m : M Settled A) : Prop :=
  forall w a, (m w).2 = Normal a -> Q a.

(** What [callApiWithNotification] dispatches after a success, from
    [onSuccess], and after a failure, from [onFail] over the defaults
    [mode: 'fail'] and [content: requestError?.error?.message]. *)
Definition success_notification (info : NotificationInfo) : Event :=
  EvNotify (default MNone (info !! "mode")) (default MNone (info !! "title"))
           (default MNone (info !! "content")).

Definition fail_notification (info : NotificationInfo) (requestError : Thrown)
  : Event :=
  EvNotify (default (MLit "fail") (info !! "mode"))
           (default MNone (info !! "title"))
           (default (t_error_message requestError) (info !! "content")).

(** The notification of the response interceptor for a payload that is
    not a success. *)
Definition pipeline_notification (payload : JSON) : Event :=
  EvNotify (MLit "fail") (MErrorStatus (member "status" payload))
           (if truthy (of_json (member "message" payload))
            then MValue (of_json (member "message" payload))
            else MLit "call api failed").

(** The [BEResponseError] built for such a payload. *)
Definition business_error (payload : JSON) : Thrown :=
  ThrownErr
    (new_error BEResponseError
       (if truthy (of_json (member "message" payload))
        then MValue (of_json (member "message" payload))
        else MCodeStatus
               (if truthy (of_json (member "code" payload))
                then member "code" payload
                else member "status" payload))).

(** ** Basic facts *)

Ltac unfold_M :=
  unfold bind, ret, throw, throw_new, lift, effect, gets, try_catch, finally,
    attempt in *.

Lemma getLocalStorageToken_eq {P} (w : World P) :
  getLocalStorageToken w = (w, Normal (read_token (storage w))).
Proof.
  unfold getLocalStorageToken, read_token, JSON_parse. unfold_M.
  destruct (storage w) as [[j|raw]|]; simpl; try reflexivity.
  destruct (typeof_object j); reflexivity.
Qed.

Lemma read_token_object (s : option Text) :
  typeof_object (read_token s) = true.
Proof.
  destruct s as [[j|raw]|]; simpl; try reflexivity.
  destruct (typeof_object j) eqn:Hj; [exact Hj | reflexivity].
Qed.

Lemma assoc_written (k : string) (ms : list (string * JSON)) :
  assoc k ((fun kv => (kv.1, written kv.2)) <$> ms) = written <$> assoc k ms.
Proof.
  induction ms as [| [k' v] ms IH]; [reflexivity |].
  cbn. destruct (String.eqb k k'); [reflexivity | exact IH].
Qed.

(** Reading back what was stored for a value. *)
Lemma read_token_stringify (j : JSON) :
  read_token (Some (stringify (Some j))) =
    if typeof_object j then written j else JNull.
Proof. destruct j; reflexivity. Qed.

Lemma logouts_emit {P} (w : World P) (e : Event) :
  logouts (emit e w) = (logouts w + (if is_logout e then 1 else 0))%nat.
Proof.
  unfold logouts, emit; simpl. rewrite filter_app, length_app.
  f_equal. destruct (is_logout e) eqn:He.
  - rewrite filter_cons_True by (rewrite He; exact I). reflexivity.
  - rewrite filter_cons_False by (rewrite He; auto). reflexivity.
Qed.

Lemma now_advance {P} (w : World P) (dt : nat) :
  now (advance dt w) = (now w + Z.of_nat dt)%Z.
Proof. reflexivity. Qed.

Lemma trace_advance {P} (w : World P) (dt : nat) :
  trace (advance dt w) = trace w.
Proof. reflexivity. Qed.

Lemma storage_advance {P} (w : World P) (dt : nat) :
  storage (advance dt w) = storage w.
Proof. reflexivity. Qed.

Lemma lock_held_advance {P} (w : World P) (dt : nat) (due : Z) :
  logoutTimeout w = Some due ->
  (now w + Z.of_nat dt < due)%Z ->
  logoutTimeout (advance dt w) = Some due.
Proof.
  intros Hl Hlt. unfold advance; cbn [logoutTimeout]. rewrite Hl.
  destruct (Z.leb_spec due (now w + Z.of_nat dt)); [lia | reflexivity].
Qed.

Lemma lock_released_advance {P} (w : World P) (dt : nat) (due : Z) :
  logoutTimeout w = Some due ->
  (due <= now w + Z.of_nat dt)%Z ->
  logoutTimeout (advance dt w) = None.
Proof.
  intros Hl Hle. unfold advance; cbn [logoutTimeout]. rewrite Hl.
  destruct (Z.leb_spec due (now w + Z.of_nat dt)); [reflexivity | lia].
Qed.

(** What a [logout()] call does on a free lock, and on a held one. *)
Lemma UnauthorizedManager_logout_free {P} (w : World P) :
  logoutTimeout w = None ->
  UnauthorizedManager_logout w =
    (emit EvLogout
       (set_storage None
          (set_logoutTimeout (Some (now w + LOGOUT_LOCK_TIME)%Z) w)),
     Normal tt).
Proof.
  intros H. unfold UnauthorizedManager_logout. rewrite H. reflexivity.
Qed.

Lemma UnauthorizedManager_logout_held {P} (w : World P) (due : Z) :
  logoutTimeout w = Some due ->
  UnauthorizedManager_logout w = (w, Normal tt).
Proof.
  intros H. unfold UnauthorizedManager_logout. rewrite H. reflexivity.
Qed.

Lemma UnauthorizedManager_logout_normal {P} (w : World P) :
  exists w', UnauthorizedManager_logout w = (w', Normal tt).
Proof.
  unfold UnauthorizedManager_logout.
  destruct (logoutTimeout w); eexists; reflexivity.
Qed.

Ltac run_logout :=
  match goal with
  | |- context [UnauthorizedManager_logout ?w] =>
      let wl := fresh "wl" in
      let Hl := fresh "Hl" in
      destruct (UnauthorizedManager_logout_normal w) as [wl Hl];
      rewrite Hl; cbn [fst snd]
  end.

(** ** The scenarios of the specification, run on the model *)

(** An empty store: the call ends at once with [NoAuthTokenError], the
    logout fires once and nothing is sent. *)
Example scenario_no_token :
  let E := sample_env (Responded 200 (Some orders)) refresh_ok in
  let r := callApi E 2 orders_request (world_with None) in
  r.2 = Normal (Caught (ThrownReq
          (mkRequestError
             (Some (ThrownErr (new_error NoAuthTokenError
                                         (MLit "No access token"))))
             (Some (request_config (_pick orders_request PATHS_WHITELIST)))
             None false))) /\
  logouts r.1 = 1 /\ http_requests r.1 = 0 /\ refresh_posts r.1 = 0.
Proof. vm_compute. repeat split; reflexivity. Qed.

(** A 2xx answer whose payload reports a failure: a [BEResponseError]
    result and one notification with the payload's message. *)
Example scenario_business_failure :
  let E := sample_env bad_input refresh_ok in
  let w : World Settled := world_with (Some (Json token_B)) in
  let r := callApi E 2 orders_request w in
  t_class <$> (match r.2 with
               | Normal (Caught (ThrownReq q)) => rq_error q
               | _ => None
               end) = Some BEResponseError /\
  notifications r.1 =
    [EvNotify (MLit "fail") (MErrorStatus (Some (JStr "FAIL")))
              (MValue (Jv (JStr "bad input")))].
Proof. vm_compute. repeat split; reflexivity. Qed.

(** A valid token and a 401: one refresh, then the request is sent again
    with the new token and answered. *)
Example scenario_401_then_refresh :
  let E :=
    mkEnv sample_isReqSuccess (fun _ => None)
          (fun config _ =>
             if truthy (opt config "retried")
             then (Responded 200 (Some orders), 5)
             else (Responded 401 None, 5))
          (fun _ _ _ => (refresh_ok, 7)) in
  let w : World Settled := world_with (Some (Json token_B)) in
  let r := callApi E 2 orders_request w in
  r.2 = Normal (Data (Some orders)) /\
  refresh_posts r.1 = 1 /\ http_requests r.1 = 2 /\ logouts r.1 = 0.
Proof. vm_compute. repeat split; reflexivity. Qed.

(** The refresh is refused by the backend: logout, and the request fails
    with the worker's [BEResponseError]. *)
Example scenario_refresh_refused :
  let E := sample_env (Responded 401 None) refresh_refused in
  let w : World Settled := world_with (Some (Json token_B)) in
  let r := callApi E 2 orders_request w in
  r.2 = Normal (Caught (ThrownReq
          (mkRequestError
             (Some (ThrownErr (new_error BEResponseError
                                 (MLit "Requesting refresh token fail"))))
             None None false))) /\
  logouts r.1 = 1 /\ refresh_posts r.1 = 1 /\ http_requests r.1 = 1.
Proof. vm_compute. repeat split; reflexivity. Qed.

(** * Properties *)

(** C10. [getLocalStorageToken] completes normally whatever the store
    holds; a stored number, string or boolean reads as [null]; an array or
    an object is returned as parsed, whatever members it has; absent or
    malformed text reads as [null]. The store itself is left as it was. *)
Theorem getLocalStorageToken_total (P : Type) (w : World P) :
  (exists v, getLocalStorageToken w = (w, Normal v)) /\
  (forall n, let w' := set_storage (Some (Json (JNum n))) w in
             getLocalStorageToken w' = (w', Normal JNull)) /\
  (forall s, let w' := set_storage (Some (Json (JStr s))) w in
             getLocalStorageToken w' = (w', Normal JNull)) /\
  (forall b, let w' := set_storage (Some (Json (JBool b))) w in
             getLocalStorageToken w' = (w', Normal JNull)) /\
  (forall items, let w' := set_storage (Some (Json (JArr items))) w in
                 getLocalStorageToken w' = (w', Normal (JArr items))) /\
  (forall members, let w' := set_storage (Some (Json (JObj members))) w in
                   getLocalStorageToken w' = (w', Normal (JObj members))) /\
  (forall raw, let w' := set_storage (Some (NotJson raw)) w in
               getLocalStorageToken w' = (w', Normal JNull)) /\
  (let w' := set_storage None w in
   getLocalStorageToken w' = (w', Normal JNull)).
Proof.
  split; [eexists; apply getLocalStorageToken_eq |].
  repeat split; intros; subst w'; rewrite getLocalStorageToken_eq; reflexivity.
Qed.

(** C5. From a free lock, [logout()] clears the token and navigates once;
    a second call less than 1000 ms later changes nothing; a further call
    made more than 1000 ms after the first clears and navigates again. *)
Theorem logout_cooldown (P : Type) (w : World P) (dt1 dt2 : nat) :
  logoutTimeout w = None ->
  (dt1 < 1000)%nat ->
  (1000 < dt1 + dt2)%nat ->
  let w1 := (UnauthorizedManager_logout w).1 in
  let w2 := (UnauthorizedManager_logout (advance dt1 w1)).1 in
  let w3 := (UnauthorizedManager_logout (advance dt2 w2)).1 in
  logouts w1 = S (logouts w) /\ storage w1 = None /\
  w2 = advance dt1 w1 /\ logouts w2 = S (logouts w) /\
  logouts w3 = S (S (logouts w)) /\ storage w3 = None.
Proof.
  intros Hfree Hd1 Hd2.
  rewrite (UnauthorizedManager_logout_free w Hfree). cbn [fst].
  set (wa := emit EvLogout _).
  assert (Ha : logoutTimeout wa = Some (now w + 1000)%Z) by reflexivity.
  assert (Hn : now wa = now w) by reflexivity.
  assert (Hl : logouts wa = S (logouts w)).
  { unfold wa. rewrite logouts_emit. cbn [is_logout]. unfold logouts. simpl. lia. }
  assert (Hb : logoutTimeout (advance dt1 wa) = Some (now w + 1000)%Z).
  { apply lock_held_advance; [exact Ha | rewrite Hn; lia]. }
  rewrite (UnauthorizedManager_logout_held _ _ Hb). cbn [fst].
  assert (Hc : logoutTimeout (advance dt2 (advance dt1 wa)) = None).
  { apply (lock_released_advance _ _ _ Hb). rewrite now_advance, Hn. lia. }
  rewrite (UnauthorizedManager_logout_free _ Hc). cbn [fst].
  repeat split; try assumption; try reflexivity.
  rewrite logouts_emit. cbn [is_logout].
  change (logouts (advance dt2 (advance dt1 wa)) + 1 = S (S (logouts w)))%nat.
  change (logouts (advance dt2 (advance dt1 wa))) with (logouts wa). lia.
Qed.

Lemma logout_cooldown_witness :
  let w : World Settled := world_with (Some (Json token_A)) in
  logouts (UnauthorizedManager_logout
             (advance 999 (UnauthorizedManager_logout w).1)).1 = 1%nat.
Proof.
  intro w.
  pose proof (logout_cooldown Settled w 999 2 eq_refl) as H.
  destruct H as (_ & _ & _ & H & _); [lia | lia |]. exact H.
Defined.

(** *** The refresh worker *)

Lemma refresh_begin_eq {P} (w : World P) :
  refresh_begin w =
    let tokenObj := read_token (storage w) in
    if is_null tokenObj then
      (w, Throw (ThrownErr (new_error NoAuthTokenError MNone)))
    else
      (emit (EvRefreshPost (member "refreshToken" tokenObj)
                           (member "token" tokenObj)) w,
       Normal (member "refreshToken" tokenObj, member "token" tokenObj)).
Proof.
  unfold refresh_begin. unfold bind at 1. rewrite getLocalStorageToken_eq.
  cbv zeta. destruct (is_null (read_token (storage w))); reflexivity.
Qed.

Lemma _refreshingToken_eq {P} (E : Env) (w : World P) :
  _refreshingToken E w =
    let tokenObj := read_token (storage w) in
    let refreshToken := member "refreshToken" tokenObj in
    let token := member "token" tokenObj in
    if is_null tokenObj then
      (w, Throw (ThrownErr (new_error NoAuthTokenError MNone)))
    else
      let w0 := emit (EvRefreshPost refreshToken token) w in
      let answer := refresh_adapter E refreshToken token (trace w0) in
      refresh_resume E answer.1 refreshToken token (advance answer.2 w0).
Proof.
  unfold _refreshingToken. unfold bind at 1. rewrite refresh_begin_eq.
  cbv zeta. destruct (is_null (read_token (storage w))); [reflexivity |].
  unfold bind at 1, gets at 1.
  destruct (refresh_adapter _ _ _ _) as [o dt]. reflexivity.
Qed.

(** C3 as stated fails when no token record is stored: the refresh
    operation throws [NoAuthTokenError] before its [try] block and leaves
    the world as it was, whereas a [logout()] call would have taken the
    lock and cleared the page. A request sent with [withoutAuth] that is
    answered with 401 while the store is empty reaches this path: the call
    fails and no logout happens. *)
Lemma refresh_without_token_skips_logout :
  let w : World Settled := world_with None in
  let E := sample_env (Responded 401 None) NoReply in
  let no_token := Throw (ThrownErr (new_error NoAuthTokenError MNone)) in
  _refreshingToken E w = (w, no_token) /\
  refreshingToken E w = (w, no_token) /\
  (UnauthorizedManager_logout w).1 <> w /\
  let r := callApi E 2 (<["withoutAuth" := Jv (JBool true)]> orders_request) w in
  r.2 = Normal (Caught (ThrownReq
          (mkRequestError
             (Some (ThrownErr (new_error NoAuthTokenError MNone)))
             None None false))) /\
  logouts r.1 = 0 /\ http_requests r.1 = 1 /\ refresh_posts r.1 = 0.
Proof.
  split; [reflexivity |]. split; [reflexivity |]. split; [discriminate |].
  vm_compute. repeat split; reflexivity.
Qed.

(** C3, amended. With no token record the worker fails with
    [NoAuthTokenError] and does nothing else. With a token record, every
    failure of the worker calls [logout()] once the network has answered,
    and the error it throws is: the [BEResponseError] it raised itself when
    the payload is not a success; a fresh generic error when a response
    outside 2xx was received; a fresh "No response was received" error when
    the request was sent and nothing came back; and otherwise the caught
    error itself (a set-up failure, a cancellation, a [TypeError] on a
    payload without an object). *)
Theorem refresh_failure_classified (P : Type) (E : Env) (w : World P) :
  let tokenObj := read_token (storage w) in
  let refreshToken := member "refreshToken" tokenObj in
  let token := member "token" tokenObj in
  let w0 := emit (EvRefreshPost refreshToken token) w in
  let answer := refresh_adapter E refreshToken token (trace w0) in
  let w1 := advance answer.2 w0 in
  let logged_out := (UnauthorizedManager_logout w1).1 in
  let fails_with t := _refreshingToken E w = (logged_out, Throw t) in
  (is_null tokenObj = true ->
   _refreshingToken E w =
     (w, Throw (ThrownErr (new_error NoAuthTokenError MNone)))) /\
  (is_null tokenObj = false ->
   match answer.1 with
   | Responded status data =>
       if ((200 <=? status) && (status <? 300))%Z then
         if isReqSuccess E data then
           match destructure "data" data with
           | Normal d =>
               _refreshingToken E w =
                 (set_storage (Some (stringify d)) w1, Normal d)
           | Throw t => fails_with t
           | OutOfFuel => True
           end
         else
           fails_with
             (ThrownErr (new_error BEResponseError
                                   (MLit "Requesting refresh token fail")))
       else
         fails_with
           (ThrownErr (new_error Error
              (MLit "Server responded with HTTP status code out of the range of 2xx")))
   | NoReply =>
       fails_with (ThrownErr (new_error Error (MLit "No response was received")))
   | SetupFailure m =>
       fails_with
         (ThrownErr (mkErr Error m None
                           (Some (refresh_config refreshToken token)) None false))
   | Cancelled m =>
       fails_with (ThrownErr (mkErr Cancel m None None None false))
   end).
Proof.
  cbv zeta. rewrite _refreshingToken_eq. cbv zeta.
  destruct (is_null (read_token (storage w))) eqn:Hnull.
  - split; [reflexivity | discriminate].
  - split; [discriminate | intros _].
    set (rt := member "refreshToken" _). set (tok := member "token" _).
    set (w0 := emit _ w).
    destruct (refresh_adapter E rt tok (trace w0)) as [o dt].
    cbn [fst snd].
    unfold refresh_resume, try_catch, refresh_try, refresh_catch.
    destruct o as [status data | | m | m]; cbn [settle].
    + destruct ((200 <=? status) && (status <? 300))%Z eqn:H2xx.
      * unfold_M. cbn [r_data].
        destruct (isReqSuccess E data) eqn:Hok.
        -- destruct data as [[]|]; cbn; try reflexivity; run_logout; reflexivity.
        -- cbn. run_logout; reflexivity.
      * unfold_M; cbn. run_logout; reflexivity.
    + unfold_M; cbn. run_logout; reflexivity.
    + unfold_M; cbn. run_logout; reflexivity.
    + unfold_M; cbn. run_logout; reflexivity.
Qed.

Lemma refresh_failure_classified_witness :
  let w : World Settled := world_with (Some (Json token_A)) in
  exists w',
    _refreshingToken (sample_env NoReply NoReply) w =
      (w', Throw (ThrownErr (new_error Error (MLit "No response was received"))))
    /\ logouts w' = 1%nat.
Proof.
  intro w. eexists. split.
  - exact (proj2 (refresh_failure_classified Settled
                    (sample_env NoReply NoReply) w) eq_refl).
  - reflexivity.
Defined.

Lemma refreshingToken_idle (E : Env) (w : World Settled) :
  worker w = None ->
  refreshingToken E w =
    if is_null (read_token (storage w)) then
      (w, Throw (ThrownErr (new_error NoAuthTokenError MNone)))
    else
      (set_worker None (_refreshingToken E w).1, (_refreshingToken E w).2).
Proof.
  intros Hidle. unfold refreshingToken. unfold bind at 1.
  rewrite getLocalStorageToken_eq.
  destruct (is_null (read_token (storage w))); [reflexivity |].
  unfold finally, try_catch. unfold bind at 1. rewrite Hidle.
  destruct (_refreshingToken E w) as [w1 c]. cbn [fst snd].
  unfold_M. cbn. destruct c; reflexivity.
Qed.

(** What the worker can throw carries no response, and no configuration
    other than that of the refresh request itself. *)
Lemma _refreshingToken_throws {P} (E : Env) (w w' : World P) (e : Thrown) :
  _refreshingToken E w = (w', Throw e) ->
  t_response e = None /\
  (t_config e = None \/
   exists refreshToken token,
     t_config e = Some (refresh_config refreshToken token)).
Proof.
  rewrite _refreshingToken_eq. cbv zeta.
  destruct (is_null (read_token (storage w))).
  { intros [= <- <-]. split; [reflexivity | left; reflexivity]. }
  set (rt := member "refreshToken" _). set (tok := member "token" _).
  set (w0 := emit _ w).
  destruct (refresh_adapter E rt tok (trace w0)) as [o dt]. cbn [fst snd].
  unfold refresh_resume, try_catch, refresh_try, refresh_catch.
  destruct o as [status data | | m | m]; cbn [settle].
  - destruct ((200 <=? status) && (status <? 300))%Z.
    + unfold_M. cbn [r_data]. destruct (isReqSuccess E data).
      * destruct data as [[]|]; cbn; try discriminate; run_logout;
          intros [= <- <-]; split; auto.
      * cbn. run_logout. intros [= <- <-]; split; auto.
    + unfold_M; cbn. run_logout. intros [= <- <-]; split; auto.
  - unfold_M; cbn. run_logout. intros [= <- <-]; split; auto.
  - unfold_M; cbn. run_logout. intros [= <- <-]; split; [reflexivity |].
    right. exists rt, tok. reflexivity.
  - unfold_M; cbn. run_logout. intros [= <- <-]; split; auto.
Qed.

(** *** The response interceptor *)

Lemma response_onReject_unauthorized (E : Env)
      (retry : AxiosConfig -> M Settled Response) (error : Thrown)
      (config : AxiosConfig) (w : World Settled) :
  unauthorized error = true ->
  t_config error = Some config ->
  response_onReject E retry error w =
    if truthy (opt config "retried") then
      ((UnauthorizedManager_logout w).1,
       Throw (ThrownReq (mkRequestError (Some still_unauthorized)
                           (t_config error) (t_response error) false)))
    else
      match refreshingToken E w with
      | (w', Normal _) => retry (set_opt "retried" (Jv (JBool true)) config) w'
      | (w', Throw e) =>
          (w', Throw (ThrownReq (mkRequestError (Some e) (t_config e)
                                   (t_response e) false)))
      | (w', OutOfFuel) => (w', OutOfFuel)
      end.
Proof.
  unfold unauthorized. intros Hu Hc.
  apply andb_prop in Hu as [Hu H401]. apply andb_prop in Hu as [Hcan Hno].
  apply negb_true_iff in Hcan, Hno.
  unfold response_onReject. rewrite Hcan, Hno, H401, Hc.
  unfold bind at 1, ret at 1.
  destruct (truthy (opt config "retried")).
  - unfold_M. run_logout. reflexivity.
  - unfold_M. destruct (refreshingToken E w) as [w' [a | e |]]; reflexivity.
Qed.

Lemma unauthorized_401 (config : AxiosConfig) (data : option JSON) :
  settle config (Responded 401 data) =
    Throw (ThrownErr (mkErr Error (MLit "Request failed") None (Some config)
                            (Some (mkResponse 401 data config)) true)) /\
  unauthorized
    (ThrownErr (mkErr Error (MLit "Request failed") None (Some config)
                      (Some (mkResponse 401 data config)) true)) = true.
Proof. split; reflexivity. Qed.

Lemma unauthorized_expired (config : AxiosConfig) (m : Msg) :
  unauthorized
    (interceptor_rejection config (mkSimple AuthTokenExpiredError m)) = true.
Proof. reflexivity. Qed.

Lemma refresh_posts_emit {P} (w : World P) (e : Event) :
  refresh_posts (emit e w) =
    (refresh_posts w + (if is_refresh_post e then 1 else 0))%nat.
Proof.
  unfold refresh_posts, emit; simpl. rewrite filter_app, length_app.
  f_equal. destruct (is_refresh_post e) eqn:He.
  - rewrite filter_cons_True by (rewrite He; exact I). reflexivity.
  - rewrite filter_cons_False by (rewrite He; auto). reflexivity.
Qed.

Lemma refresh_posts_logout {P} (w : World P) :
  refresh_posts (UnauthorizedManager_logout w).1 = refresh_posts w.
Proof.
  unfold UnauthorizedManager_logout, logout, effect.
  destruct (logoutTimeout w); [reflexivity |].
  cbn [fst]. rewrite refresh_posts_emit. cbn [is_refresh_post].
  unfold refresh_posts; cbn. lia.
Qed.

Lemma worker_logout {P} (w : World P) :
  worker (UnauthorizedManager_logout w).1 = worker w.
Proof.
  unfold UnauthorizedManager_logout, logout, effect.
  destruct (logoutTimeout w); reflexivity.
Qed.

Lemma response_onReject_retried (E : Env)
      (retry : AxiosConfig -> M Settled Response) (config : AxiosConfig)
      (w : World Settled) :
  truthy (opt config "retried") = true ->
  (forall data error,
      settle config (Responded 401 data) = Throw error ->
      response_onReject E retry error w =
        ((UnauthorizedManager_logout w).1,
         Throw (ThrownReq
                  (mkRequestError (Some still_unauthorized) (Some config)
                     (Some (mkResponse 401 data config)) false)))) /\
  (forall m,
      response_onReject E retry
        (interceptor_rejection config (mkSimple AuthTokenExpiredError m)) w =
        ((UnauthorizedManager_logout w).1,
         Throw (ThrownReq
                  (mkRequestError (Some still_unauthorized) (Some config)
                     None false)))).
Proof.
  intros Hretried. split.
  - intros data error Hs.
    destruct (unauthorized_401 config data) as [Hs' Hu].
    rewrite Hs' in Hs. injection Hs as <-.
    rewrite (response_onReject_unauthorized E retry _ config w Hu eq_refl).
    rewrite Hretried. reflexivity.
  - intros m.
    rewrite (response_onReject_unauthorized E retry _ config w
               (unauthorized_expired config m) eq_refl).
    rewrite Hretried. reflexivity.
Qed.

(** C4. A request already marked [retried] that is answered with HTTP 401,
    or that is rejected before sending because the stored token has
    expired, ends there: the manager's [logout()] is called (which, on a
    free lock, clears the token and navigates exactly once), the rejection
    is a RequestError holding an [AuthTokenExpiredError], the retry is not
    consulted, no refresh request is issued and [#worker] is untouched. *)
Theorem retried_unauthorized_is_terminal (E : Env)
        (retry : AxiosConfig -> M Settled Response) (config : AxiosConfig)
        (w : World Settled) :
  truthy (opt config "retried") = true ->
  let logged_out := (UnauthorizedManager_logout w).1 in
  (forall data error,
      settle config (Responded 401 data) = Throw error ->
      response_onReject E retry error w =
        (logged_out,
         Throw (ThrownReq
                  (mkRequestError (Some still_unauthorized) (Some config)
                     (Some (mkResponse 401 data config)) false)))) /\
  (forall m,
      response_onReject E retry
        (interceptor_rejection config (mkSimple AuthTokenExpiredError m)) w =
        (logged_out,
         Throw (ThrownReq
                  (mkRequestError (Some still_unauthorized) (Some config)
                     None false)))) /\
  refresh_posts logged_out = refresh_posts w /\
  worker logged_out = worker w /\
  (logoutTimeout w = None -> logouts logged_out = S (logouts w)).
Proof.
  intros Hretried logged_out.
  destruct (response_onReject_retried E retry config w Hretried) as [H401 Hexp].
  split; [exact H401 |]. split; [exact Hexp |]. repeat split.
  - apply refresh_posts_logout.
  - apply worker_logout.
  - intros Hfree. unfold logged_out.
    rewrite (UnauthorizedManager_logout_free w Hfree). cbn [fst].
    rewrite logouts_emit. cbn [is_logout]. unfold logouts. cbn. lia.
Qed.

Lemma retried_unauthorized_is_terminal_witness :
  let w : World Settled := world_with (Some (Json token_A)) in
  let E := sample_env NoReply NoReply in
  response_onReject E (instance E 1)
    (interceptor_rejection retried_config
       (mkSimple AuthTokenExpiredError (MLit "Token is already expired"))) w =
    ((UnauthorizedManager_logout w).1,
     Throw (ThrownReq
              (mkRequestError (Some still_unauthorized) (Some retried_config)
                 None false))).
Proof.
  intros w E.
  exact (proj1 (proj2 (retried_unauthorized_is_terminal E (instance E 1)
                         retried_config w eq_refl)) _).
Defined.

(** C8. When the refresh fails on the Unauthorized path of a request not
    yet retried, the rejection is a RequestError whose [error] is the
    refresh error and whose [config] and [response] are those of the
    refresh error, not of the error that was being handled: for a worker
    started by this call the response is absent and the configuration is
    absent or is the refresh request's own. *)
Theorem refresh_failure_shadows_original (E : Env)
        (retry : AxiosConfig -> M Settled Response) (config : AxiosConfig)
        (w w' : World Settled) (e : Thrown) :
  truthy (opt config "retried") = false ->
  refreshingToken E w = (w', Throw e) ->
  let rejected :=
    (w', Throw (ThrownReq (mkRequestError (Some e) (t_config e)
                             (t_response e) false))) in
  (forall data error,
      settle config (Responded 401 data) = Throw error ->
      t_config error = Some config /\
      t_response error = Some (mkResponse 401 data config) /\
      response_onReject E retry error w = rejected) /\
  (forall m,
      response_onReject E retry
        (interceptor_rejection config (mkSimple AuthTokenExpiredError m)) w =
        rejected) /\
  (worker w = None ->
   t_response e = None /\
   (t_config e = None \/
    exists refreshToken token,
      t_config e = Some (refresh_config refreshToken token))).
Proof.
  intros Hfirst Hfail rejected. split; [| split].
  - intros data error Hs.
    destruct (unauthorized_401 config data) as [Hs' Hu].
    rewrite Hs' in Hs. injection Hs as <-.
    split; [reflexivity | split; [reflexivity |]].
    rewrite (response_onReject_unauthorized E retry _ config w Hu eq_refl).
    rewrite Hfirst, Hfail. reflexivity.
  - intros m.
    rewrite (response_onReject_unauthorized E retry _ config w
               (unauthorized_expired config m) eq_refl).
    rewrite Hfirst, Hfail. reflexivity.
  - intros Hidle. rewrite (refreshingToken_idle E w Hidle) in Hfail.
    destruct (is_null (read_token (storage w))).
    + injection Hfail as <- <-. split; [reflexivity | left; reflexivity].
    + destruct (_refreshingToken E w) as [w1 c] eqn:Hw. cbn in Hfail.
      injection Hfail as <- ->.
      exact (_refreshingToken_throws E w _ _ Hw).
Qed.

Lemma refresh_failure_shadows_original_witness :
  let E := sample_env NoReply NoReply in
  let w : World Settled := world_with (Some (Json token_A)) in
  let config := request_config orders_request in
  response_onReject E (instance E 1)
    (interceptor_rejection config
       (mkSimple AuthTokenExpiredError (MLit "Token is already expired"))) w =
    ((refreshingToken E w).1,
     Throw (ThrownReq
              (mkRequestError
                 (Some (ThrownErr
                          (new_error Error (MLit "No response was received"))))
                 None None false))).
Proof.
  intros E w config.
  refine (proj1 (proj2 (refresh_failure_shadows_original E (instance E 1)
                          config w (refreshingToken E w).1
                          (ThrownErr (new_error Error
                                        (MLit "No response was received")))
                          _ _)) _).
  - vm_compute. reflexivity.
  - vm_compute. reflexivity.
Defined.

(** *** The caller's objects *)

Section Frame.
Context {P : Type}.

Lemma keeps_ret {A} (a : A) : keeps_objs (P := P) (ret a).
Proof. intros w. reflexivity. Qed.

Lemma keeps_throw {A} (t : Thrown) : keeps_objs (P := P) (A := A) (throw t).
Proof. intros w. reflexivity. Qed.

Lemma keeps_throw_new {A} (c : ErrClass) (m : Msg) :
  keeps_objs (P := P) (A := A) (throw_new c m).
Proof. intros w. reflexivity. Qed.

Lemma keeps_lift {A} (c : Completion A) : keeps_objs (P := P) (lift c).
Proof. intros w. reflexivity. Qed.

Lemma keeps_gets {A} (f : World P -> A) : keeps_objs (gets f).
Proof. intros w. reflexivity. Qed.

Lemma keeps_effect (f : World P -> World P) :
  (forall w, objs (f w) = objs w) -> keeps_objs (effect f).
Proof. intros H w. apply H. Qed.

Lemma keeps_bind {A B} (m : M P A) (k : A -> M P B) :
  keeps_objs m -> (forall a, keeps_objs (k a)) -> keeps_objs (bind m k).
Proof.
  intros Hm Hk w. unfold bind. specialize (Hm w).
  destruct (m w) as [w' [a | t |]]; cbn [fst] in *; [| assumption..].
  rewrite (Hk a w'). exact Hm.
Qed.

Lemma keeps_try_catch {A} (body : M P A) (handler : Thrown -> M P A) :
  keeps_objs body -> (forall t, keeps_objs (handler t)) ->
  keeps_objs (try_catch body handler).
Proof.
  intros Hb Hh w. unfold try_catch. specialize (Hb w).
  destruct (body w) as [w' [a | t |]]; cbn [fst] in *; [assumption | | assumption].
  rewrite (Hh t w'). exact Hb.
Qed.

Lemma keeps_finally {A} (body : M P A) (cleanup : World P -> World P) :
  keeps_objs body -> (forall w, objs (cleanup w) = objs w) ->
  keeps_objs (finally body cleanup).
Proof.
  intros Hb Hc w. unfold finally. specialize (Hb w).
  destruct (body w) as [w' c]; cbn [fst] in *. rewrite Hc. exact Hb.
Qed.
End Frame.

Ltac keeps :=
  repeat first
    [ apply keeps_ret | apply keeps_throw | apply keeps_throw_new
    | apply keeps_lift | apply keeps_gets
    | apply keeps_effect; intros; reflexivity
    | apply keeps_bind; [| intros]
    | apply keeps_try_catch; [| intros]
    | apply keeps_finally; [| intros; reflexivity]
    | solve [eauto 2]
    | match goal with
      | |- keeps_objs (if ?b then _ else _) => destruct b
      | |- keeps_objs (match ?x with _ => _ end) => destruct x
      | |- keeps_objs (let '(_, _) := ?x in _) => destruct x
      end ].

Lemma keeps_getLocalStorageToken {P} :
  keeps_objs (P := P) getLocalStorageToken.
Proof. unfold getLocalStorageToken. keeps. Qed.

Lemma keeps_logout {P} : keeps_objs (P := P) UnauthorizedManager_logout.
Proof.
  intros w. unfold UnauthorizedManager_logout, logout, effect.
  destruct (logoutTimeout w); reflexivity.
Qed.

Lemma keeps__refreshingToken {P} (E : Env) :
  keeps_objs (P := P) (_refreshingToken E).
Proof.
  pose proof (@keeps_getLocalStorageToken P).
  pose proof (@keeps_logout P).
  unfold _refreshingToken, refresh_begin, refresh_resume, refresh_try,
    refresh_catch.
  keeps.
Qed.

Lemma keeps_refreshingToken (E : Env) : keeps_objs (refreshingToken E).
Proof.
  pose proof (@keeps_getLocalStorageToken Settled).
  unfold refreshingToken. keeps.
  intros w. destruct (worker w); [reflexivity |].
  pose proof (keeps__refreshingToken (P := Settled) E w) as Hk.
  destruct (_refreshingToken E w) as [w' c]. exact Hk.
Qed.

Lemma keeps_attempt {A} (m : M Settled A) :
  keeps_objs m -> keeps_objs (attempt m).
Proof.
  intros Hm w. unfold attempt. specialize (Hm w).
  destruct (m w) as [w' c]. exact Hm.
Qed.

Lemma keeps_request_interceptor (E : Env) (config : AxiosConfig) :
  keeps_objs (request_interceptor E config).
Proof.
  pose proof (@keeps_getLocalStorageToken Settled).
  unfold request_interceptor, isTokenExpired. keeps.
Qed.

Lemma keeps_dispatch (E : Env) (config : AxiosConfig) :
  keeps_objs (dispatch E config).
Proof. unfold dispatch. keeps. Qed.

Lemma keeps_response_onFulfilled (E : Env) (axiosResponse : Response) :
  keeps_objs (response_onFulfilled E axiosResponse).
Proof.
  unfold response_onFulfilled, displayFailNotification, _displayNotification.
  keeps.
Qed.

Lemma keeps_response_onReject (E : Env)
      (retry : AxiosConfig -> M Settled Response) (error : Thrown) :
  (forall c, keeps_objs (retry c)) ->
  keeps_objs (response_onReject E retry error).
Proof.
  intros Hretry.
  pose proof (@keeps_logout Settled).
  pose proof (keeps_attempt _ (keeps_refreshingToken E)).
  unfold response_onReject. keeps.
Qed.

Lemma keeps_instance (E : Env) (fuel : nat) (config : AxiosConfig) :
  keeps_objs (instance E fuel config).
Proof.
  revert config. induction fuel as [| fuel IH]; intros config.
  - cbn. keeps.
  - cbn [instance].
    pose proof (keeps_request_interceptor E config).
    assert (forall c, keeps_objs (dispatch E c)) by (apply keeps_dispatch).
    assert (forall r, keeps_objs (response_onFulfilled E r))
      by (apply keeps_response_onFulfilled).
    assert (forall e, keeps_objs (response_onReject E (instance E fuel) e))
      by (intros e; apply keeps_response_onReject; exact IH).
    keeps. apply keeps_attempt. keeps.
Qed.

Lemma keeps_callApiWithNotification_try (E : Env) (fuel config : nat)
      (options : Options) :
  keeps_objs (callApiWithNotification_try E fuel config options).
Proof.
  assert (forall c, keeps_objs (instance E fuel c))
    by (apply keeps_instance).
  unfold callApiWithNotification_try, _callApi, displaySuccessNotification,
    displayFailNotification, _displayNotification.
  keeps.
Qed.

(** *** The facade with notifications *)

(** C9. [callApiWithNotification] first writes [disableErrorNotification]
    into the caller's own object and then makes the call on that object;
    when it returns, the caller's objects are exactly as that one write
    left them: the field holds the written value and every other field of
    the object is as the caller supplied it. *)
Theorem callApiWithNotification_writes_flag (E : Env) (fuel config : nat)
        (options : Options) (w : World Settled) (fields : gmap string JS) :
  objs w !! config = Some fields ->
  let flag :=
    disableErrorNotification_default
      (default Undef (fields !! "disableErrorNotification")) (onFail options) in
  let written :=
    set_objs (<[config := <["disableErrorNotification" := flag]> fields]>
                (objs w)) w in
  let after := (callApiWithNotification E fuel config options w).1 in
  callApiWithNotification E fuel config options w =
    callApiWithNotification_try E fuel config options written /\
  objs after = objs written /\
  (exists fields',
      objs after !! config = Some fields' /\
      fields' !! "disableErrorNotification" = Some flag /\
      forall k, k <> "disableErrorNotification" -> fields' !! k = fields !! k).
Proof.
  intros Hobj flag written after.
  assert (Hrun : callApiWithNotification E fuel config options w =
                 callApiWithNotification_try E fuel config options written).
  { unfold callApiWithNotification. unfold bind at 1, gets at 1.
    rewrite Hobj. reflexivity. }
  assert (Hkeep : objs after = objs written).
  { unfold after. rewrite Hrun. apply keeps_callApiWithNotification_try. }
  split; [exact Hrun | split; [exact Hkeep |]].
  exists (<["disableErrorNotification" := flag]> fields).
  rewrite Hkeep. unfold written; cbn [objs set_objs].
  split; [apply lookup_insert_eq | split].
  - apply lookup_insert_eq.
  - intros k Hk. apply lookup_insert_ne. congruence.
Qed.

Lemma callApiWithNotification_writes_flag_witness :
  let E := sample_env bad_input NoReply in
  let after :=
    (callApiWithNotification E 2 0 (mkOptions None (Some save_failed))
       caller_world).1 in
  objs after =
    <[0%nat := <["disableErrorNotification" := Jv (JBool true)]> orders_request]>
      (objs caller_world).
Proof.
  intros E after.
  exact (proj1 (proj2 (callApiWithNotification_writes_flag E 2 0
                         (mkOptions None (Some save_failed)) caller_world
                         orders_request eq_refl))).
Defined.

Lemma _pick_lookup (object : gmap string JS) (paths : list string) (k : string) :
  _pick object paths !! k =
    if bool_decide (k ∈ paths) then object !! k else None.
Proof.
  induction paths as [| p ps IH]; cbn [_pick foldr].
  - rewrite bool_decide_eq_false_2 by apply not_elem_of_nil. apply lookup_empty.
  - fold (_pick object ps). destruct (decide (k = p)) as [-> | Hne].
    + rewrite bool_decide_eq_true_2 by (apply elem_of_cons; left; reflexivity).
      destruct (object !! p) as [v |].
      * apply lookup_insert_eq.
      * rewrite IH. destruct (bool_decide (p ∈ ps)); reflexivity.
    + assert (Hin : bool_decide (k ∈ p :: ps) = bool_decide (k ∈ ps)).
      { apply bool_decide_ext. rewrite elem_of_cons.
        split; [intros [? | ?]; [congruence | assumption] | auto]. }
      rewrite Hin, <- IH.
      destruct (object !! p); [apply lookup_insert_ne; congruence | reflexivity].
Qed.

Lemma opt_request_config (arg : gmap string JS) (k : string) :
  k ∉ ["endpoint"; "method"; "body"; "url"; "data"] ->
  opt (request_config arg) k = default Undef (arg !! k).
Proof.
  intros Hk. unfold opt, request_config; cbn [opts].
  rewrite !not_elem_of_cons in Hk.
  destruct Hk as (He & Hm & Hb & Hu & Hd & _).
  rewrite lookup_union.
  rewrite !lookup_delete_ne by congruence.
  rewrite !lookup_insert_ne by congruence.
  rewrite lookup_singleton_ne by congruence.
  destruct (arg !! k); reflexivity.
Qed.

Lemma notifications_emit {P} (w : World P) (e : Event) :
  notifications (emit e w) =
    (notifications w ++ (if is_notify e then [e] else []))%list.
Proof.
  unfold notifications, emit; cbn [trace]. rewrite filter_app. f_equal.
  destruct (is_notify e) eqn:He.
  - rewrite filter_cons_True by (rewrite He; exact I). reflexivity.
  - rewrite filter_cons_False by (rewrite He; auto). reflexivity.
Qed.

Lemma destructure_object (k : string) (payload : JSON) :
  is_null payload = false ->
  destructure k (Some payload) = Normal (member k payload).
Proof. destruct payload; [discriminate | reflexivity..]. Qed.

Lemma displayFailNotification_pipeline {P} (title content : Msg) (w : World P) :
  displayFailNotification {[ "title" := title; "content" := content ]} w =
    (emit (EvNotify (MLit "fail") title content) w, Normal tt).
Proof.
  unfold displayFailNotification, _displayNotification, effect.
  rewrite !lookup_union.
  rewrite lookup_insert_eq.
  rewrite !lookup_insert_ne by discriminate.
  rewrite lookup_singleton_eq.
  rewrite !lookup_singleton_ne by discriminate.
  reflexivity.
Qed.

(** What [onFulfilled] does with a payload that is not a success. *)
Lemma response_onFulfilled_failure (E : Env) (axiosResponse : Response)
      (payload : JSON) (w : World Settled) :
  r_data axiosResponse = Some payload ->
  is_null payload = false ->
  truthy_json payload && isReqSuccess E (Some payload) = false ->
  response_onFulfilled E axiosResponse w =
    ((if truthy (opt (r_config axiosResponse) "disableErrorNotification")
      then w else emit (pipeline_notification payload) w),
     Throw (ThrownReq
              (mkRequestError (Some (business_error payload))
                 (Some (r_config axiosResponse)) (Some axiosResponse) false))).
Proof.
  intros Hdata Hnn Hfail. unfold response_onFulfilled.
  rewrite Hdata. cbn [of_json truthy]. rewrite Hfail.
  rewrite !(destructure_object _ _ Hnn).
  unfold bind at 3, lift at 3. unfold bind at 2, lift at 2.
  unfold bind at 1, lift at 1. unfold bind at 1.
  destruct (truthy (opt (r_config axiosResponse) "disableErrorNotification"));
    cbn [negb].
  - reflexivity.
  - rewrite displayFailNotification_pipeline. reflexivity.
Qed.

(** C7 as stated fails when [onFail] is supplied without an explicit flag:
    the flag written is [true], not the stated default, and on a business
    failure the only notification is the facade's own, built from
    [onFail]; the pipeline's notification is not dispatched. *)
Lemma onFail_disables_pipeline_notification :
  let E := sample_env bad_input NoReply in
  let options := mkOptions None (Some save_failed) in
  let after := (callApiWithNotification E 2 0 options caller_world).1 in
  (objs after !! 0%nat) ≫= (fun fields => fields !! "disableErrorNotification")
    = Some (Jv (JBool true)) /\
  spec_disableErrorNotification_default (onFail options) = Jv (JBool false) /\
  notifications after =
    [EvNotify (MLit "fail") (MLit "Save failed")
              (MValue (Jv (JStr "bad input")))].
Proof.
  vm_compute. repeat split; reflexivity.
Qed.

(** C7, amended. When the caller gives no explicit flag,
    [disableErrorNotification] becomes [!!onFail]: [false] when [onFail] is
    absent, [true] when it is supplied. That value is written to the
    caller's object, reaches the pipeline in the submitted configuration,
    and decides the pipeline's own failure notification: on a business
    failure it is dispatched exactly when [onFail] is absent. *)
Theorem notification_default (E : Env) (fuel config : nat) (options : Options)
        (w : World Settled) (fields : gmap string JS) :
  objs w !! config = Some fields ->
  nullish (default Undef (fields !! "disableErrorNotification")) = true ->
  let flag := Jv (JBool (bool_decide (is_Some (onFail options)))) in
  let fields' := <["disableErrorNotification" := flag]> fields in
  let written := set_objs (<[config := fields']> (objs w)) w in
  let submitted := request_config (_pick fields' PATHS_WHITELIST) in
  callApiWithNotification E fuel config options w =
    callApiWithNotification_try E fuel config options written /\
  objs written !! config = Some fields' /\
  opt submitted "disableErrorNotification" = flag /\
  (forall (axiosResponse : Response) (w' : World Settled) (payload : JSON),
      opt (r_config axiosResponse) "disableErrorNotification" = flag ->
      r_data axiosResponse = Some payload ->
      is_null payload = false ->
      truthy_json payload && isReqSuccess E (Some payload) = false ->
      notifications (response_onFulfilled E axiosResponse w').1 =
        (notifications w' ++
         match onFail options with
         | Some _ => []
         | None =>
             [EvNotify (MLit "fail")
                       (MErrorStatus (member "status" payload))
                       (if truthy (of_json (member "message" payload))
                        then MValue (of_json (member "message" payload))
                        else MLit "call api failed")]
         end)%list).
Proof.
  intros Hobj Hnull flag fields' written submitted.
  split; [| split; [| split]].
  - unfold callApiWithNotification. unfold bind at 1, gets at 1.
    rewrite Hobj. unfold disableErrorNotification_default. rewrite Hnull.
    reflexivity.
  - apply lookup_insert_eq.
  - unfold submitted. rewrite opt_request_config.
    + rewrite _pick_lookup. unfold fields'.
      rewrite bool_decide_eq_true_2, lookup_insert_eq; [reflexivity |].
      unfold PATHS_WHITELIST. rewrite !elem_of_cons. auto 10.
    + rewrite !not_elem_of_cons. repeat split; try discriminate.
      apply not_elem_of_nil.
  - intros axiosResponse w' payload Hflag Hdata Hnn Hfail.
    unfold response_onFulfilled. rewrite Hdata, Hflag. cbn [of_json truthy].
    rewrite Hfail. unfold flag.
    rewrite !(destructure_object _ _ Hnn). unfold flag.
    destruct (onFail options) as [info |].
    + rewrite bool_decide_eq_true_2 by (eexists; reflexivity).
      unfold_M. cbn. rewrite app_nil_r. reflexivity.
    + rewrite bool_decide_eq_false_2 by (apply is_Some_None).
      cbn [truthy truthy_json negb]. unfold bind at 3, lift at 3.
      unfold bind at 2, lift at 2. unfold bind at 1, lift at 1.
      unfold bind at 1. rewrite displayFailNotification_pipeline.
      unfold throw. cbn [fst]. apply notifications_emit.
Qed.

Lemma notification_default_witness :
  opt (request_config
         (_pick (<["disableErrorNotification" := Jv (JBool false)]> orders_request)
                PATHS_WHITELIST))
      "disableErrorNotification" = Jv (JBool false).
Proof.
  exact (proj1 (proj2 (proj2
           (notification_default (sample_env bad_input NoReply) 2 0
              (mkOptions None None) caller_world orders_request
              eq_refl eq_refl)))).
Defined.

(** *** One call through the pipeline *)

Lemma request_interceptor_expired (E : Env) (config : AxiosConfig)
      (w : World Settled) (members : list (string * JSON)) (expireAt : Z) :
  truthy (opt config "withoutAuth") = false ->
  storage w = Some (Json (JObj members)) ->
  assoc "expireAt" members = Some (JNum expireAt) ->
  (expireAt < now w)%Z ->
  request_interceptor E config w =
    (w, Throw (interceptor_rejection config
                 (mkSimple AuthTokenExpiredError
                           (MLit "Token is already expired")))).
Proof.
  intros Hauth Hstore Hexp Hlt. unfold request_interceptor.
  rewrite Hauth. cbn [negb]. unfold bind at 1.
  rewrite getLocalStorageToken_eq, Hstore. cbn [read_token typeof_object is_null].
  unfold isTokenExpired. cbn [member]. rewrite Hexp. unfold_M.
  cbn [less_than].
  destruct (Z.ltb_spec expireAt (now w)); [reflexivity | lia].
Qed.

Lemma request_interceptor_valid (E : Env) (config : AxiosConfig)
      (w : World Settled) (members : list (string * JSON)) (expireAt : Z) :
  truthy (opt config "withoutAuth") = false ->
  storage w = Some (Json (JObj members)) ->
  assoc "expireAt" members = Some (JNum expireAt) ->
  (now w <= expireAt)%Z ->
  request_interceptor E config w =
    (w, Normal (set_header "Access-Token" (of_json (assoc "token" members))
                           config)).
Proof.
  intros Hauth Hstore Hexp Hle. unfold request_interceptor.
  rewrite Hauth. cbn [negb]. unfold bind at 1.
  rewrite getLocalStorageToken_eq, Hstore. cbn [read_token typeof_object is_null].
  unfold isTokenExpired. cbn [member]. rewrite Hexp. unfold_M.
  cbn [less_than].
  destruct (Z.ltb_spec expireAt (now w)); [lia | reflexivity].
Qed.

Lemma refresh_resume_success {P} (E : Env) (w : World P) (status : Z)
      (body record refreshToken token : option JSON) :
  ((200 <=? status) && (status <? 300))%Z = true ->
  isReqSuccess E body = true ->
  destructure "data" body = Normal record ->
  refresh_resume E (Responded status body) refreshToken token w =
    (set_storage (Some (stringify record)) w, Normal record).
Proof.
  intros H2xx Hok Hdata.
  unfold refresh_resume, try_catch, refresh_try. cbn [settle].
  rewrite H2xx. unfold bind at 1, lift at 1. cbn [r_data].
  rewrite Hok, Hdata. reflexivity.
Qed.

Lemma instance_refresh_then_retry (E : Env) (fuel : nat)
      (submitted : AxiosConfig) (w : World Settled)
      (members : list (string * JSON)) (expireAt status : Z)
      (body record : option JSON) (dt : nat) :
  truthy (opt submitted "withoutAuth") = false ->
  truthy (opt submitted "retried") = false ->
  storage w = Some (Json (JObj members)) ->
  assoc "expireAt" members = Some (JNum expireAt) ->
  (expireAt < now w)%Z ->
  worker w = None ->
  let refreshToken := assoc "refreshToken" members in
  let token := assoc "token" members in
  let w1 := emit (EvInstance submitted) w in
  let w2 := emit (EvRefreshPost refreshToken token) w1 in
  refresh_adapter E refreshToken token (trace w2) = (Responded status body, dt) ->
  ((200 <=? status) && (status <? 300))%Z = true ->
  isReqSuccess E body = true ->
  destructure "data" body = Normal record ->
  instance E (S (S fuel)) submitted w =
    instance E (S fuel) (set_opt "retried" (Jv (JBool true)) submitted)
      (set_worker None
         (set_storage (Some (stringify record)) (advance dt w2))).
Proof.
  intros Hauth Hfirst Hstore Hexp Hlt Hidle refreshToken token w1 w2
         Hnet H2xx Hok Hdata.
  cbn [instance]. unfold bind at 1, effect at 1. fold w1.
  unfold bind at 1, attempt at 1. unfold bind at 1.
  rewrite (request_interceptor_expired E submitted w1 members expireAt
             Hauth Hstore Hexp Hlt).
  rewrite (response_onReject_unauthorized E _ _ submitted w1
             (unauthorized_expired submitted _) eq_refl).
  rewrite Hfirst.
  rewrite (refreshingToken_idle E w1 Hidle).
  change (storage w1) with (storage w). rewrite Hstore.
  cbn [read_token typeof_object is_null].
  rewrite _refreshingToken_eq.
  change (storage w1) with (storage w). rewrite Hstore.
  cbn [read_token typeof_object is_null member]. cbv zeta.
  fold refreshToken token. fold w2. rewrite Hnet. cbn [fst snd].
  rewrite (refresh_resume_success E _ status body record _ _ H2xx Hok Hdata).
  reflexivity.
Qed.




(** *** Termination and the shape of results *)

Section Settles.

Lemma settles_ret {A} (a : A) : settles (ret a).
Proof. intros w Hw. split; [exact Hw | discriminate]. Qed.

Lemma settles_throw {A} (t : Thrown) : settles (A := A) (throw t).
Proof. intros w Hw. split; [exact Hw | discriminate]. Qed.

Lemma settles_throw_new {A} (c : ErrClass) (m : Msg) :
  settles (A := A) (throw_new c m).
Proof. intros w Hw. split; [exact Hw | discriminate]. Qed.

Lemma settles_lift {A} (c : Completion A) : c <> OutOfFuel -> settles (lift c).
Proof. intros Hc w Hw. split; [exact Hw | exact Hc]. Qed.

Lemma settles_gets {A} (f : World Settled -> A) : settles (gets f).
Proof. intros w Hw. split; [exact Hw | discriminate]. Qed.

Lemma settles_effect (f : World Settled -> World Settled) :
  (forall w, worker (f w) = worker w) -> settles (effect f).
Proof. intros Hf w Hw. split; [cbn; rewrite Hf; exact Hw | discriminate]. Qed.

Lemma settles_bind {A B} (m : M Settled A) (k : A -> M Settled B) :
  settles m -> (forall a, settles (k a)) -> settles (bind m k).
Proof.
  intros Hm Hk w Hw. unfold bind. destruct (Hm w Hw) as [Hw' Hc].
  destruct (m w) as [w' [a | t |]]; cbn [fst snd] in *.
  - apply Hk. exact Hw'.
  - split; [exact Hw' | discriminate].
  - contradiction.
Qed.

Lemma settles_try_catch {A} (body : M Settled A)
      (handler : Thrown -> M Settled A) :
  settles body -> (forall t, settles (handler t)) ->
  settles (try_catch body handler).
Proof.
  intros Hb Hh w Hw. unfold try_catch. destruct (Hb w Hw) as [Hw' Hc].
  destruct (body w) as [w' [a | t |]]; cbn [fst snd] in *.
  - split; [exact Hw' | discriminate].
  - apply Hh. exact Hw'.
  - contradiction.
Qed.

Lemma settles_attempt {A} (m : M Settled A) :
  (forall w, worker w = None -> worker (m w).1 = None) ->
  settles (attempt m).
Proof.
  intros Hm w Hw. unfold attempt. specialize (Hm w Hw).
  destruct (m w) as [w' c]. split; [exact Hm | discriminate].
Qed.
End Settles.

Lemma destructure_not_OutOfFuel (k : string) (v : option JSON) :
  destructure k v <> OutOfFuel.
Proof. destruct v as [[] |]; discriminate. Qed.

Lemma settle_not_OutOfFuel (config : AxiosConfig) (o : Outcome) :
  settle config o <> OutOfFuel.
Proof.
  destruct o; cbn [settle]; try discriminate.
  destruct ((200 <=? status) && (status <? 300))%Z; discriminate.
Qed.

Lemma settles_getLocalStorageToken : settles getLocalStorageToken.
Proof.
  intros w Hw. rewrite getLocalStorageToken_eq.
  split; [exact Hw | discriminate].
Qed.

Lemma settles_logout : settles UnauthorizedManager_logout.
Proof.
  intros w Hw. unfold UnauthorizedManager_logout, logout, effect.
  destruct (logoutTimeout w); (split; [exact Hw | discriminate]).
Qed.

Lemma worker__refreshingToken {P} (E : Env) (w : World P) :
  worker (_refreshingToken E w).1 = worker w /\
  (_refreshingToken E w).2 <> OutOfFuel.
Proof.
  rewrite _refreshingToken_eq. cbv zeta.
  destruct (is_null (read_token (storage w))); [split; [reflexivity | discriminate] |].
  set (rt := member "refreshToken" _). set (tok := member "token" _).
  set (w0 := emit _ w).
  destruct (refresh_adapter E rt tok (trace w0)) as [o dt]. cbn [fst snd].
  unfold refresh_resume, try_catch, refresh_try, refresh_catch.
  destruct o as [status data | | m | m]; cbn [settle].
  - destruct ((200 <=? status) && (status <? 300))%Z.
    + unfold_M. cbn [r_data]. destruct (isReqSuccess E data).
      * destruct data as [[]|]; cbn; try (split; [reflexivity | discriminate]);
          pose proof (worker_logout (advance dt w0)) as Hk; run_logout;
          rewrite Hl in Hk; (split; [exact Hk | discriminate]).
      * cbn. pose proof (worker_logout (advance dt w0)) as Hk. run_logout.
        rewrite Hl in Hk. split; [exact Hk | discriminate].
    + unfold_M; cbn. pose proof (worker_logout (advance dt w0)) as Hk.
      run_logout. rewrite Hl in Hk. split; [exact Hk | discriminate].
  - unfold_M; cbn. pose proof (worker_logout (advance dt w0)) as Hk.
    run_logout. rewrite Hl in Hk. split; [exact Hk | discriminate].
  - unfold_M; cbn. pose proof (worker_logout (advance dt w0)) as Hk.
    run_logout. rewrite Hl in Hk. split; [exact Hk | discriminate].
  - unfold_M; cbn. pose proof (worker_logout (advance dt w0)) as Hk.
    run_logout. rewrite Hl in Hk. split; [exact Hk | discriminate].
Qed.

Lemma settles_refreshingToken (E : Env) : settles (refreshingToken E).
Proof.
  intros w Hw. rewrite (refreshingToken_idle E w Hw).
  destruct (is_null (read_token (storage w))).
  - split; [exact Hw | discriminate].
  - split; [reflexivity | apply worker__refreshingToken].
Qed.

Lemma settles_refresh_then {A} (E : Env) (k_ok : M Settled A)
      (k_fail : Thrown -> M Settled A) :
  settles k_ok -> (forall t, settles (k_fail t)) ->
  settles (let! refreshed := attempt (refreshingToken E) in
           match refreshed with
           | Normal _ => k_ok
           | Throw error => k_fail error
           | OutOfFuel => lift OutOfFuel
           end).
Proof.
  intros Hok Hfail w Hw. unfold bind, attempt.
  destruct (settles_refreshingToken E w Hw) as [Hw' Hc].
  destruct (refreshingToken E w) as [w' [a | t |]]; cbn [fst snd] in *.
  - apply Hok. exact Hw'.
  - apply Hfail. exact Hw'.
  - contradiction.
Qed.

Ltac settles :=
  repeat first
    [ apply settles_refresh_then; [| intros]
    | apply settles_ret | apply settles_throw | apply settles_throw_new
    | apply settles_gets
    | apply settles_lift;
        first [apply destructure_not_OutOfFuel | apply settle_not_OutOfFuel
              | discriminate]
    | apply settles_effect; intros; reflexivity
    | apply settles_bind; [| intros]
    | apply settles_try_catch; [| intros]
    | solve [eauto 2]
    | match goal with
      | |- settles (if ?b then _ else _) => destruct b
      | |- settles (match ?x with _ => _ end) => destruct x
      end ].

Lemma request_interceptor_eq (E : Env) (config : AxiosConfig)
      (w : World Settled) :
  request_interceptor E config w =
    if truthy (opt config "withoutAuth") then (w, Normal config)
    else
      let tokenObject := read_token (storage w) in
      if is_null tokenObject then
        (w, Throw (interceptor_rejection config
                     (mkSimple NoAuthTokenError (MLit "No access token"))))
      else if (isTokenExpired E tokenObject w).2 is Normal true then
        (w, Throw (interceptor_rejection config
                     (mkSimple AuthTokenExpiredError
                               (MLit "Token is already expired"))))
      else
        (w, Normal (set_header "Access-Token"
                               (of_json (member "token" tokenObject)) config)).
Proof.
  unfold request_interceptor.
  destruct (truthy (opt config "withoutAuth")); cbn [negb]; [reflexivity |].
  unfold bind at 1. rewrite getLocalStorageToken_eq. cbv zeta.
  destruct (is_null (read_token (storage w))); [reflexivity |].
  unfold isTokenExpired. unfold_M. cbn [snd].
  destruct (less_than E _ (now w)); reflexivity.
Qed.

Lemma request_interceptor_cases (E : Env) (config : AxiosConfig)
      (w : World Settled) :
  (exists config',
      request_interceptor E config w = (w, Normal config') /\
      opts config' = opts config) \/
  (exists s,
      request_interceptor E config w =
        (w, Throw (interceptor_rejection config s))).
Proof.
  rewrite request_interceptor_eq. cbv zeta.
  destruct (truthy (opt config "withoutAuth")).
  { left. eexists. split; reflexivity. }
  destruct (is_null (read_token (storage w))).
  { right. eexists. reflexivity. }
  destruct ((isTokenExpired E (read_token (storage w)) w).2) as [[] | |].
  all: first [ right; eexists; reflexivity
             | left; eexists; split; reflexivity ].
Qed.

Lemma dispatch_cases (E : Env) (config : AxiosConfig) (w : World Settled) :
  exists w',
    worker w' = worker w /\
    ((exists response, dispatch E config w = (w', Normal response)) \/
     (exists e,
         dispatch E config w = (w', Throw e) /\
         (isCancel e = true \/ t_config e = Some config))).
Proof.
  unfold dispatch. unfold_M.
  destruct (adapter E config (trace (emit (EvHttp config) w))) as [o dt].
  exists (advance dt (emit (EvHttp config) w)).
  split; [| destruct o as [status data | | m | m]; cbn [settle]].
  - reflexivity.
  - destruct ((200 <=? status) && (status <? 300))%Z.
    + left. eexists. reflexivity.
    + right. eexists. split; [reflexivity | right; reflexivity].
  - right. eexists. split; [reflexivity | right; reflexivity].
  - right. eexists. split; [reflexivity | right; reflexivity].
  - right. eexists. split; [reflexivity | left; reflexivity].
Qed.

(** How the request leaves the client: a response, or an error that is a
    cancellation or carries the options that were submitted. *)
Lemma sent_cases (E : Env) (config : AxiosConfig) (w : World Settled) :
  exists w' c,
    (let! config' := request_interceptor E config in dispatch E config') w
      = (w', c) /\
    worker w' = worker w /\
    match c with
    | Normal _ => True
    | Throw e =>
        isCancel e = true \/
        exists config', t_config e = Some config' /\ opts config' = opts config
    | OutOfFuel => False
    end.
Proof.
  unfold bind.
  destruct (request_interceptor_cases E config w)
    as [(config' & -> & Hopts) | (s & ->)].
  - destruct (dispatch_cases E config' w)
      as (w' & Hw' & [(response & ->) | (e & -> & He)]).
    + exists w', (Normal response). auto.
    + exists w', (Throw e). split; [reflexivity | split; [exact Hw' |]].
      destruct He as [He | He]; [left; exact He | right].
      exists config'. auto.
  - eexists _, _. split; [reflexivity | split; [reflexivity |]].
    right. exists config. split; reflexivity.
Qed.

Lemma settles_response_onFulfilled (E : Env) (axiosResponse : Response) :
  settles (response_onFulfilled E axiosResponse).
Proof.
  unfold response_onFulfilled, displayFailNotification, _displayNotification.
  settles.
Qed.

Lemma settles_attempt_refreshingToken (E : Env) :
  settles (attempt (refreshingToken E)).
Proof.
  apply settles_attempt. intros w Hw. apply settles_refreshingToken. exact Hw.
Qed.

Lemma settles_response_onReject (E : Env)
      (retry : AxiosConfig -> M Settled Response) (error : Thrown) :
  (forall c, truthy (opt c "retried") = true -> settles (retry c)) ->
  settles (response_onReject E retry error).
Proof.
  intros Hretry. pose proof settles_logout.
  unfold response_onReject.
  settles.
  apply Hretry. unfold opt, set_opt. cbn [opts].
  rewrite lookup_insert_eq. reflexivity.
Qed.

(** Once [retried] is set, [onReject] does not call [instance] again. *)
Lemma settles_response_onReject_retried (E : Env)
      (retry : AxiosConfig -> M Settled Response) (error : Thrown) :
  (isCancel error = true \/
   exists c, t_config error = Some c /\ truthy (opt c "retried") = true) ->
  settles (response_onReject E retry error).
Proof.
  intros Herr. pose proof settles_logout.
  unfold response_onReject.
  destruct (isCancel error) eqn:Hcancel; [settles |].
  destruct Herr as [Hc | (c & Hc & Hr)]; [discriminate |].
  rewrite Hc.
  destruct (instanceof (t_requestInterceptorError error) NoAuthTokenError);
    [settles |].
  destruct (status_is_401 (t_response error)
            || instanceof (t_requestInterceptorError error)
                          AuthTokenExpiredError).
  - unfold bind at 1, ret at 1. rewrite Hr. settles.
  - settles.
Qed.

Lemma instance_step (E : Env) (fuel : nat) (config : AxiosConfig)
      (w : World Settled) :
  instance E (S fuel) config w =
    let '(w', sent) :=
      (let! config' := request_interceptor E config in dispatch E config')
        (emit (EvInstance config) w) in
    match sent with
    | Normal axiosResponse => response_onFulfilled E axiosResponse w'
    | Throw error => response_onReject E (instance E fuel) error w'
    | OutOfFuel => (w', OutOfFuel)
    end.
Proof.
  cbn [instance]. unfold bind at 1, effect at 1.
  unfold bind at 1, attempt at 1.
  destruct ((let! config' := request_interceptor E config in
             dispatch E config') (emit (EvInstance config) w))
    as [w' [r | e |]]; reflexivity.
Qed.

Lemma settles_instance_retried (E : Env) (fuel : nat) (config : AxiosConfig) :
  truthy (opt config "retried") = true ->
  settles (instance E (S fuel) config).
Proof.
  intros Hr w Hw. rewrite instance_step.
  destruct (sent_cases E config (emit (EvInstance config) w))
    as (w' & c & Hsent & Hw' & Hc).
  rewrite Hsent. destruct c as [response | e |]; [| | contradiction].
  - apply settles_response_onFulfilled. rewrite Hw'. exact Hw.
  - apply settles_response_onReject_retried; [| rewrite Hw'; exact Hw].
    destruct Hc as [Hc | (config' & Hc & Hopts)]; [left; exact Hc | right].
    exists config'. split; [exact Hc |]. unfold opt. rewrite Hopts. exact Hr.
Qed.

(** Two levels of [instance] always suffice. *)
Lemma settles_instance (E : Env) (fuel : nat) (config : AxiosConfig) :
  settles (instance E (S (S fuel)) config).
Proof.
  intros w Hw. rewrite instance_step.
  destruct (sent_cases E config (emit (EvInstance config) w))
    as (w' & c & Hsent & Hw' & Hc).
  rewrite Hsent. destruct c as [response | e |]; [| | contradiction].
  - apply settles_response_onFulfilled. rewrite Hw'. exact Hw.
  - apply settles_response_onReject; [| rewrite Hw'; exact Hw].
    intros c Hr. apply settles_instance_retried. exact Hr.
Qed.

Section Classified.

Lemma classified_ret {A} (a : A) : rejects_classified (ret a).
Proof. intros w. exact I. Qed.

Lemma classified_throw_req {A} (r : RequestError) :
  rejects_classified (A := A) (throw (ThrownReq r)).
Proof. intros w. exact I. Qed.

Lemma classified_throw_TypeError {A} :
  rejects_classified (A := A) (throw_new TypeError MNone).
Proof. intros w. reflexivity. Qed.

Lemma classified_destructure (k : string) (v : option JSON) :
  rejects_classified (lift (destructure k v)).
Proof. intros w. destruct v as [[] |]; cbn; auto. Qed.

Lemma classified_OutOfFuel {A} : rejects_classified (A := A) (lift OutOfFuel).
Proof. intros w. exact I. Qed.

Lemma classified_gets {A} (f : World Settled -> A) :
  rejects_classified (gets f).
Proof. intros w. exact I. Qed.

Lemma classified_effect (f : World Settled -> World Settled) :
  rejects_classified (effect f).
Proof. intros w. exact I. Qed.

Lemma classified_attempt {A} (m : M Settled A) :
  rejects_classified (attempt m).
Proof. intros w. unfold attempt. destruct (m w). exact I. Qed.

Lemma classified_bind {A B} (m : M Settled A) (k : A -> M Settled B) :
  rejects_classified m -> (forall a, rejects_classified (k a)) ->
  rejects_classified (bind m k).
Proof.
  intros Hm Hk w. unfold bind. specialize (Hm w).
  destruct (m w) as [w' [a | t |]]; cbn [snd] in *; [apply Hk | exact Hm | exact I].
Qed.
End Classified.

Lemma classified_logout : rejects_classified UnauthorizedManager_logout.
Proof.
  intros w. destruct (UnauthorizedManager_logout_normal w) as [w' ->].
  exact I.
Qed.

Ltac classified :=
  repeat first
    [ apply classified_ret | apply classified_throw_req
    | apply classified_throw_TypeError | apply classified_destructure
    | apply classified_OutOfFuel | apply classified_gets
    | apply classified_effect | apply classified_attempt
    | apply classified_logout
    | apply classified_bind; [| intros]
    | solve [eauto 2]
    | match goal with
      | |- rejects_classified (if ?b then _ else _) => destruct b
      | |- rejects_classified (match ?x with _ => _ end) => destruct x
      end ].

Lemma classified_response_onFulfilled (E : Env) (axiosResponse : Response) :
  rejects_classified (response_onFulfilled E axiosResponse).
Proof.
  unfold response_onFulfilled, displayFailNotification, _displayNotification.
  classified.
Qed.

Lemma classified_response_onReject (E : Env)
      (retry : AxiosConfig -> M Settled Response) (error : Thrown) :
  (forall c, rejects_classified (retry c)) ->
  rejects_classified (response_onReject E retry error).
Proof. intros Hretry. unfold response_onReject. classified. Qed.

Lemma classified_instance (E : Env) (fuel : nat) (config : AxiosConfig) :
  rejects_classified (instance E fuel config).
Proof.
  revert config. induction fuel as [| fuel IH]; intros config.
  - cbn. classified.
  - cbn [instance].
    assert (forall r, rejects_classified (response_onFulfilled E r))
      by (apply classified_response_onFulfilled).
    assert (forall e,
               rejects_classified (response_onReject E (instance E fuel) e))
      by (intros e; apply classified_response_onReject; exact IH).
    classified.
Qed.

(** X1. [callApi] completes normally whenever no refresh is in flight
    when it starts: it returns the response's [data], or the value it
    caught, which is a RequestError or a bare [TypeError]. *)
Lemma callApi_returns (E : Env) (fuel : nat) (config : gmap string JS)
      (w : World Settled) :
  worker w = None ->
  exists r,
    (callApi E (S (S fuel)) config w).2 = Normal r /\
    match r with
    | Data _ => True
    | Caught (ThrownReq _) => True
    | Caught (ThrownErr e) => e = new_error TypeError MNone
    end.
Proof.
  intros Hw. unfold callApi, _callApi, try_catch, bind.
  set (submitted := request_config _).
  pose proof (settles_instance E fuel submitted w Hw) as [_ Hfuel].
  pose proof (classified_instance E (S (S fuel)) submitted w) as Hclass.
  destruct (instance E (S (S fuel)) submitted w) as [w' [resp | t |]];
    cbn [snd] in *.
  - eexists. split; [reflexivity | exact I].
  - eexists. split; [reflexivity |]. destruct t; [exact Hclass | exact I].
  - contradiction.
Qed.

(** X2. Only the whitelisted options of the caller's configuration
    matter: two configurations that agree on the keys of
    [PATHS_WHITELIST] make [callApi] behave identically. *)
Lemma callApi_whitelist (E : Env) (fuel : nat) (config config' : gmap string JS) :
  (forall k, k ∈ PATHS_WHITELIST -> config !! k = config' !! k) ->
  callApi E fuel config = callApi E fuel config'.
Proof.
  intros Hsame. unfold callApi.
  assert (Hpick : _pick config PATHS_WHITELIST = _pick config' PATHS_WHITELIST).
  { apply map_eq. intros k. rewrite !_pick_lookup.
    destruct (bool_decide (k ∈ PATHS_WHITELIST)) eqn:Hk; [| reflexivity].
    apply Hsame. apply bool_decide_eq_true in Hk. exact Hk. }
  rewrite Hpick. reflexivity.
Qed.

(** C6 holds for its first half ([callApi_returns], [callApi_whitelist])
    but not for the shape of what is returned: a 2xx response whose body is
    the JSON value [null] makes [onFulfilled] destructure [null]; the
    [TypeError] this throws is what [callApi] catches and returns. *)
Theorem callApi_null_body_returns_TypeError :
  let E := sample_env (Responded 200 (Some JNull)) NoReply in
  let w : World Settled := world_with (Some (Json token_B)) in
  (callApi E 2 orders_request w).2 =
    Normal (Caught (ThrownErr (new_error TypeError MNone))).
Proof. vm_compute. reflexivity. Qed.

(** *** Single flight *)

Lemma refresh_resume_world {P} (E : Env) (o : Outcome)
      (refreshToken token : option JSON) (w : World P) :
  let r := refresh_resume E o refreshToken token w in
  (exists s, r.1 = set_storage s w) \/ r.1 = (UnauthorizedManager_logout w).1.
Proof.
  cbv zeta. unfold refresh_resume, try_catch, refresh_try, refresh_catch.
  destruct o as [status data | | m | m]; cbn [settle].
  - destruct ((200 <=? status) && (status <? 300))%Z.
    + unfold_M. cbn [r_data]. destruct (isReqSuccess E data).
      * destruct data as [[]|]; cbn;
          first [ left; eexists; reflexivity | right; run_logout; reflexivity ].
      * cbn. right. run_logout. reflexivity.
    + unfold_M; cbn. right. run_logout. reflexivity.
  - unfold_M; cbn. right. run_logout. reflexivity.
  - unfold_M; cbn. right. run_logout. reflexivity.
  - unfold_M; cbn. right. run_logout. reflexivity.
Qed.

Lemma refresh_resume_posts {P} (E : Env) (o : Outcome)
      (refreshToken token : option JSON) (w : World P) :
  refresh_posts (refresh_resume E o refreshToken token w).1 = refresh_posts w.
Proof.
  destruct (refresh_resume_world E o refreshToken token w) as [[s ->] | ->].
  - reflexivity.
  - apply refresh_posts_logout.
Qed.

Lemma refresh_resume_worker {P} (E : Env) (o : Outcome)
      (refreshToken token : option JSON) (w : World P) :
  worker (refresh_resume E o refreshToken token w).1 = worker w.
Proof.
  destruct (refresh_resume_world E o refreshToken token w) as [[s ->] | ->].
  - reflexivity.
  - apply worker_logout.
Qed.

Lemma refresh_posts_set_worker {P} (p : option P) (w : World P) :
  refresh_posts (set_worker p w) = refresh_posts w.
Proof. reflexivity. Qed.

Section SingleFlight.
Context (E : Env).

(** A call that finds the slot empty starts the worker and waits for it. *)
Lemma call_idle (c : Caller) (l : Loop) :
  worker (world l) = None ->
  is_null (read_token (storage (world l))) = false ->
  let tokenObj := read_token (storage (world l)) in
  let refreshToken := member "refreshToken" tokenObj in
  let token := member "token" tokenObj in
  call c l =
    mkLoop (set_worker (Some (length (promises l)))
                       (emit (EvRefreshPost refreshToken token) (world l)))
           (promises l ++ [Pending refreshToken token [c]])
           (microtasks l) (observed l).
Proof.
  intros Hidle Hnull. cbv zeta. unfold call.
  rewrite getLocalStorageToken_eq, Hnull, Hidle.
  unfold start_worker. cbn [world promises microtasks observed].
  rewrite refresh_begin_eq. cbv zeta. rewrite Hnull.
  unfold await_worker. cbn [world worker set_worker promises microtasks observed].
  rewrite list_lookup_middle by reflexivity.
  rewrite insert_app_r_alt by reflexivity.
  rewrite Nat.sub_diag. reflexivity.
Qed.

(** A call that finds the worker pending registers on it and starts
    nothing. *)
Lemma call_join (c : Caller) (l : Loop) (p : nat)
      (refreshToken token : option JSON) (reactions : list Caller) :
  worker (world l) = Some p ->
  is_null (read_token (storage (world l))) = false ->
  promises l !! p = Some (Pending refreshToken token reactions) ->
  call c l =
    mkLoop (world l)
           (<[p := Pending refreshToken token (reactions ++ [c])]> (promises l))
           (microtasks l) (observed l).
Proof.
  intros Hbusy Hnull Hp. unfold call.
  rewrite getLocalStorageToken_eq, Hnull, Hbusy.
  unfold await_worker. cbn [world worker promises microtasks observed].
  rewrite Hbusy, Hp. reflexivity.
Qed.

Lemma run_app (ts1 ts2 : list Task) (l : Loop) :
  run E (ts1 ++ ts2) l = run E ts2 (run E ts1 l).
Proof. unfold run. apply fold_left_app. Qed.

Lemma states_app (Q : Loop -> Prop) (ts1 ts2 : list Task) (l : Loop) :
  Forall Q (states E ts1 l) ->
  Forall Q (states E ts2 (run E ts1 l)) ->
  Forall Q (states E (ts1 ++ ts2) l).
Proof.
  revert l. induction ts1 as [| t ts1 IH]; intros l H1 H2.
  - exact H2.
  - cbn [app states]. cbn [states] in H1. inversion H1; subst.
    constructor; [assumption |]. apply IH; assumption.
Qed.

Lemma live_pending (w : World nat) (refreshToken token : option JSON)
      (reactions : list Caller) (ps : list Promise)
      (jobs : list (Caller * nat)) (seen : list (Caller * Settled)) :
  live (mkLoop w (ps ++ [Pending refreshToken token reactions]) jobs seen) =
    S (length (filter is_pending ps)).
Proof.
  unfold live. cbn [promises]. rewrite filter_app, length_app.
  rewrite filter_cons_True by exact I. cbn. lia.
Qed.

Lemma live_done (w : World nat) (settled : Settled)
      (jobs : list (Caller * nat)) (seen : list (Caller * Settled)) :
  live (mkLoop w [Done settled] jobs seen) = 0.
Proof.
  unfold live. cbn [promises]. rewrite filter_cons_False by (cbn; auto).
  reflexivity.
Qed.

(** The callers that arrive while the worker is pending pile up on it. *)
Lemma calls_join (w : World nat) (refreshToken token : option JSON)
      (callers reactions : list Caller) :
  worker w = Some 0 ->
  is_null (read_token (storage w)) = false ->
  let waiting rs := mkLoop w [Pending refreshToken token rs] [] [] in
  run E (Call <$> callers) (waiting reactions) = waiting (reactions ++ callers) /\
  Forall (fun s => live s <= 1)
         (states E (Call <$> callers) (waiting reactions)).
Proof.
  intros Hbusy Hnull waiting. revert reactions.
  induction callers as [| c callers IH]; intros reactions.
  - cbn. rewrite app_nil_r. split; [reflexivity |].
    constructor; [| constructor].
    pose proof (live_pending w refreshToken token reactions [] [] []) as Hl.
    cbn [app] in Hl. unfold waiting. rewrite Hl. cbn. lia.
  - assert (Hstep : call c (waiting reactions) = waiting (reactions ++ [c])).
    { rewrite (call_join c (waiting reactions) 0 refreshToken token reactions);
        [reflexivity | exact Hbusy | exact Hnull | reflexivity]. }
    destruct (IH (reactions ++ [c])) as [Hrun Hall].
    cbn [fmap list_fmap run fold_left step states].
    change (fold_left (fun l t => step E t l) (Call <$> callers))
      with (run E (Call <$> callers)).
    rewrite Hstep. split; [rewrite Hrun, <- app_assoc; reflexivity |].
    constructor; [| exact Hall].
    pose proof (live_pending w refreshToken token reactions [] [] []) as Hl.
    cbn [app] in Hl. unfold waiting. rewrite Hl. cbn. lia.
Qed.

(** The continuations run one after the other; each hands the outcome to
    its caller and clears the slot. *)
Lemma jobs_drain (w : World nat) (settled : Settled) (callers : list Caller)
      (seen : list (Caller * Settled)) :
  worker w = None ->
  run E (replicate (length callers) Job)
      (mkLoop w [Done settled] ((fun c => (c, 0)) <$> callers) seen) =
    mkLoop w [Done settled] [] (seen ++ ((fun c => (c, settled)) <$> callers)).
Proof.
  intros Hidle. revert seen.
  induction callers as [| c callers IH]; intros seen.
  - cbn. rewrite app_nil_r. reflexivity.
  - cbn [length replicate fmap list_fmap run fold_left step job microtasks
         promises lookup list_lookup world observed].
    change (fold_left (fun l t => step E t l) (replicate (length callers) Job))
      with (run E (replicate (length callers) Job)).
    assert (Hw : set_worker None w = w).
    { destruct w; cbn in *. subst. reflexivity. }
    rewrite Hw, IH, <- app_assoc. reflexivity.
Qed.

Lemma live_insert_done (ps : list Promise) (p : nat) (settled : Settled) :
  length (filter is_pending (<[p := Done settled]> ps))
  <= length (filter is_pending ps).
Proof.
  revert p. induction ps as [| x ps IH]; intros p; [destruct p; cbn; lia |].
  destruct p as [| p].
  - change (<[0 := Done settled]> (x :: ps)) with (Done settled :: ps).
    rewrite filter_cons_False by (cbn; auto).
    destruct (is_pending x) eqn:Hx.
    + rewrite filter_cons_True by (rewrite Hx; exact I). cbn [length]. lia.
    + rewrite filter_cons_False by (rewrite Hx; auto). lia.
  - change (<[S p := Done settled]> (x :: ps))
      with (x :: <[p := Done settled]> ps).
    destruct (is_pending x) eqn:Hx.
    + rewrite !filter_cons_True by (rewrite Hx; exact I). cbn [length].
      specialize (IH p). lia.
    + rewrite !filter_cons_False by (rewrite Hx; auto). apply IH.
Qed.

Lemma live_reply (p : nat) (o : Outcome) (dt : nat) (l : Loop) :
  live (reply E p o dt l) <= live l.
Proof.
  unfold reply. destruct (promises l !! p) as [[rt tok rs | s] |]; try lia.
  destruct (refresh_resume E o rt tok (advance dt (world l))) as [w c].
  unfold live. cbn [promises]. apply live_insert_done.
Qed.

Lemma live_job (l : Loop) : live (job l) = live l.
Proof.
  unfold job. destruct (microtasks l) as [| [c p] rest]; [reflexivity |].
  destruct (promises l !! p) as [[rt tok rs | s] |]; reflexivity.
Qed.

(** Answers and continuations start no refresh. *)
Lemma live_after_answer (ts : list Task) (l : Loop) (n : nat) :
  Forall (fun t => match t with Call _ => False | _ => True end) ts ->
  live l <= n ->
  Forall (fun s => live s <= n) (states E ts l).
Proof.
  revert l. induction ts as [| t ts IH]; intros l Hts Hl.
  - constructor; [exact Hl | constructor].
  - cbn [states]. inversion Hts; subst. constructor; [exact Hl |].
    apply IH; [assumption |].
    destruct t as [c | p o dt |]; cbn [step].
    + contradiction.
    + pose proof (live_reply p o dt l). lia.
    + rewrite live_job. exact Hl.
Qed.
End SingleFlight.

(** C1. Any number of callers, at least one, call [refreshingToken] while
    a token record is stored and no refresh is in flight, all of them
    before the network answers; then the answer arrives and their
    continuations run. Exactly one refresh request is issued; every caller
    observes the one outcome of the worker (the refreshed record, or the
    error it threw); afterwards the slot is empty, the queue is empty and
    nothing is in flight; at every point of the schedule at most one
    refresh is in flight; and a later call that finds a token record starts
    a second refresh. *)
Theorem single_flight (E : Env) (callers : list Caller) (o : Outcome)
        (dt : nat) (w : World nat) :
  callers <> [] ->
  worker w = None ->
  is_null (read_token (storage w)) = false ->
  let tokenObj := read_token (storage w) in
  let refreshToken := member "refreshToken" tokenObj in
  let token := member "token" tokenObj in
  let started :=
    set_worker (Some 0) (emit (EvRefreshPost refreshToken token) w) in
  let settled := refresh_resume E o refreshToken token (advance dt started) in
  let l := run E (window callers o dt) (idle w) in
  refresh_posts (world l) = S (refresh_posts w) /\
  observed l = (fun c => (c, settled.2)) <$> callers /\
  world l = set_worker None settled.1 /\
  microtasks l = [] /\
  live l = 0 /\
  Forall (fun s => live s <= 1) (states E (window callers o dt) (idle w)) /\
  (forall c,
      is_null (read_token (storage (world l))) = false ->
      let l' := call c l in
      worker (world l') = Some 1 /\
      live l' = 1 /\
      refresh_posts (world l') = S (S (refresh_posts w))).
Proof.
  intros Hne Hidle Hnull tokenObj refreshToken token started settled.
  destruct callers as [| c0 cs]; [contradiction |]. clear Hne.
  assert (Hfirst : call c0 (idle w) =
                   mkLoop started [Pending refreshToken token [c0]] [] []).
  { rewrite (call_idle c0 (idle w) Hidle Hnull). reflexivity. }
  assert (Hbusy : worker started = Some 0) by reflexivity.
  assert (Hnull' : is_null (read_token (storage started)) = false)
    by exact Hnull.
  destruct (calls_join E started refreshToken token cs [c0] Hbusy Hnull')
    as [Hjoin Hwindow].
  assert (Hcalls : run E (Call <$> c0 :: cs) (idle w) =
                   mkLoop started [Pending refreshToken token (c0 :: cs)] [] []).
  { cbn [fmap list_fmap run fold_left step]. rewrite Hfirst. exact Hjoin. }
  assert (Hreply : reply E 0 o dt
                     (mkLoop started [Pending refreshToken token (c0 :: cs)] [] [])
                   = mkLoop settled.1 [Done settled.2]
                            ((fun c => (c, 0)) <$> c0 :: cs) []).
  { unfold reply. cbn [promises lookup list_lookup world microtasks observed].
    fold settled. destruct settled as [w' s]. reflexivity. }
  assert (Hjobs : run E (replicate (length (c0 :: cs)) Job)
                    (mkLoop settled.1 [Done settled.2]
                            ((fun c => (c, 0)) <$> c0 :: cs) [])
                  = mkLoop (set_worker None settled.1) [Done settled.2] []
                           ((fun c => (c, settled.2)) <$> c0 :: cs)).
  { cbn [length replicate fmap list_fmap run fold_left step job microtasks
         promises lookup list_lookup world observed app].
    exact (jobs_drain E (set_worker None settled.1) settled.2 cs
             [(c0, settled.2)] eq_refl). }
  assert (Hrun : run E (window (c0 :: cs) o dt) (idle w) =
                 mkLoop (set_worker None settled.1) [Done settled.2] []
                        ((fun c => (c, settled.2)) <$> c0 :: cs)).
  { unfold window. rewrite !run_app, Hcalls.
    cbn [run fold_left step]. rewrite Hreply. exact Hjobs. }
  assert (Hposts : refresh_posts (set_worker None settled.1)
                   = S (refresh_posts w)).
  { change (refresh_posts (set_worker None settled.1))
      with (refresh_posts settled.1).
    unfold settled. rewrite refresh_resume_posts.
    change (refresh_posts (advance dt started))
      with (refresh_posts (emit (EvRefreshPost refreshToken token) w)).
    rewrite refresh_posts_emit. cbn [is_refresh_post]. lia. }
  cbv zeta. rewrite Hrun. cbn [world observed microtasks].
  split; [exact Hposts |].
  split; [reflexivity |]. split; [reflexivity |]. split; [reflexivity |].
  split; [apply live_done |]. split.
  - unfold window. apply states_app.
    + cbn [fmap list_fmap states step]. constructor.
      * unfold live, idle. cbn. lia.
      * rewrite Hfirst. exact Hwindow.
    + rewrite Hcalls. apply live_after_answer.
      * constructor; [exact I |]. apply Forall_forall.
        intros t Ht. apply elem_of_replicate in Ht as [-> _]. exact I.
      * pose proof (live_pending started refreshToken token (c0 :: cs) [] [] [])
          as Hl.
        cbn [app] in Hl. rewrite Hl. cbn. lia.
  - intros c Hnull2.
    set (l := mkLoop (set_worker None settled.1) [Done settled.2] []
                     ((fun c => (c, settled.2)) <$> c0 :: cs)).
    rewrite (call_idle c l eq_refl Hnull2).
    cbn [world worker set_worker promises length].
    split; [reflexivity |]. split.
    + rewrite (live_pending _ _ _ [c] [Done settled.2]).
      rewrite filter_cons_False by (cbn; auto). reflexivity.
    + rewrite refresh_posts_set_worker, refresh_posts_emit. cbn [is_refresh_post].
      unfold l. cbn [world]. rewrite Hposts. lia.
Qed.

Lemma single_flight_witness :
  let E := sample_env NoReply refresh_ok in
  let w : World nat := world_with (Some (Json token_A)) in
  let l := run E (window [1; 2; 3] refresh_ok 7) (idle w) in
  refresh_posts (world l) = 1 /\
  observed l = [(1, Normal (Some token_B)); (2, Normal (Some token_B));
                (3, Normal (Some token_B))].
Proof.
  intros E w l.
  pose proof (single_flight E [1; 2; 3] refresh_ok 7 w
                ltac:(discriminate) eq_refl eq_refl) as (H1 & H2 & _).
  split; [exact H1 | exact H2].
Defined.

(** *** A retried request, end to end *)

(** The same outcome seen from [instance]: a configuration marked
    [retried] that meets an expired token, or a 401 from the network, ends
    with the logout and the [AuthTokenExpiredError]; [instance] is not
    entered again and no refresh request is issued. *)
Lemma retried_request_ends (E : Env) (fuel : nat) (config : AxiosConfig)
      (w : World Settled) :
  truthy (opt config "retried") = true ->
  let w1 := emit (EvInstance config) w in
  (forall members expireAt,
      truthy (opt config "withoutAuth") = false ->
      storage w = Some (Json (JObj members)) ->
      assoc "expireAt" members = Some (JNum expireAt) ->
      (expireAt < now w)%Z ->
      instance E (S fuel) config w =
        ((UnauthorizedManager_logout w1).1,
         Throw (ThrownReq
                  (mkRequestError (Some still_unauthorized) (Some config)
                     None false)))) /\
  (forall config' data dt,
      request_interceptor E config w1 = (w1, Normal config') ->
      adapter E config' (trace (emit (EvHttp config') w1))
        = (Responded 401 data, dt) ->
      let w2 := advance dt (emit (EvHttp config') w1) in
      instance E (S fuel) config w =
        ((UnauthorizedManager_logout w2).1,
         Throw (ThrownReq
                  (mkRequestError (Some still_unauthorized) (Some config')
                     (Some (mkResponse 401 data config')) false))) /\
      refresh_posts (UnauthorizedManager_logout w2).1 = refresh_posts w).
Proof.
  intros Hretried w1. split.
  - intros members expireAt Hauth Hstore Hexp Hlt.
    rewrite instance_step. fold w1. unfold bind at 1.
    rewrite (request_interceptor_expired E config w1 members expireAt
               Hauth Hstore Hexp Hlt).
    exact (proj2 (response_onReject_retried E (instance E fuel) config w1
                    Hretried) _).
  - intros config' data dt Hpre Hnet w2.
    assert (Hopts : opts config' = opts config).
    { destruct (request_interceptor_cases E config w1)
        as [(c & Hc & Ho) | (s & Hs)]; rewrite Hpre in *; [| discriminate].
      injection Hc as <-. exact Ho. }
    assert (Hretried' : truthy (opt config' "retried") = true).
    { unfold opt. rewrite Hopts. exact Hretried. }
    split.
    + rewrite instance_step. fold w1. unfold bind at 1. rewrite Hpre.
      unfold dispatch. unfold bind at 1, effect at 1.
      unfold bind at 1, gets at 1. rewrite Hnet.
      unfold bind at 1, effect at 1. fold w2. unfold lift.
      destruct (unauthorized_401 config' data) as [Hs Hu]. rewrite Hs.
      exact (proj1 (response_onReject_retried E (instance E fuel) config' w2
                      Hretried') data _ Hs).
    + rewrite refresh_posts_logout. unfold w2, w1.
      change (refresh_posts (advance dt ?x)) with (refresh_posts x).
      rewrite !refresh_posts_emit. cbn [is_refresh_post]. lia.
Qed.

(** *** The slot over any number of windows *)

Lemma no_pending (ps : list Promise) :
  (forall p x, ps !! p = Some x -> is_pending x = false) ->
  filter is_pending ps = [].
Proof.
  induction ps as [| x ps IH]; intros H; [reflexivity |].
  rewrite filter_cons_False.
  - apply IH. intros p y Hp. exact (H (S p) y Hp).
  - rewrite (H 0 x eq_refl). auto.
Qed.

Lemma at_most_one_pending (ps : list Promise) (q : nat) :
  (forall p x, ps !! p = Some x -> is_pending x = true -> p = q) ->
  length (filter is_pending ps) <= 1.
Proof.
  revert q. induction ps as [| x ps IH]; intros q H; [cbn; lia |].
  destruct (is_pending x) eqn:Hx.
  - rewrite filter_cons_True by (rewrite Hx; exact I).
    rewrite no_pending; [cbn; lia |].
    intros p y Hp. destruct (is_pending y) eqn:Hy; [| reflexivity].
    pose proof (H 0 x eq_refl Hx). pose proof (H (S p) y Hp Hy). lia.
  - rewrite filter_cons_False by (rewrite Hx; auto).
    destruct q as [| q].
    + rewrite no_pending; [cbn; lia |].
      intros p y Hp. destruct (is_pending y) eqn:Hy; [| reflexivity].
      pose proof (H (S p) y Hp Hy). lia.
    + apply (IH q). intros p y Hp Hy.
      pose proof (H (S p) y Hp Hy). lia.
Qed.

Lemma slot_invariant_live (l : Loop) : slot_invariant l -> live l <= 1.
Proof.
  intros [Hslot _]. unfold live.
  destruct (worker (world l)) as [q |] eqn:Hw.
  - apply (at_most_one_pending _ q). intros p x Hp Hx.
    destruct x as [rt tok rs | s]; [| discriminate].
    specialize (Hslot p rt tok rs Hp). congruence.
  - rewrite no_pending; [cbn; lia |].
    intros p x Hp. destruct x as [rt tok rs | s]; [| reflexivity].
    specialize (Hslot p rt tok rs Hp). congruence.
Qed.

Section Windows.
Context (E : Env).

Lemma slot_invariant_call (c : Caller) (l : Loop) :
  microtasks l = [] -> slot_invariant l -> slot_invariant (call c l).
Proof.
  intros Hrest [Hslot Hqueue]. unfold call.
  rewrite getLocalStorageToken_eq.
  destruct (is_null (read_token (storage (world l)))) eqn:Hnull.
  { split; cbn [promises world microtasks]; assumption. }
  destruct (worker (world l)) as [q |] eqn:Hw.
  - unfold await_worker. cbn [world promises microtasks observed]. rewrite Hw.
    destruct (promises l !! q) as [[rt tok rs | s] |] eqn:Hq.
    + split; cbn [promises world microtasks].
      * intros p rt' tok' rs' Hp.
        destruct (decide (p = q)) as [-> | Hne]; [exact Hw |].
        rewrite list_lookup_insert_ne in Hp by congruence.
        rewrite Hw. exact (Hslot p rt' tok' rs' Hp).
      * intros Hq'. contradiction.
    + split; cbn [promises world microtasks].
      * intros p rt tok rs Hp. rewrite Hw. exact (Hslot p rt tok rs Hp).
      * intros _ p x Hp. destruct x as [rt tok rs |]; [| reflexivity].
        specialize (Hslot p rt tok rs Hp). congruence.
    + split; cbn [promises world microtasks]; [| exact Hqueue].
      intros p rt tok rs Hp. rewrite Hw. exact (Hslot p rt tok rs Hp).
  - pose proof (call_idle c l Hw Hnull) as Hcall. cbv zeta in Hcall.
    unfold call in Hcall. rewrite getLocalStorageToken_eq, Hnull, Hw in Hcall.
    rewrite Hcall. split; cbn [promises world microtasks worker set_worker].
    + intros p rt tok rs Hp.
      destruct (decide (p = length (promises l))) as [-> | Hne];
        [reflexivity |].
      assert (Hlt : p < length (promises l)).
      { apply lookup_lt_Some in Hp. rewrite length_app in Hp. cbn in Hp. lia. }
      rewrite lookup_app_l in Hp by exact Hlt.
      specialize (Hslot p rt tok rs Hp). congruence.
    + intros Hq. contradiction.
Qed.

Lemma slot_invariant_reply (p : nat) (o : Outcome) (dt : nat) (l : Loop) :
  slot_invariant l -> slot_invariant (reply E p o dt l).
Proof.
  intros Hinv. unfold reply.
  destruct (promises l !! p) as [[rt tok rs | s] |] eqn:Hp;
    [| exact Hinv..].
  destruct Hinv as [Hslot Hqueue].
  pose proof (refresh_resume_worker E o rt tok (advance dt (world l))) as Hw.
  destruct (refresh_resume E o rt tok (advance dt (world l))) as [w c].
  cbn [fst] in Hw. pose proof (Hslot p rt tok rs Hp) as Hq.
  assert (Hnone : forall p' x,
             <[p := Done c]> (promises l) !! p' = Some x ->
             is_pending x = false).
  { intros p' x Hp'. destruct (decide (p' = p)) as [-> | Hne].
    - rewrite list_lookup_insert_eq in Hp' by (eapply lookup_lt_Some; eauto).
      injection Hp' as <-. reflexivity.
    - rewrite list_lookup_insert_ne in Hp' by congruence.
      destruct x as [rt' tok' rs' |]; [| reflexivity].
      specialize (Hslot p' rt' tok' rs' Hp'). congruence. }
  split; cbn [promises world microtasks].
  - intros p' rt' tok' rs' Hp'. specialize (Hnone p' _ Hp'). discriminate.
  - intros _. exact Hnone.
Qed.

Lemma slot_invariant_job (l : Loop) :
  slot_invariant l -> slot_invariant (job l).
Proof.
  intros Hinv. unfold job.
  destruct (microtasks l) as [| [c p] rest] eqn:Hm; [exact Hinv |].
  destruct Hinv as [Hslot Hqueue].
  assert (Hnone : forall p' x, promises l !! p' = Some x -> is_pending x = false)
    by (apply Hqueue; rewrite Hm; discriminate).
  destruct (promises l !! p) as [[rt tok rs | s] |] eqn:Hp;
    split; cbn [promises world microtasks];
    try (intros p' rt' tok' rs' Hp'; specialize (Hnone p' _ Hp'); discriminate);
    intros _; exact Hnone.
Qed.

(** Over any schedule whose calls are made at rest, at most one refresh
    is in flight at every point. *)
Lemma single_flight_invariant (ts : list Task) (l : Loop) :
  slot_invariant l ->
  calls_at_rest E ts l ->
  Forall (fun s => live s <= 1) (states E ts l).
Proof.
  revert l. induction ts as [| t ts IH]; intros l Hinv Hsched.
  - constructor; [apply slot_invariant_live; exact Hinv | constructor].
  - cbn [states]. destruct Hsched as [Hcall Hsched].
    constructor; [apply slot_invariant_live; exact Hinv |].
    apply IH; [| exact Hsched].
    destruct t as [c | p o dt |]; cbn [step].
    + apply slot_invariant_call; assumption.
    + apply slot_invariant_reply; assumption.
    + apply slot_invariant_job; assumption.
Qed.
End Windows.

Lemma slot_invariant_idle (w : World nat) : slot_invariant (idle w).
Proof.
  split; cbn [idle promises microtasks].
  - intros p rt tok rs Hp. discriminate.
  - intros H. contradiction.
Qed.

(** * Further properties of the pipeline *)

(** *** One pass through [instance] *)

Lemma callApi_of_instance (E : Env) (fuel : nat) (config : gmap string JS)
      (w : World Settled) :
  callApi E fuel config w =
    let r := instance E fuel (request_config (_pick config PATHS_WHITELIST)) w in
    (r.1,
     match r.2 with
     | Normal resp => Normal (Data (r_data resp))
     | Throw requestError => Normal (Caught requestError)
     | OutOfFuel => OutOfFuel
     end).
Proof.
  unfold callApi, _callApi, try_catch, bind, ret. cbv zeta.
  destruct (instance E fuel _ w) as [w' [resp | t |]]; reflexivity.
Qed.

(** Once the request interceptor has let [sent] through and the network
    has answered, the response interceptor takes over. *)
Lemma instance_sent (E : Env) (fuel : nat) (config sent : AxiosConfig)
      (w : World Settled) (o : Outcome) (dt : nat) :
  let w1 := emit (EvInstance config) w in
  request_interceptor E config w1 = (w1, Normal sent) ->
  adapter E sent (trace (emit (EvHttp sent) w1)) = (o, dt) ->
  let w2 := advance dt (emit (EvHttp sent) w1) in
  instance E (S fuel) config w =
    match settle sent o with
    | Normal axiosResponse => response_onFulfilled E axiosResponse w2
    | Throw error => response_onReject E (instance E fuel) error w2
    | OutOfFuel => (w2, OutOfFuel)
    end.
Proof.
  intros w1 Hpre Hnet w2. rewrite instance_step. fold w1.
  unfold bind at 1. rewrite Hpre. unfold dispatch.
  unfold bind at 1, effect at 1. unfold bind at 1, gets at 1. rewrite Hnet.
  unfold bind at 1, effect at 1. fold w2. unfold lift.
  destruct (settle sent o); reflexivity.
Qed.

Lemma whitelisted (k : string) :
  k ∈ PATHS_WHITELIST <->
  k = "endpoint" \/ k = "method" \/ k = "body" \/ k = "cancelToken" \/
  k = "withoutAuth" \/ k = "disableErrorNotification".
Proof.
  unfold PATHS_WHITELIST. rewrite !elem_of_cons, elem_of_nil. tauto.
Qed.

(** X3. What [callApi] hands to the client is built from the whitelisted
    options only: [url] is the caller's [endpoint], [data] its [body],
    [method] its [method] or ['get'] when that is missing or undefined
    (an explicit [null] is kept); [cancelToken], [withoutAuth] and
    [disableErrorNotification] are passed as given; every other key the
    caller supplied, [retried], [url] and [headers] included, is absent,
    and no header is set. *)
Theorem submitted_config_fields (config : gmap string JS) :
  let submitted := request_config (_pick config PATHS_WHITELIST) in
  opts submitted !! "url" = Some (default Undef (config !! "endpoint")) /\
  opts submitted !! "data" = Some (default Undef (config !! "body")) /\
  opts submitted !! "method" =
    Some (match config !! "method" with
          | None | Some Undef => Jv (JStr "get")
          | Some m => m
          end) /\
  (forall k,
      k ∈ ["cancelToken"; "withoutAuth"; "disableErrorNotification"] ->
      opts submitted !! k = config !! k) /\
  (forall k,
      k ∉ ["url"; "method"; "data"; "cancelToken"; "withoutAuth";
           "disableErrorNotification"] ->
      opts submitted !! k = None) /\
  headers submitted = ∅.
Proof.
  cbv zeta. unfold request_config. cbn [opts headers].
  set (picked := _pick config PATHS_WHITELIST).
  assert (Hin : forall k, k ∈ PATHS_WHITELIST -> picked !! k = config !! k).
  { intros k Hk. unfold picked. rewrite _pick_lookup.
    rewrite bool_decide_eq_true_2 by exact Hk. reflexivity. }
  assert (Hout : forall k, k ∉ PATHS_WHITELIST -> picked !! k = None).
  { intros k Hk. unfold picked. rewrite _pick_lookup.
    rewrite bool_decide_eq_false_2 by exact Hk. reflexivity. }
  assert (He : picked !! "endpoint" = config !! "endpoint")
    by (apply Hin, whitelisted; auto 10).
  assert (Hm : picked !! "method" = config !! "method")
    by (apply Hin, whitelisted; auto 10).
  assert (Hb : picked !! "body" = config !! "body")
    by (apply Hin, whitelisted; auto 10).
  rewrite He, Hm, Hb.
  repeat split.
  - rewrite lookup_union, !lookup_delete_ne by discriminate.
    rewrite Hout, lookup_insert_eq; [reflexivity |].
    rewrite whitelisted. intros H; decompose [or] H; congruence.
  - rewrite lookup_union, !lookup_delete_ne by discriminate.
    rewrite Hout
      by (rewrite whitelisted; intros H; decompose [or] H; congruence).
    rewrite !lookup_insert_ne by discriminate.
    rewrite lookup_singleton_eq. reflexivity.
  - rewrite lookup_union, lookup_delete_ne, lookup_delete_eq by discriminate.
    rewrite lookup_insert_ne, lookup_insert_eq by discriminate. reflexivity.
  - intros k Hk. rewrite !elem_of_cons, elem_of_nil in Hk.
    assert (Hwl : k ∈ PATHS_WHITELIST) by (apply whitelisted; tauto).
    rewrite lookup_union.
    rewrite !lookup_delete_ne by (decompose [or] Hk; subst; congruence).
    rewrite !lookup_insert_ne by (decompose [or] Hk; subst; congruence).
    rewrite lookup_singleton_ne by (decompose [or] Hk; subst; congruence).
    rewrite (Hin k Hwl). destruct (config !! k); reflexivity.
  - intros k Hk. rewrite !not_elem_of_cons in Hk.
    destruct Hk as (Hu & Hme & Hd & Hc & Hw & Hn & _).
    rewrite lookup_union.
    rewrite !lookup_insert_ne by congruence.
    rewrite lookup_singleton_ne by congruence.
    assert (Hnone : delete "endpoint" (delete "method" (delete "body" picked))
                      !! k = None).
    { destruct (decide (k = "endpoint")) as [-> | H1];
        [apply lookup_delete_eq |].
      rewrite lookup_delete_ne by congruence.
      destruct (decide (k = "method")) as [-> | H2];
        [apply lookup_delete_eq |].
      rewrite lookup_delete_ne by congruence.
      destruct (decide (k = "body")) as [-> | H3];
        [apply lookup_delete_eq |].
      rewrite lookup_delete_ne by congruence.
      apply Hout. rewrite whitelisted. tauto. }
    rewrite Hnone. reflexivity.
Qed.

(** *** Counting what a call did *)

Lemma filter_snoc_length (f : Event -> bool) (l : list Event) (e : Event) :
  length (filter f (l ++ [e])) =
    length (filter f l) + (if f e then 1 else 0).
Proof.
  rewrite filter_app, length_app. f_equal. destruct (f e) eqn:He.
  - rewrite filter_cons_True by (rewrite He; exact I). reflexivity.
  - rewrite filter_cons_False by (rewrite He; auto). reflexivity.
Qed.

Lemma http_requests_emit {P} (w : World P) (e : Event) :
  http_requests (emit e w) = http_requests w + (if is_http e then 1 else 0).
Proof. apply filter_snoc_length. Qed.

Lemma logout_trace {P} (w : World P) :
  trace (UnauthorizedManager_logout w).1 = trace w \/
  trace (UnauthorizedManager_logout w).1 = trace w ++ [EvLogout].
Proof.
  unfold UnauthorizedManager_logout, logout, effect.
  destruct (logoutTimeout w); [left | right]; reflexivity.
Qed.

Lemma within_logout {P} (w : World P) :
  within w (UnauthorizedManager_logout w).1 0 0 0 1 0.
Proof.
  unfold within, instances, http_requests, refresh_posts, logouts,
    notifications.
  destruct (logout_trace w) as [-> | ->];
    rewrite ?filter_snoc_length; cbn; lia.
Qed.

Lemma within_same {P} (w w' : World P) :
  trace w' = trace w -> within w w' 0 0 0 0 0.
Proof.
  intros H.
  unfold within, instances, http_requests, refresh_posts, logouts,
    notifications.
  rewrite H. lia.
Qed.

Lemma within_emit {P} (w : World P) (e : Event) :
  within w (emit e w)
    (if is_instance e then 1 else 0) (if is_http e then 1 else 0)
    (if is_refresh_post e then 1 else 0) (if is_logout e then 1 else 0)
    (if is_notify e then 1 else 0).
Proof.
  unfold within, instances, http_requests, refresh_posts, logouts,
    notifications, emit; cbn [trace].
  rewrite !filter_snoc_length. lia.
Qed.


(** *** Requests that never leave the client *)

Lemma instance_no_token (E : Env) (fuel : nat) (config : AxiosConfig)
      (w : World Settled) :
  truthy (opt config "withoutAuth") = false ->
  is_null (read_token (storage w)) = true ->
  instance E (S fuel) config w =
    ((UnauthorizedManager_logout (emit (EvInstance config) w)).1,
     Throw (ThrownReq
              (mkRequestError
                 (Some (ThrownErr (new_error NoAuthTokenError
                                             (MLit "No access token"))))
                 (Some config) None false))).
Proof.
  intros Hauth Hnull. rewrite instance_step. unfold bind at 1.
  rewrite request_interceptor_eq, Hauth. cbv zeta.
  change (storage (emit (EvInstance config) w)) with (storage w).
  rewrite Hnull. unfold response_onReject. cbn [isCancel t_class
    interceptor_rejection e_class ErrClass_eqb instanceof
    t_requestInterceptorError e_requestInterceptorError se_class].
  unfold_M. run_logout. reflexivity.
Qed.

Lemma opt_submitted (config : gmap string JS) (k : string) :
  k ∈ ["cancelToken"; "withoutAuth"; "disableErrorNotification"] ->
  opt (request_config (_pick config PATHS_WHITELIST)) k =
    default Undef (config !! k).
Proof.
  intros Hk. rewrite !elem_of_cons, elem_of_nil in Hk.
  rewrite opt_request_config.
  - rewrite _pick_lookup, bool_decide_eq_true_2; [reflexivity |].
    apply whitelisted. tauto.
  - rewrite !not_elem_of_cons.
    repeat split; try (decompose [or] Hk; subst; congruence).
    apply not_elem_of_nil.
Qed.

Lemma opt_submitted_retried (config : gmap string JS) :
  opt (request_config (_pick config PATHS_WHITELIST)) "retried" = Undef.
Proof.
  rewrite opt_request_config.
  - rewrite _pick_lookup, bool_decide_eq_false_2; [reflexivity |].
    rewrite whitelisted. intros H; decompose [or] H; congruence.
  - rewrite !not_elem_of_cons. repeat split; try discriminate.
    apply not_elem_of_nil.
Qed.

(** X4. An authenticated call made while the store holds no token (no
    item, text that is not JSON, a JSON number, string, boolean or null)
    never reaches the network: [callApi] returns a RequestError holding a
    [NoAuthTokenError] and the submitted configuration, the manager's
    [logout()] is called, and neither an HTTP request nor a refresh request
    is issued. *)
Theorem callApi_without_token (E : Env) (fuel : nat)
        (config : gmap string JS) (w : World Settled) :
  truthy (default Undef (config !! "withoutAuth")) = false ->
  is_null (read_token (storage w)) = true ->
  let submitted := request_config (_pick config PATHS_WHITELIST) in
  let w' := (UnauthorizedManager_logout (emit (EvInstance submitted) w)).1 in
  callApi E (S fuel) config w =
    (w', Normal (Caught (ThrownReq
            (mkRequestError
               (Some (ThrownErr (new_error NoAuthTokenError
                                           (MLit "No access token"))))
               (Some submitted) None false)))) /\
  http_requests w' = http_requests w /\
  refresh_posts w' = refresh_posts w /\
  storage w' = (if logoutTimeout w is Some _ then storage w else None) /\
  logouts w' = logouts w + (if logoutTimeout w is Some _ then 0 else 1).
Proof.
  intros Hauth Hnull submitted w'.
  assert (Hauth' : truthy (opt submitted "withoutAuth") = false).
  { unfold submitted. rewrite opt_submitted; [exact Hauth |].
    rewrite !elem_of_cons. auto. }
  split.
  - rewrite callApi_of_instance. cbv zeta. fold submitted.
    rewrite (instance_no_token E fuel submitted w Hauth' Hnull). reflexivity.
  - unfold w', UnauthorizedManager_logout, logout, effect.
    change (logoutTimeout (emit (EvInstance submitted) w))
      with (logoutTimeout w).
    destruct (logoutTimeout w); cbn [fst].
    + rewrite http_requests_emit, refresh_posts_emit, logouts_emit. cbn.
      repeat split; lia.
    + rewrite !http_requests_emit, !refresh_posts_emit, !logouts_emit. cbn.
      unfold http_requests, refresh_posts, logouts. cbn.
      rewrite ?filter_snoc_length. cbn. repeat split; lia.
Qed.

Lemma callApi_without_token_witness :
  let E := sample_env (Responded 200 (Some orders)) refresh_ok in
  let w : World Settled := world_with (Some (NotJson "oops")) in
  (callApi E 1 orders_request w).2 =
    Normal (Caught (ThrownReq
      (mkRequestError
         (Some (ThrownErr (new_error NoAuthTokenError
                                     (MLit "No access token"))))
         (Some (request_config (_pick orders_request PATHS_WHITELIST)))
         None false))) /\
  logouts (callApi E 1 orders_request w).1 = 1.
Proof.
  intros E w.
  pose proof (callApi_without_token E 0 orders_request w eq_refl eq_refl)
    as (Hcall & _ & _ & _ & Hlog).
  rewrite Hcall. split; [reflexivity | exact Hlog].
Defined.

(** *** Requests that were sent *)

Lemma callApi_sent (E : Env) (fuel : nat) (config : gmap string JS)
      (sent : AxiosConfig) (w : World Settled) (o : Outcome) (dt : nat) :
  let submitted := request_config (_pick config PATHS_WHITELIST) in
  let w1 := emit (EvInstance submitted) w in
  request_interceptor E submitted w1 = (w1, Normal sent) ->
  adapter E sent (trace (emit (EvHttp sent) w1)) = (o, dt) ->
  let w2 := advance dt (emit (EvHttp sent) w1) in
  callApi E (S fuel) config w =
    let r := match settle sent o with
             | Normal axiosResponse => response_onFulfilled E axiosResponse w2
             | Throw error => response_onReject E (instance E fuel) error w2
             | OutOfFuel => (w2, OutOfFuel)
             end in
    (r.1,
     match r.2 with
     | Normal resp => Normal (Data (r_data resp))
     | Throw requestError => Normal (Caught requestError)
     | OutOfFuel => OutOfFuel
     end).
Proof.
  intros submitted w1 Hpre Hnet w2. rewrite callApi_of_instance. cbv zeta.
  fold submitted.
  rewrite (instance_sent E fuel submitted sent w o dt Hpre Hnet). reflexivity.
Qed.

(** X5. When the request interceptor lets the request through and the
    network answers with a 2xx status and a truthy payload that
    [isReqSuccess] accepts, [callApi] returns that payload; one HTTP
    request was made and nothing else happened (no logout, no refresh, no
    notification, the store untouched). What was sent is the submitted
    configuration itself for a [withoutAuth] request, and otherwise the
    submitted configuration with the stored token as [Access-Token]. *)
Theorem callApi_success (E : Env) (fuel : nat) (config : gmap string JS)
        (sent : AxiosConfig) (w : World Settled) (status : Z) (data : JSON)
        (dt : nat) :
  let submitted := request_config (_pick config PATHS_WHITELIST) in
  let w1 := emit (EvInstance submitted) w in
  request_interceptor E submitted w1 = (w1, Normal sent) ->
  adapter E sent (trace (emit (EvHttp sent) w1))
    = (Responded status (Some data), dt) ->
  ((200 <=? status) && (status <? 300))%Z = true ->
  truthy_json data = true ->
  isReqSuccess E (Some data) = true ->
  callApi E (S fuel) config w =
    (advance dt (emit (EvHttp sent) w1), Normal (Data (Some data))) /\
  sent =
    (if truthy (default Undef (config !! "withoutAuth")) then submitted
     else set_header "Access-Token"
                     (of_json (member "token" (read_token (storage w))))
                     submitted).
Proof.
  intros submitted w1 Hpre Hnet H2xx Htruthy Hok. split.
  - rewrite (callApi_sent E fuel config sent w _ dt Hpre Hnet). cbv zeta.
    cbn [settle]. rewrite H2xx. unfold response_onFulfilled.
    cbn [r_data of_json truthy]. rewrite Htruthy, Hok. reflexivity.
  - rewrite request_interceptor_eq in Hpre. cbv zeta in Hpre.
    unfold submitted in Hpre. rewrite opt_submitted in Hpre
      by (rewrite !elem_of_cons; auto).
    fold submitted in Hpre.
    destruct (truthy (default Undef (config !! "withoutAuth"))).
    + injection Hpre as <-. reflexivity.
    + change (storage w1) with (storage w) in Hpre.
      destruct (is_null (read_token (storage w))); [discriminate |].
      destruct ((isTokenExpired E (read_token (storage w)) w1).2)
        as [[] | |]; try discriminate; injection Hpre as <-; reflexivity.
Qed.

Lemma callApi_success_witness :
  let E := sample_env (Responded 200 (Some orders)) refresh_ok in
  let w : World Settled := world_with (Some (Json token_B)) in
  (callApi E 1 orders_request w).2 = Normal (Data (Some orders)).
Proof.
  intros E w.
  pose proof (callApi_success E 0 orders_request
                (set_header "Access-Token" (Jv (JStr "B"))
                   (request_config (_pick orders_request PATHS_WHITELIST)))
                w 200 orders 5
                ltac:(vm_compute; reflexivity) eq_refl eq_refl eq_refl eq_refl)
    as [H _].
  rewrite H. reflexivity.
Defined.

(** X6. A request that was sent and failed for any reason other than a
    401 ends at once, whatever the retry would do: a response outside 2xx
    gives a RequestError with a generic error and that response; no
    response gives one with a [ServerNoResponseError]; a failure while
    setting the request up gives one with a new error carrying the original
    message; a cancellation gives one with [isCancelled], no error, no
    response, and the configuration of the cancellation object, which
    carries none. In all four cases nothing happens after the HTTP
    request: no logout, no refresh, no notification. *)
Theorem callApi_transport_failure (E : Env) (fuel : nat)
        (config : gmap string JS) (sent : AxiosConfig) (w : World Settled)
        (o : Outcome) (dt : nat) :
  let submitted := request_config (_pick config PATHS_WHITELIST) in
  let w1 := emit (EvInstance submitted) w in
  request_interceptor E submitted w1 = (w1, Normal sent) ->
  adapter E sent (trace (emit (EvHttp sent) w1)) = (o, dt) ->
  let w2 := advance dt (emit (EvHttp sent) w1) in
  let returns q := callApi E (S fuel) config w
                   = (w2, Normal (Caught (ThrownReq q))) in
  match o with
  | Responded status data =>
      ((200 <=? status) && (status <? 300))%Z = false ->
      status <> 401%Z ->
      returns
        (mkRequestError
           (Some (ThrownErr
              (new_error Error
                 (MLit "Server responded with a status code that is out of range of 2xx"))))
           (Some sent) (Some (mkResponse status data sent)) false)
  | NoReply =>
      returns
        (mkRequestError
           (Some (ThrownErr (new_error ServerNoResponseError MNone)))
           (Some sent) None false)
  | SetupFailure m =>
      returns
        (mkRequestError (Some (ThrownErr (new_error Error m)))
                        (Some sent) None false)
  | Cancelled m => returns (mkRequestError None None None true)
  end.
Proof.
  intros submitted w1 Hpre Hnet w2 returns. unfold returns.
  rewrite (callApi_sent E fuel config sent w o dt Hpre Hnet). cbv zeta.
  fold w1 w2.
  destruct o as [status data | | m | m]; cbn [settle].
  - intros H2xx H401. rewrite H2xx. unfold response_onReject.
    cbn [isCancel t_class e_class ErrClass_eqb instanceof
         t_requestInterceptorError e_requestInterceptorError
         status_is_401 t_response e_response r_status orb].
    destruct (Z.eqb_spec status 401); [contradiction |].
    reflexivity.
  - reflexivity.
  - reflexivity.
  - reflexivity.
Qed.

Lemma callApi_transport_failure_witness :
  let E := sample_env NoReply refresh_ok in
  let w : World Settled := world_with (Some (Json token_B)) in
  (callApi E 1 orders_request w).2 =
    Normal (Caught (ThrownReq
      (mkRequestError
         (Some (ThrownErr (new_error ServerNoResponseError MNone)))
         (Some (set_header "Access-Token" (Jv (JStr "B"))
                  (request_config (_pick orders_request PATHS_WHITELIST))))
         None false))).
Proof.
  intros E w.
  pose proof (callApi_transport_failure E 0 orders_request
                (set_header "Access-Token" (Jv (JStr "B"))
                   (request_config (_pick orders_request PATHS_WHITELIST)))
                w NoReply 5 ltac:(vm_compute; reflexivity) eq_refl) as H.
  cbv zeta in H. cbn [fst snd] in H. rewrite H. reflexivity.
Defined.

Lemma request_interceptor_opts (E : Env) (config sent : AxiosConfig)
      (w w' : World Settled) :
  request_interceptor E config w = (w', Normal sent) ->
  opts sent = opts config.
Proof.
  destruct (request_interceptor_cases E config w)
    as [(config' & -> & Hopts) | (s & ->)]; [| discriminate].
  intros [= _ <-]. exact Hopts.
Qed.

Lemma opt_sent (E : Env) (config : gmap string JS) (sent : AxiosConfig)
      (w w' : World Settled) (k : string) :
  request_interceptor E (request_config (_pick config PATHS_WHITELIST)) w
    = (w', Normal sent) ->
  k ∈ ["cancelToken"; "withoutAuth"; "disableErrorNotification"] ->
  opt sent k = default Undef (config !! k).
Proof.
  intros Hpre Hk. unfold opt.
  rewrite (request_interceptor_opts E _ _ _ _ Hpre).
  apply opt_submitted. exact Hk.
Qed.

(** X9. When a request was sent and the network answered with a 2xx
    status and a payload that is not [null] but is falsy or refused by
    [isReqSuccess], [callApi] returns a RequestError holding the sent
    configuration, the response, and a [BEResponseError] whose message is
    the payload's [message] when that is truthy and otherwise the
    code-or-status template. The pipeline dispatches its own failure
    notification exactly when the caller's [disableErrorNotification] is
    falsy, and nothing else happens: no logout, no refresh, no retry. *)
Theorem callApi_business_failure (E : Env) (fuel : nat)
        (config : gmap string JS) (sent : AxiosConfig) (w : World Settled)
        (status : Z) (payload : JSON) (dt : nat) :
  let submitted := request_config (_pick config PATHS_WHITELIST) in
  let w1 := emit (EvInstance submitted) w in
  request_interceptor E submitted w1 = (w1, Normal sent) ->
  adapter E sent (trace (emit (EvHttp sent) w1))
    = (Responded status (Some payload), dt) ->
  ((200 <=? status) && (status <? 300))%Z = true ->
  is_null payload = false ->
  truthy_json payload && isReqSuccess E (Some payload) = false ->
  let w2 := advance dt (emit (EvHttp sent) w1) in
  callApi E (S fuel) config w =
    ((if truthy (default Undef (config !! "disableErrorNotification")) then w2
      else emit (EvNotify (MLit "fail")
                   (MErrorStatus (member "status" payload))
                   (if truthy (of_json (member "message" payload))
                    then MValue (of_json (member "message" payload))
                    else MLit "call api failed")) w2),
     Normal (Caught (ThrownReq
       (mkRequestError
          (Some (ThrownErr
             (new_error BEResponseError
                (if truthy (of_json (member "message" payload))
                 then MValue (of_json (member "message" payload))
                 else MCodeStatus
                        (if truthy (of_json (member "code" payload))
                         then member "code" payload
                         else member "status" payload)))))
          (Some sent) (Some (mkResponse status (Some payload) sent)) false)))).
Proof.
  intros submitted w1 Hpre Hnet H2xx Hnn Hfail w2.
  rewrite (callApi_sent E fuel config sent w _ dt Hpre Hnet). cbv zeta.
  cbn [settle]. rewrite H2xx. fold submitted w1 w2.
  rewrite (response_onFulfilled_failure E
             (mkResponse status (Some payload) sent) payload w2
             eq_refl Hnn Hfail).
  cbn [r_config fst snd].
  rewrite (opt_sent E config sent w1 w1 _ Hpre)
    by (rewrite !elem_of_cons; auto).
  reflexivity.
Qed.

Lemma callApi_business_failure_witness :
  let E := sample_env bad_input refresh_ok in
  let w : World Settled := world_with (Some (Json token_B)) in
  notifications (callApi E 1 orders_request w).1 =
    [EvNotify (MLit "fail") (MErrorStatus (Some (JStr "FAIL")))
              (MValue (Jv (JStr "bad input")))].
Proof.
  intros E w.
  pose proof (callApi_business_failure E 0 orders_request
                (set_header "Access-Token" (Jv (JStr "B"))
                   (request_config (_pick orders_request PATHS_WHITELIST)))
                w 200
                (JObj [("status", JStr "FAIL"); ("code", JStr "X");
                       ("message", JStr "bad input")]) 5
                ltac:(vm_compute; reflexivity) eq_refl eq_refl eq_refl eq_refl)
    as H.
  cbv zeta in H. rewrite H. vm_compute. reflexivity.
Defined.

(** *** What a normal result says *)

Lemma response_onFulfilled_normal (E : Env) (axiosResponse resp : Response)
      (w : World Settled) :
  (response_onFulfilled E axiosResponse w).2 = Normal resp ->
  resp = axiosResponse /\
  truthy (of_json (r_data resp)) && isReqSuccess E (r_data resp) = true.
Proof.
  unfold response_onFulfilled.
  destruct (truthy (of_json (r_data axiosResponse))
            && isReqSuccess E (r_data axiosResponse)) eqn:Hok.
  - intros [= <-]. split; [reflexivity | exact Hok].
  - unfold displayFailNotification, _displayNotification. unfold_M.
    destruct (destructure "code" _); cbn [snd]; try discriminate.
    destruct (destructure "status" _); cbn [snd]; try discriminate.
    destruct (destructure "message" _); cbn [snd]; try discriminate.
    destruct (negb _); cbn [snd]; discriminate.
Qed.

(** A normal result of [onReject] is a normal result of the retry. *)
Lemma response_onReject_normal (E : Env)
      (retry : AxiosConfig -> M Settled Response) (error : Thrown)
      (resp : Response) (w : World Settled) :
  (response_onReject E retry error w).2 = Normal resp ->
  exists c w', (retry c w').2 = Normal resp.
Proof.
  unfold response_onReject.
  destruct (isCancel error); [discriminate |].
  destruct (instanceof (t_requestInterceptorError error) NoAuthTokenError).
  { unfold_M. run_logout. discriminate. }
  destruct (status_is_401 (t_response error)
            || instanceof (t_requestInterceptorError error)
                          AuthTokenExpiredError).
  - destruct (t_config error) as [c |]; [| discriminate].
    unfold bind at 1, ret at 1.
    destruct (truthy (opt c "retried")).
    + unfold_M. run_logout. discriminate.
    + unfold bind, attempt.
      destruct (refreshingToken E w) as [w' [a | e |]]; cbn [snd];
        try discriminate.
      intros H. eexists _, _. exact H.
  - destruct (bool_decide (is_Some (t_response error))); [discriminate |].
    destruct (t_request error); discriminate.
Qed.

Lemma yields_instance (E : Env) (fuel : nat) (config : AxiosConfig) :
  yields (fun resp =>
            truthy (of_json (r_data resp)) && isReqSuccess E (r_data resp)
            = true)
         (instance E fuel config).
Proof.
  revert config. induction fuel as [| fuel IH]; intros config w resp.
  - discriminate.
  - rewrite instance_step.
    destruct ((let! config' := request_interceptor E config in
               dispatch E config') (emit (EvInstance config) w))
      as [w' [r | e |]].
    + intros H. apply response_onFulfilled_normal in H. apply H.
    + intros H. apply response_onReject_normal in H as (c & w'' & H).
      exact (IH c w'' resp H).
    + discriminate.
Qed.

(** X8. Whatever the store, the clock, the network and the manager's
    state: when [callApi] returns a payload rather than an error object,
    that payload is truthy and accepted by [isReqSuccess]. A payload that
    fails either test is never handed to the caller as data. *)
Theorem callApi_data_is_success (E : Env) (fuel : nat)
        (config : gmap string JS) (w : World Settled) (d : option JSON) :
  (callApi E fuel config w).2 = Normal (Data d) ->
  truthy (of_json d) = true /\ isReqSuccess E d = true.
Proof.
  rewrite callApi_of_instance. cbv zeta. cbn [snd].
  destruct (instance E fuel _ w) as [w' [resp | t |]] eqn:Hrun;
    cbn [snd]; try discriminate.
  intros [= <-]. apply andb_prop.
  apply (yields_instance E fuel
           (request_config (_pick config PATHS_WHITELIST)) w resp).
  rewrite Hrun. reflexivity.
Qed.

Lemma callApi_data_is_success_witness :
  truthy (of_json (Some orders)) = true /\
  sample_isReqSuccess (Some orders) = true.
Proof.
  exact (callApi_data_is_success
           (sample_env (Responded 200 (Some orders)) refresh_ok) 1
           orders_request (world_with (Some (Json token_B))) (Some orders)
           eq_refl).
Defined.

(** *** The facade with notifications, as a wrapper of [callApi] *)

Lemma displaySuccessNotification_eq {P} (info : NotificationInfo)
      (w : World P) :
  displaySuccessNotification info w =
    (emit (success_notification info) w, Normal tt).
Proof. reflexivity. Qed.

Lemma displayFailNotification_facade {P} (info : NotificationInfo)
      (requestError : Thrown) (w : World P) :
  displayFailNotification
    (info ∪ {[ "mode" := MLit "fail";
               "content" := t_error_message requestError ]}) w =
    (emit (fail_notification info requestError) w, Normal tt).
Proof.
  unfold displayFailNotification, _displayNotification, effect,
    fail_notification.
  rewrite !lookup_union.
  rewrite lookup_insert_eq.
  rewrite !lookup_insert_ne by discriminate.
  rewrite lookup_singleton_eq.
  rewrite !lookup_singleton_ne by discriminate.
  destruct (info !! "mode"), (info !! "title"), (info !! "content");
    reflexivity.
Qed.

(** The [try] / [catch] of the facade is [callApi] on the fields of the
    caller's object, followed by the notification chosen by the result. *)
Lemma callApiWithNotification_try_eq (E : Env) (fuel config : nat)
      (options : Options) (w : World Settled) :
  callApiWithNotification_try E fuel config options w =
    let r := callApi E fuel (default ∅ (objs w !! config)) w in
    (match r.2 with
     | Normal (Data _) =>
         match onSuccess options with
         | Some info => emit (success_notification info) r.1
         | None => r.1
         end
     | Normal (Caught requestError) =>
         match onFail options with
         | Some info =>
             if t_isCancelled requestError then r.1
             else emit (fail_notification info requestError) r.1
         | None => r.1
         end
     | _ => r.1
     end, r.2).
Proof.
  rewrite callApi_of_instance. cbv zeta.
  unfold callApiWithNotification_try, _callApi, try_catch.
  unfold bind at 1, gets at 1. unfold bind at 1.
  destruct (instance E fuel _ w) as [w' [resp | t |]]; cbn [fst snd].
  - unfold bind, ret. destruct (onSuccess options) as [info |].
    + rewrite displaySuccessNotification_eq. reflexivity.
    + reflexivity.
  - unfold bind, ret. destruct (onFail options) as [info |]; [| reflexivity].
    destruct (t_isCancelled t); cbn [negb]; [reflexivity |].
    rewrite displayFailNotification_facade. reflexivity.
  - reflexivity.
Qed.

Lemma callApiWithNotification_eq (E : Env) (fuel config : nat)
      (options : Options) (w : World Settled) (fields : gmap string JS) :
  objs w !! config = Some fields ->
  let flag :=
    disableErrorNotification_default
      (default Undef (fields !! "disableErrorNotification")) (onFail options) in
  let fields' := <["disableErrorNotification" := flag]> fields in
  let written := set_objs (<[config := fields']> (objs w)) w in
  let r := callApi E fuel fields' written in
  callApiWithNotification E fuel config options w =
    (match r.2 with
     | Normal (Data _) =>
         match onSuccess options with
         | Some info => emit (success_notification info) r.1
         | None => r.1
         end
     | Normal (Caught requestError) =>
         match onFail options with
         | Some info =>
             if t_isCancelled requestError then r.1
             else emit (fail_notification info requestError) r.1
         | None => r.1
         end
     | _ => r.1
     end, r.2).
Proof.
  intros Hobj flag fields' written r.
  unfold callApiWithNotification. unfold bind at 1, gets at 1.
  rewrite Hobj. unfold bind at 1, effect at 1. fold flag fields' written.
  rewrite callApiWithNotification_try_eq. cbv zeta.
  replace (default ∅ (objs written !! config)) with fields'
    by (unfold written; cbn [objs set_objs]; rewrite lookup_insert_eq;
        reflexivity).
  reflexivity.
Qed.

(** X17. [callApiWithNotification] is [callApi] with notifications
    around it: once the flag is written into the caller's object, it
    returns exactly what [callApi] returns for that object, and the only
    thing it adds is at most one notification at the end: after data, the
    [onSuccess] notification if [onSuccess] was given; after an error
    object that is not a cancellation, the [onFail] notification if
    [onFail] was given, in which [mode] is ['fail'] and [content] is the
    error's message unless [onFail] sets them itself. *)
Theorem callApiWithNotification_wraps_callApi (E : Env) (fuel config : nat)
        (options : Options) (w : World Settled) (fields : gmap string JS) :
  objs w !! config = Some fields ->
  let flag :=
    disableErrorNotification_default
      (default Undef (fields !! "disableErrorNotification")) (onFail options) in
  let fields' := <["disableErrorNotification" := flag]> fields in
  let written := set_objs (<[config := fields']> (objs w)) w in
  let r := callApi E fuel fields' written in
  let after := callApiWithNotification E fuel config options w in
  after.2 = r.2 /\
  after.1 =
    match r.2 with
    | Normal (Data _) =>
        match onSuccess options with
        | Some info =>
            emit (EvNotify (default MNone (info !! "mode"))
                           (default MNone (info !! "title"))
                           (default MNone (info !! "content"))) r.1
        | None => r.1
        end
    | Normal (Caught requestError) =>
        match onFail options with
        | Some info =>
            if t_isCancelled requestError then r.1
            else emit (EvNotify (default (MLit "fail") (info !! "mode"))
                                (default MNone (info !! "title"))
                                (default (t_error_message requestError)
                                         (info !! "content"))) r.1
        | None => r.1
        end
    | _ => r.1
    end.
Proof.
  intros Hobj flag fields' written r after. unfold after.
  rewrite (callApiWithNotification_eq E fuel config options w fields Hobj).
  cbv zeta. fold flag fields' written r. split; reflexivity.
Qed.

Lemma callApiWithNotification_wraps_callApi_witness :
  let E := sample_env (Responded 200 (Some orders)) NoReply in
  let options := mkOptions (Some {[ "title" := MLit "Saved" ]}) None in
  let after := callApiWithNotification E 1 0 options caller_world in
  after.2 = Normal (Data (Some orders)) /\
  notifications after.1 = [EvNotify MNone (MLit "Saved") MNone].
Proof.
  intros E options after.
  pose proof (callApiWithNotification_wraps_callApi E 1 0 options caller_world
                orders_request eq_refl) as [Hret Hworld].
  unfold after. rewrite Hret, Hworld. vm_compute. split; reflexivity.
Defined.

(** X7. A request that was cancelled on the network gives no
    notification at all, whatever [onFail] and [onSuccess] are:
    [callApiWithNotification] returns a RequestError with [isCancelled] set
    and no error or response (nor a configuration, the cancellation object
    carrying none), and the notifications are those that were there before
    the call. *)
Theorem cancelled_call_is_silent (E : Env) (fuel config : nat)
        (options : Options) (w : World Settled) (fields : gmap string JS)
        (sent : AxiosConfig) (m : Msg) (dt : nat) :
  objs w !! config = Some fields ->
  let flag :=
    disableErrorNotification_default
      (default Undef (fields !! "disableErrorNotification")) (onFail options) in
  let fields' := <["disableErrorNotification" := flag]> fields in
  let written := set_objs (<[config := fields']> (objs w)) w in
  let submitted := request_config (_pick fields' PATHS_WHITELIST) in
  let w1 := emit (EvInstance submitted) written in
  request_interceptor E submitted w1 = (w1, Normal sent) ->
  adapter E sent (trace (emit (EvHttp sent) w1)) = (Cancelled m, dt) ->
  let after := callApiWithNotification E (S fuel) config options w in
  after =
    (advance dt (emit (EvHttp sent) w1),
     Normal (Caught (ThrownReq (mkRequestError None None None true)))) /\
  notifications after.1 = notifications w.
Proof.
  intros Hobj flag fields' written submitted w1 Hpre Hnet after.
  assert (Hafter : after =
            (advance dt (emit (EvHttp sent) w1),
             Normal (Caught (ThrownReq (mkRequestError None None None true))))).
  { unfold after.
    rewrite (callApiWithNotification_eq E (S fuel) config options w fields Hobj).
    cbv zeta. fold flag fields' written.
    rewrite (callApi_sent E fuel fields' sent written _ dt Hpre Hnet).
    cbv zeta. cbn [settle]. unfold response_onReject.
    cbn [isCancel t_class e_class ErrClass_eqb]. unfold throw.
    cbn [fst snd t_config e_config t_isCancelled rq_isCancelled].
    destruct (onFail options); reflexivity. }
  split; [exact Hafter |]. rewrite Hafter. cbn [fst].
  unfold notifications. cbn [trace advance emit w1 written set_objs].
  rewrite !filter_app.
  rewrite !filter_cons_False by (cbn; auto).
  rewrite filter_nil, !app_nil_r. reflexivity.
Qed.

Lemma cancelled_call_is_silent_witness :
  let E := sample_env (Cancelled (MLit "unmounted")) NoReply in
  let options := mkOptions (Some save_failed) (Some save_failed) in
  notifications (callApiWithNotification E 1 0 options caller_world).1 = [].
Proof.
  intros E options.
  pose proof (cancelled_call_is_silent E 0 0 options caller_world
                orders_request
                (set_header "Access-Token" (Jv (JStr "B"))
                   (request_config
                      (_pick (<["disableErrorNotification" := Jv (JBool true)]>
                                orders_request) PATHS_WHITELIST)))
                (MLit "unmounted") 5 eq_refl) as H.
  cbv zeta in H.
  specialize (H ltac:(vm_compute; reflexivity) eq_refl).
  destruct H as [_ H]. rewrite H. reflexivity.
Defined.

(** X16. When the caller's object already carries a
    [disableErrorNotification] that is neither [undefined] nor [null],
    [callApiWithNotification] leaves the caller's objects exactly as they
    were: the assignment writes the value back, and nothing later in the
    call touches them. *)
Theorem explicit_flag_leaves_config (E : Env) (fuel config : nat)
        (options : Options) (w : World Settled) (fields : gmap string JS)
        (v : JS) :
  objs w !! config = Some fields ->
  fields !! "disableErrorNotification" = Some v ->
  nullish v = false ->
  objs (callApiWithNotification E fuel config options w).1 = objs w.
Proof.
  intros Hobj Hflag Hv.
  unfold callApiWithNotification. unfold bind at 1, gets at 1.
  rewrite Hobj. unfold bind at 1, effect at 1.
  rewrite keeps_callApiWithNotification_try. cbn [objs set_objs].
  unfold disableErrorNotification_default. rewrite Hflag.
  cbn [default from_option id]. rewrite Hv. rewrite (insert_id fields _ _ Hflag).
  apply insert_id. exact Hobj.
Qed.

Lemma explicit_flag_leaves_config_witness :
  let E := sample_env bad_input NoReply in
  let w : World Settled :=
    set_objs {[ 0%nat := <["disableErrorNotification" := Jv (JBool false)]>
                           orders_request ]}
             (world_with (Some (Json token_B))) in
  objs (callApiWithNotification E 2 0 (mkOptions None (Some save_failed)) w).1
    = objs w.
Proof.
  intros E w.
  exact (explicit_flag_leaves_config E 2 0 (mkOptions None (Some save_failed))
           w _ (Jv (JBool false)) eq_refl eq_refl eq_refl).
Defined.

(** X19. The notifications of a business failure seen through
    [callApiWithNotification]: the pipeline's own, unless the flag it
    received is truthy, followed by the [onFail] notification, if [onFail]
    was given. With the defaulted flag there is exactly one: the
    pipeline's without [onFail], the [onFail] one with it. With an
    explicit falsy flag and an [onFail] the user is notified twice, and
    with an explicit truthy flag and no [onFail] not at all. *)
Theorem facade_failure_notifications (E : Env) (fuel config : nat)
        (options : Options) (w : World Settled) (fields : gmap string JS)
        (sent : AxiosConfig) (status : Z) (payload : JSON) (dt : nat) :
  objs w !! config = Some fields ->
  let flag :=
    disableErrorNotification_default
      (default Undef (fields !! "disableErrorNotification")) (onFail options) in
  let fields' := <["disableErrorNotification" := flag]> fields in
  let written := set_objs (<[config := fields']> (objs w)) w in
  let submitted := request_config (_pick fields' PATHS_WHITELIST) in
  let w1 := emit (EvInstance submitted) written in
  request_interceptor E submitted w1 = (w1, Normal sent) ->
  adapter E sent (trace (emit (EvHttp sent) w1))
    = (Responded status (Some payload), dt) ->
  ((200 <=? status) && (status <? 300))%Z = true ->
  is_null payload = false ->
  truthy_json payload && isReqSuccess E (Some payload) = false ->
  let requestError :=
    ThrownReq (mkRequestError (Some (business_error payload)) (Some sent)
                 (Some (mkResponse status (Some payload) sent)) false) in
  let after := callApiWithNotification E (S fuel) config options w in
  after.2 = Normal (Caught requestError) /\
  notifications after.1 =
    notifications w
    ++ (if truthy flag then [] else [pipeline_notification payload])
    ++ match onFail options with
       | Some info => [fail_notification info requestError]
       | None => []
       end.
Proof.
  intros Hobj flag fields' written submitted w1 Hpre Hnet H2xx Hnn Hfail
         requestError after.
  unfold after.
  rewrite (callApiWithNotification_eq E (S fuel) config options w fields Hobj).
  cbv zeta. fold flag fields' written.
  rewrite (callApi_sent E fuel fields' sent written _ dt Hpre Hnet).
  cbv zeta. cbn [settle]. rewrite H2xx. fold submitted w1.
  rewrite (response_onFulfilled_failure E
             (mkResponse status (Some payload) sent) payload _
             eq_refl Hnn Hfail).
  cbn [r_config fst snd]. fold requestError.
  rewrite (opt_sent E fields' sent w1 w1 _ Hpre)
    by (rewrite !elem_of_cons; auto).
  assert (Hflag : default Undef (fields' !! "disableErrorNotification") = flag)
    by (unfold fields'; rewrite lookup_insert_eq; reflexivity).
  rewrite Hflag. split; [reflexivity |].
  cbn [t_isCancelled requestError rq_isCancelled].
  assert (Hbase : notifications (advance dt (emit (EvHttp sent) w1))
                  = notifications w).
  { unfold notifications. cbn [trace advance emit w1 written set_objs].
    rewrite !filter_app.
    rewrite !filter_cons_False by (cbn; auto).
    rewrite filter_nil, !app_nil_r. reflexivity. }
  destruct (truthy flag), (onFail options) as [info |];
    rewrite ?notifications_emit; cbn [is_notify fail_notification
      pipeline_notification]; rewrite ?notifications_emit;
    cbn [is_notify]; rewrite Hbase, ?app_nil_r, <- ?app_assoc; reflexivity.
Qed.

Lemma facade_failure_notifications_witness :
  let E := sample_env bad_input NoReply in
  let w : World Settled :=
    set_objs {[ 0%nat := <["disableErrorNotification" := Jv (JBool false)]>
                           orders_request ]}
             (world_with (Some (Json token_B))) in
  length (notifications
            (callApiWithNotification E 1 0 (mkOptions None (Some save_failed))
               w).1) = 2.
Proof.
  intros E w.
  pose proof (facade_failure_notifications E 0 0
                (mkOptions None (Some save_failed)) w _
                (set_header "Access-Token" (Jv (JStr "B"))
                   (request_config
                      (_pick (<["disableErrorNotification" := Jv (JBool false)]>
                                orders_request) PATHS_WHITELIST)))
                200
                (JObj [("status", JStr "FAIL"); ("code", JStr "X");
                       ("message", JStr "bad input")]) 5
                eq_refl) as H.
  cbv zeta in H.
  specialize (H ltac:(vm_compute; reflexivity) eq_refl eq_refl eq_refl
                eq_refl).
  destruct H as [_ H]. rewrite H. reflexivity.
Defined.

(** *** The budget of one call *)

Ltac count_events :=
  unfold within in *; unfold ret, throw, throw_new, lift;
  cbn [fst snd is_instance is_http is_refresh_post is_logout is_notify] in *;
  lia.

(** The worker either stores the new record and returns it, or calls
    [logout()] and throws. *)
Lemma refresh_resume_cases {P} (E : Env) (o : Outcome)
      (refreshToken token : option JSON) (w : World P) :
  (exists d, refresh_resume E o refreshToken token w =
               (set_storage (Some (stringify d)) w, Normal d)) \/
  (exists t, refresh_resume E o refreshToken token w =
               ((UnauthorizedManager_logout w).1, Throw t)).
Proof.
  unfold refresh_resume, try_catch, refresh_try, refresh_catch.
  destruct o as [status data | | m | m]; cbn [settle].
  - destruct ((200 <=? status) && (status <? 300))%Z.
    + unfold_M. cbn [r_data]. destruct (isReqSuccess E data).
      * destruct data as [[]|]; cbn;
          first [ left; exists None; reflexivity
                | left; eexists; reflexivity
                | right; run_logout; eexists; reflexivity ].
      * cbn. right. run_logout. eexists. reflexivity.
    + unfold_M; cbn. right. run_logout. eexists. reflexivity.
  - unfold_M; cbn. right. run_logout. eexists. reflexivity.
  - unfold_M; cbn. right. run_logout. eexists. reflexivity.
  - unfold_M; cbn. right. run_logout. eexists. reflexivity.
Qed.

Lemma within__refreshingToken {P} (E : Env) (w : World P) :
  within w (_refreshingToken E w).1 0 0 1 1 0 /\
  (forall d, (_refreshingToken E w).2 = Normal d ->
             within w (_refreshingToken E w).1 0 0 1 0 0).
Proof.
  rewrite _refreshingToken_eq. cbv zeta.
  destruct (is_null (read_token (storage w))).
  { split; [| discriminate]. pose proof (within_same w w eq_refl). count_events. }
  set (rt := member "refreshToken" _). set (tok := member "token" _).
  destruct (refresh_adapter E rt tok _) as [o dt]. cbn [fst snd].
  set (w0 := advance dt (emit (EvRefreshPost rt tok) w)).
  assert (H0 : within w w0 0 0 1 0 0).
  { pose proof (within_emit w (EvRefreshPost rt tok)) as He.
    pose proof (within_same (emit (EvRefreshPost rt tok) w) w0 eq_refl).
    count_events. }
  destruct (refresh_resume_cases E o rt tok w0) as [[d ->] | [t ->]];
    cbn [fst snd].
  - pose proof (within_same w0 (set_storage (Some (stringify d)) w0) eq_refl).
    split; [| intros _ _]; count_events.
  - pose proof (within_logout w0). split; [count_events | discriminate].
Qed.

Lemma within_refreshingToken (E : Env) (w : World Settled) :
  within w (refreshingToken E w).1 0 0 1 1 0 /\
  (forall d, (refreshingToken E w).2 = Normal d ->
             within w (refreshingToken E w).1 0 0 1 0 0).
Proof.
  destruct (worker w) as [settled |] eqn:Hworker.
  - assert (Hsame : trace (refreshingToken E w).1 = trace w).
    { unfold refreshingToken. unfold bind at 1.
      rewrite getLocalStorageToken_eq.
      destruct (is_null (read_token (storage w))); [reflexivity |].
      unfold finally, try_catch. unfold bind at 1. rewrite Hworker.
      unfold_M. cbn [worker]. rewrite Hworker.
      destruct settled; reflexivity. }
    pose proof (within_same w _ Hsame). split; [| intros _ _]; count_events.
  - rewrite (refreshingToken_idle E w Hworker).
    destruct (is_null (read_token (storage w))).
    { split; [| discriminate]. pose proof (within_same w w eq_refl). count_events. }
    cbn [fst snd].
    destruct (within__refreshingToken E w) as [Hany Hnormal].
    pose proof (within_same (_refreshingToken E w).1
                  (set_worker None (_refreshingToken E w).1) eq_refl).
    split; [count_events |].
    intros d Hd. specialize (Hnormal d Hd). count_events.
Qed.

Lemma within_sent (E : Env) (config : AxiosConfig) (w : World Settled) :
  within w ((let! config' := request_interceptor E config in
             dispatch E config') w).1 0 1 0 0 0.
Proof.
  unfold bind.
  destruct (request_interceptor_cases E config w)
    as [(config' & -> & _) | (s & ->)].
  - unfold dispatch. unfold_M.
    destruct (adapter E config' _) as [o dt].
    pose proof (within_emit w (EvHttp config')).
    pose proof (within_same (emit (EvHttp config') w)
                  (advance dt (emit (EvHttp config') w)) eq_refl).
    destruct (settle config' o); cbn [fst]; count_events.
  - cbn [fst]. pose proof (within_same w w eq_refl). count_events.
Qed.

Lemma within_response_onFulfilled (E : Env) (axiosResponse : Response)
      (w : World Settled) :
  within w (response_onFulfilled E axiosResponse w).1 0 0 0 0 1.
Proof.
  pose proof (within_same w w eq_refl).
  unfold response_onFulfilled.
  destruct (truthy (of_json (r_data axiosResponse))
            && isReqSuccess E (r_data axiosResponse)); [cbn [fst]; count_events |].
  unfold bind at 1, lift at 1.
  destruct (destructure "code" _); [| cbn [fst]; count_events..].
  unfold bind at 1, lift at 1.
  destruct (destructure "status" _); [| cbn [fst]; count_events..].
  unfold bind at 1, lift at 1.
  destruct (destructure "message" _); [| cbn [fst]; count_events..].
  unfold bind at 1.
  destruct (negb _).
  - rewrite displayFailNotification_pipeline. unfold throw. cbn [fst].
    match goal with
    | |- context [emit ?e w] => pose proof (within_emit w e)
    end.
    count_events.
  - unfold ret, throw. cbn [fst]. count_events.
Qed.

Lemma within_response_onReject_retried (E : Env)
      (retry : AxiosConfig -> M Settled Response) (error : Thrown)
      (w : World Settled) :
  (isCancel error = true \/
   exists c, t_config error = Some c /\ truthy (opt c "retried") = true) ->
  within w (response_onReject E retry error w).1 0 0 0 1 0.
Proof.
  intros Herr. pose proof (within_same w w eq_refl).
  pose proof (within_logout w).
  unfold response_onReject.
  destruct (isCancel error) eqn:Hcancel; [cbn [fst]; count_events |].
  destruct Herr as [Hc | (c & Hc & Hr)]; [discriminate |].
  rewrite Hc.
  destruct (instanceof (t_requestInterceptorError error) NoAuthTokenError).
  { unfold_M. run_logout. rewrite Hl in *. cbn [fst] in *. count_events. }
  destruct (status_is_401 (t_response error)
            || instanceof (t_requestInterceptorError error)
                          AuthTokenExpiredError).
  - unfold bind at 1, ret at 1. rewrite Hr.
    unfold_M. run_logout. rewrite Hl in *. cbn [fst] in *. count_events.
  - destruct (bool_decide (is_Some (t_response error))); [cbn [fst]; count_events |].
    destruct (t_request error); cbn [fst]; count_events.
Qed.

Lemma within_instance_retried (E : Env) (fuel : nat) (config : AxiosConfig)
      (w : World Settled) :
  truthy (opt config "retried") = true ->
  within w (instance E fuel config w).1 1 1 0 1 1.
Proof.
  intros Hr. destruct fuel as [| fuel].
  { pose proof (within_same w w eq_refl). cbn [instance lift fst]. count_events. }
  rewrite instance_step.
  pose proof (within_emit w (EvInstance config)) as Hi.
  pose proof (within_sent E config (emit (EvInstance config) w)) as Hs.
  destruct (sent_cases E config (emit (EvInstance config) w))
    as (w' & c & Hsent & _ & Hc).
  rewrite Hsent in *. cbn [fst] in Hs.
  destruct c as [response | e |]; [| | contradiction].
  - pose proof (within_response_onFulfilled E response w'). count_events.
  - assert (He : isCancel e = true \/
                 exists c, t_config e = Some c /\
                           truthy (opt c "retried") = true).
    { destruct Hc as [Hc | (config' & Hc & Hopts)]; [left; exact Hc | right].
      exists config'. split; [exact Hc |]. unfold opt. rewrite Hopts.
      exact Hr. }
    pose proof (within_response_onReject_retried E (instance E fuel) e w' He).
    count_events.
Qed.

Lemma within_response_onReject (E : Env)
      (retry : AxiosConfig -> M Settled Response) (error : Thrown)
      (w : World Settled) :
  (forall c w, truthy (opt c "retried") = true ->
               within w (retry c w).1 1 1 0 1 1) ->
  within w (response_onReject E retry error w).1 1 1 1 1 1.
Proof.
  intros Hretry. pose proof (within_same w w eq_refl).
  pose proof (within_logout w).
  unfold response_onReject.
  destruct (isCancel error); [cbn [fst]; count_events |].
  destruct (instanceof (t_requestInterceptorError error) NoAuthTokenError).
  { unfold_M. run_logout. rewrite Hl in *. cbn [fst] in *. count_events. }
  destruct (status_is_401 (t_response error)
            || instanceof (t_requestInterceptorError error)
                          AuthTokenExpiredError).
  - destruct (t_config error) as [c |]; [| unfold_M; count_events].
    unfold bind at 1, ret at 1.
    destruct (truthy (opt c "retried")).
    + unfold_M. run_logout. rewrite Hl in *. cbn [fst] in *. count_events.
    + unfold bind, attempt.
      destruct (within_refreshingToken E w) as [Hany Hnormal].
      destruct (refreshingToken E w) as [w' [a | e |]]; cbn [fst snd] in *.
      * specialize (Hnormal a eq_refl).
        assert (Hset : truthy (opt (set_opt "retried" (Jv (JBool true)) c)
                                   "retried") = true).
        { unfold opt, set_opt. cbn [opts]. rewrite lookup_insert_eq.
          reflexivity. }
        pose proof (Hretry _ w' Hset). count_events.
      * count_events.
      * count_events.
  - destruct (bool_decide (is_Some (t_response error))); [cbn [fst]; count_events |].
    destruct (t_request error); cbn [fst]; count_events.
Qed.

Lemma within_instance (E : Env) (fuel : nat) (config : AxiosConfig)
      (w : World Settled) :
  within w (instance E fuel config w).1 2 2 1 1 1.
Proof.
  destruct fuel as [| fuel].
  { pose proof (within_same w w eq_refl). cbn [instance lift fst]. count_events. }
  rewrite instance_step.
  pose proof (within_emit w (EvInstance config)) as Hi.
  pose proof (within_sent E config (emit (EvInstance config) w)) as Hs.
  destruct ((let! config' := request_interceptor E config in
             dispatch E config') (emit (EvInstance config) w))
    as [w' [response | e |]]; cbn [fst] in Hs.
  - pose proof (within_response_onFulfilled E response w'). count_events.
  - pose proof (within_response_onReject E (instance E fuel) e w'
                  (fun c w0 Hr => within_instance_retried E fuel c w0 Hr)).
    count_events.
  - cbn [fst]. count_events.
Qed.

(** X14. What one call to [callApi] can cost, whatever the store, the
    clock, the network and the manager's state: [instance] is entered at
    most twice (the submission and one retry), at most two HTTP requests
    are sent, at most one refresh request is issued, the user is logged
    out at most once, and at most one notification is dispatched. *)
Theorem callApi_budget (E : Env) (fuel : nat) (config : gmap string JS)
        (w : World Settled) :
  let w' := (callApi E fuel config w).1 in
  instances w' <= instances w + 2 /\
  http_requests w' <= http_requests w + 2 /\
  refresh_posts w' <= refresh_posts w + 1 /\
  logouts w' <= logouts w + 1 /\
  length (notifications w') <= length (notifications w) + 1.
Proof.
  cbv zeta. rewrite callApi_of_instance. cbv zeta. cbn [fst].
  exact (within_instance E fuel _ w).
Qed.

(** *** After a refresh *)

(** X12. What the next read of the store gives after a successful
    refresh: the record is stored as the text JSON.stringify writes for it
    and [getLocalStorageToken] parses that text, so an object or an array
    comes back with every number that overflowed to [Infinity] replaced by
    [null], and unchanged when it holds no such number. A refresh that
    "succeeds" with a [data] that is missing, [null], or a number, string
    or boolean leaves a store that reads as [null]. *)
Theorem refreshed_record_is_read_back (P : Type) (E : Env) (w w' : World P)
        (data : option JSON) :
  _refreshingToken E w = (w', Normal data) ->
  storage w' = Some (stringify data) /\
  getLocalStorageToken w' =
    (w', Normal (match data with
                 | Some j => if typeof_object j then written j else JNull
                 | None => JNull
                 end)) /\
  (forall j, data = Some j -> typeof_object j = true -> written j = j ->
             getLocalStorageToken w' = (w', Normal j)).
Proof.
  rewrite _refreshingToken_eq. cbv zeta.
  destruct (is_null (read_token (storage w))); [discriminate |].
  set (rt := member "refreshToken" _). set (tok := member "token" _).
  destruct (refresh_adapter E rt tok _) as [o dt]. cbn [fst snd].
  destruct (refresh_resume_cases E o rt tok
              (advance dt (emit (EvRefreshPost rt tok) w)))
    as [[d ->] | [t ->]]; [| discriminate].
  intros [= <- <-]. split; [reflexivity |].
  rewrite getLocalStorageToken_eq. cbn [storage set_storage].
  split.
  - destruct d as [j |]; [| reflexivity].
    rewrite read_token_stringify. reflexivity.
  - intros j -> Hobj Hkept.
    rewrite read_token_stringify, Hobj, Hkept. reflexivity.
Qed.

Lemma refreshed_record_is_read_back_witness :
  let w : World Settled := world_with (Some (Json token_A)) in
  let overflowed :=
    JObj [("token", JStr "B"); ("expireAt", JInf false)] in
  let E := sample_env NoReply
             (Responded 200
                (Some (JObj [("status", JNum 200); ("data", overflowed)]))) in
  let w' := (_refreshingToken E w).1 in
  getLocalStorageToken w' =
    (w', Normal (JObj [("token", JStr "B"); ("expireAt", JNull)])).
Proof.
  intros w overflowed E w'.
  exact (proj1 (proj2 (refreshed_record_is_read_back Settled E w w'
                         (Some overflowed) eq_refl))).
Defined.

(** X13. A refresh the backend reports as a success but whose payload
    carries no object under [data] still ends the call in a logout: the
    text stored reads back as [null], so the resubmitted request is
    rejected before sending with [NoAuthTokenError], [logout()] is called
    and [callApi] returns that error. One refresh request was issued and
    no HTTP request. *)
Theorem refresh_without_record_logs_out (E : Env) (fuel : nat)
        (config : gmap string JS) (w : World Settled)
        (members : list (string * JSON)) (expireAt status : Z)
        (body record : option JSON) (dt : nat) :
  storage w = Some (Json (JObj members)) ->
  assoc "expireAt" members = Some (JNum expireAt) ->
  (expireAt < now w)%Z ->
  truthy (default Undef (config !! "withoutAuth")) = false ->
  worker w = None ->
  let refreshToken := assoc "refreshToken" members in
  let token := assoc "token" members in
  let submitted := request_config (_pick config PATHS_WHITELIST) in
  let resubmitted := set_opt "retried" (Jv (JBool true)) submitted in
  let w2 := emit (EvRefreshPost refreshToken token)
                 (emit (EvInstance submitted) w) in
  refresh_adapter E refreshToken token (trace w2) = (Responded status body, dt) ->
  ((200 <=? status) && (status <? 300))%Z = true ->
  isReqSuccess E body = true ->
  destructure "data" body = Normal record ->
  is_null (read_token (Some (stringify record))) = true ->
  let w3 := set_worker None
              (set_storage (Some (stringify record)) (advance dt w2)) in
  let after := callApi E (S (S fuel)) config w in
  after =
    ((UnauthorizedManager_logout (emit (EvInstance resubmitted) w3)).1,
     Normal (Caught (ThrownReq
       (mkRequestError
          (Some (ThrownErr (new_error NoAuthTokenError
                                      (MLit "No access token"))))
          (Some resubmitted) None false)))) /\
  http_requests after.1 = http_requests w /\
  refresh_posts after.1 = refresh_posts w + 1 /\
  (logoutTimeout w3 = None ->
   storage after.1 = None /\ logouts after.1 = logouts w + 1).
Proof.
  intros Hstore Hexp Hlt Hauth Hidle refreshToken token submitted resubmitted
         w2 Hnet H2xx Hok Hdata Hnull w3 after.
  assert (Hauth' : truthy (opt submitted "withoutAuth") = false).
  { unfold submitted. rewrite opt_submitted; [exact Hauth |].
    rewrite !elem_of_cons. auto. }
  assert (Hfirst : truthy (opt submitted "retried") = false).
  { unfold submitted. rewrite opt_submitted_retried. reflexivity. }
  assert (Hauth2 : truthy (opt resubmitted "withoutAuth") = false).
  { unfold resubmitted, opt, set_opt. cbn [opts].
    rewrite lookup_insert_ne by discriminate. exact Hauth'. }
  assert (Hafter : after =
    ((UnauthorizedManager_logout (emit (EvInstance resubmitted) w3)).1,
     Normal (Caught (ThrownReq
       (mkRequestError
          (Some (ThrownErr (new_error NoAuthTokenError
                                      (MLit "No access token"))))
          (Some resubmitted) None false))))).
  { unfold after. rewrite callApi_of_instance. cbv zeta. fold submitted.
    rewrite (instance_refresh_then_retry E fuel submitted w members expireAt
               status body record dt Hauth' Hfirst Hstore Hexp Hlt Hidle
               Hnet H2xx Hok Hdata).
    fold refreshToken token w2 w3 resubmitted.
    rewrite (instance_no_token E fuel resubmitted w3 Hauth2 Hnull).
    reflexivity. }
  split; [exact Hafter |]. rewrite Hafter. cbn [fst].
  pose proof (within_logout (emit (EvInstance resubmitted) w3)) as Hout.
  assert (Hh : http_requests (emit (EvInstance resubmitted) w3)
               = http_requests w).
  { unfold w3, w2. rewrite http_requests_emit. cbn [is_http].
    unfold http_requests.
    cbn [trace set_worker set_storage advance emit].
    rewrite !filter_snoc_length. cbn [is_http]. lia. }
  assert (Hr : refresh_posts (emit (EvInstance resubmitted) w3)
               = refresh_posts w + 1).
  { unfold w3, w2. rewrite refresh_posts_emit. cbn [is_refresh_post].
    unfold refresh_posts.
    cbn [trace set_worker set_storage advance emit].
    rewrite !filter_snoc_length. cbn [is_refresh_post]. lia. }
  assert (Hg : logouts (emit (EvInstance resubmitted) w3) = logouts w).
  { unfold w3, w2. rewrite logouts_emit. cbn [is_logout].
    unfold logouts.
    cbn [trace set_worker set_storage advance emit].
    rewrite !filter_snoc_length. cbn [is_logout]. lia. }
  split; [| split].
  - pose proof (logout_trace (emit (EvInstance resubmitted) w3)) as [Ht | Ht];
      unfold http_requests in *; rewrite Ht, ?filter_snoc_length;
      cbn [is_http]; lia.
  - rewrite refresh_posts_logout. exact Hr.
  - intros Hfree.
    rewrite (UnauthorizedManager_logout_free
               (emit (EvInstance resubmitted) w3) Hfree).
    cbn [fst]. split; [reflexivity |].
    rewrite logouts_emit. cbn [is_logout].
    change (logouts (set_storage None
                       (set_logoutTimeout
                          (Some (now (emit (EvInstance resubmitted) w3)
                                 + LOGOUT_LOCK_TIME)%Z)
                          (emit (EvInstance resubmitted) w3))))
      with (logouts (emit (EvInstance resubmitted) w3)).
    lia.
Qed.

Lemma refresh_without_record_logs_out_witness :
  let E := sample_env (Responded 200 (Some orders))
             (Responded 200 (Some (JObj [("status", JNum 200)]))) in
  let w : World Settled := world_with (Some (Json token_A)) in
  storage (callApi E 2 orders_request w).1 = None /\
  logouts (callApi E 2 orders_request w).1 = 1.
Proof.
  intros E w.
  pose proof (refresh_without_record_logs_out E 0 orders_request w
                [("token", JStr "A"); ("refreshToken", JStr "R");
                 ("expireAt", JNum 9000)] 9000 200
                (Some (JObj [("status", JNum 200)])) None 7
                eq_refl eq_refl ltac:(vm_compute; reflexivity) eq_refl eq_refl
                eq_refl eq_refl eq_refl eq_refl eq_refl) as H.
  cbv zeta in H. destruct H as (_ & _ & _ & H).
  exact (H eq_refl).
Defined.

(** *** A 401 on a valid token *)

Lemma instance_401_then_retry (E : Env) (fuel : nat)
      (submitted sent : AxiosConfig) (w : World Settled)
      (data body record : option JSON) (status : Z) (dt1 dt : nat) :
  let w1 := emit (EvInstance submitted) w in
  request_interceptor E submitted w1 = (w1, Normal sent) ->
  truthy (opt submitted "retried") = false ->
  adapter E sent (trace (emit (EvHttp sent) w1)) = (Responded 401 data, dt1) ->
  worker w = None ->
  is_null (read_token (storage w)) = false ->
  let refreshToken := member "refreshToken" (read_token (storage w)) in
  let token := member "token" (read_token (storage w)) in
  let w2 := emit (EvRefreshPost refreshToken token)
                 (advance dt1 (emit (EvHttp sent) w1)) in
  refresh_adapter E refreshToken token (trace w2) = (Responded status body, dt) ->
  ((200 <=? status) && (status <? 300))%Z = true ->
  isReqSuccess E body = true ->
  destructure "data" body = Normal record ->
  instance E (S (S fuel)) submitted w =
    instance E (S fuel) (set_opt "retried" (Jv (JBool true)) sent)
      (set_worker None
         (set_storage (Some (stringify record)) (advance dt w2))).
Proof.
  intros w1 Hpre Hfirst Hnet Hidle Hnn refreshToken token w2
         Hnet' H2xx Hok Hdata.
  rewrite (instance_sent E (S fuel) submitted sent w _ dt1 Hpre Hnet).
  destruct (unauthorized_401 sent data) as [-> Hu].
  rewrite (response_onReject_unauthorized E _ _ sent _ Hu eq_refl).
  assert (Hfirst' : truthy (opt sent "retried") = false).
  { unfold opt. rewrite (request_interceptor_opts E _ _ _ _ Hpre).
    exact Hfirst. }
  rewrite Hfirst'.
  fold w1.
  rewrite (refreshingToken_idle E (advance dt1 (emit (EvHttp sent) w1)) Hidle).
  change (storage (advance dt1 (emit (EvHttp sent) w1))) with (storage w).
  rewrite Hnn. rewrite _refreshingToken_eq. cbv zeta.
  change (storage (advance dt1 (emit (EvHttp sent) w1))) with (storage w).
  rewrite Hnn. fold refreshToken token. fold w2.
  rewrite Hnet'. cbn [fst snd].
  rewrite (refresh_resume_success E _ status body record _ _ H2xx Hok Hdata).
  reflexivity.
Qed.

(** X18. An authenticated request sent with a token the client takes for
    valid and answered with HTTP 401, while the manager is idle: one
    refresh request is issued with the stored [refreshToken] and [token];
    when it succeeds with a valid record, the same request is sent once
    more, marked [retried], and its [Access-Token] header is the new
    token as the store holds it, which replaces the one the first attempt
    carried. When that
    second answer is a success [callApi] returns its payload, and the call
    consisted of exactly: the submission, the first request, the refresh
    request, the resubmission, the second request. *)
Theorem unauthorized_then_refresh_and_retry (E : Env) (fuel : nat)
        (config : gmap string JS) (w : World Settled)
        (members members' : list (string * JSON))
        (expireAt expireAt' status status' : Z)
        (rejected body : option JSON) (payload : JSON) (dt1 dt dt' : nat) :
  storage w = Some (Json (JObj members)) ->
  assoc "expireAt" members = Some (JNum expireAt) ->
  (now w <= expireAt)%Z ->
  truthy (default Undef (config !! "withoutAuth")) = false ->
  worker w = None ->
  let refreshToken := assoc "refreshToken" members in
  let token := assoc "token" members in
  let submitted := request_config (_pick config PATHS_WHITELIST) in
  let sent := set_header "Access-Token" (of_json token) submitted in
  let w1 := emit (EvHttp sent) (emit (EvInstance submitted) w) in
  adapter E sent (trace w1) = (Responded 401 rejected, dt1) ->
  let w2 := emit (EvRefreshPost refreshToken token) (advance dt1 w1) in
  refresh_adapter E refreshToken token (trace w2) = (Responded status body, dt) ->
  ((200 <=? status) && (status <? 300))%Z = true ->
  isReqSuccess E body = true ->
  destructure "data" body = Normal (Some (JObj members')) ->
  assoc "expireAt" members' = Some (JNum expireAt') ->
  (now w + Z.of_nat dt1 + Z.of_nat dt <= expireAt')%Z ->
  let resubmitted := set_opt "retried" (Jv (JBool true)) sent in
  let stored := written (JObj members') in
  let sent' :=
    set_header "Access-Token" (of_json (member "token" stored)) resubmitted in
  let w3 := set_worker None
              (set_storage (Some (Json stored)) (advance dt w2)) in
  let w4 := emit (EvHttp sent') (emit (EvInstance resubmitted) w3) in
  adapter E sent' (trace w4) = (Responded status' (Some payload), dt') ->
  ((200 <=? status') && (status' <? 300))%Z = true ->
  truthy_json payload = true ->
  isReqSuccess E (Some payload) = true ->
  callApi E (S (S fuel)) config w =
    (advance dt' w4, Normal (Data (Some payload))) /\
  headers sent' = {[ "Access-Token" := of_json (member "token" stored) ]} /\
  opts sent' = <["retried" := Jv (JBool true)]> (opts submitted) /\
  trace (advance dt' w4) =
    trace w ++ [EvInstance submitted; EvHttp sent;
                EvRefreshPost refreshToken token;
                EvInstance resubmitted; EvHttp sent'].
Proof.
  intros Hstore Hexp Hle Hauth Hidle refreshToken token submitted sent w1
         Hnet w2 Hnet' H2xx Hok Hdata Hexp' Hle' resubmitted stored sent' w3 w4
         Hnet2 H2xx' Htruthy Hok'.
  assert (Hauth' : truthy (opt submitted "withoutAuth") = false).
  { unfold submitted. rewrite opt_submitted; [exact Hauth |].
    rewrite !elem_of_cons. auto. }
  assert (Hfirst : truthy (opt submitted "retried") = false).
  { unfold submitted. rewrite opt_submitted_retried. reflexivity. }
  assert (Hpre : request_interceptor E submitted (emit (EvInstance submitted) w)
                 = (emit (EvInstance submitted) w, Normal sent)).
  { apply (request_interceptor_valid E submitted _ members expireAt);
      assumption. }
  assert (Hnn : is_null (read_token (storage w)) = false)
    by (rewrite Hstore; reflexivity).
  assert (Hauth2 : truthy (opt resubmitted "withoutAuth") = false).
  { unfold resubmitted, sent, opt, set_opt, set_header. cbn [opts].
    rewrite lookup_insert_ne by discriminate. exact Hauth'. }
  assert (Hpre2 : request_interceptor E resubmitted
                    (emit (EvInstance resubmitted) w3)
                  = (emit (EvInstance resubmitted) w3, Normal sent')).
  { apply (request_interceptor_valid E resubmitted _
             ((fun kv => (kv.1, written kv.2)) <$> members') expireAt');
      [exact Hauth2 | reflexivity | rewrite assoc_written, Hexp'; reflexivity |].
    unfold w3, w2, w1. cbn [now set_worker set_storage advance emit]. lia. }
  split; [| split; [| split]].
  - rewrite callApi_of_instance. cbv zeta. fold submitted.
    rewrite (instance_401_then_retry E fuel submitted sent w rejected body
               (Some (JObj members')) status dt1 dt Hpre Hfirst Hnet Hidle Hnn).
    + fold resubmitted. rewrite Hstore.
      cbn [read_token typeof_object member stringify].
      fold stored refreshToken token w1 w2 w3.
      rewrite (instance_sent E fuel resubmitted sent' w3 _ dt' Hpre2 Hnet2).
      cbn [settle]. rewrite H2xx'. unfold response_onFulfilled.
      cbn [r_data of_json truthy]. rewrite Htruthy, Hok'. reflexivity.
    + rewrite Hstore. cbn [read_token typeof_object member]. exact Hnet'.
    + exact H2xx.
    + exact Hok.
    + exact Hdata.
  - unfold sent', resubmitted, sent, set_header, set_opt, submitted,
      request_config. cbn [headers opts].
    rewrite insert_insert_eq. reflexivity.
  - reflexivity.
  - unfold w4, w3, w2, w1. cbn [trace set_worker set_storage advance emit].
    rewrite <- !app_assoc. reflexivity.
Qed.

Lemma unauthorized_then_refresh_and_retry_witness :
  let E :=
    mkEnv sample_isReqSuccess (fun _ => None)
          (fun config _ =>
             if truthy (opt config "retried")
             then (Responded 200 (Some orders), 5)
             else (Responded 401 None, 5))
          (fun _ _ _ => (refresh_ok, 7)) in
  let w : World Settled :=
    world_with
      (Some (Json (JObj [("token", JStr "A"); ("refreshToken", JStr "R");
                         ("expireAt", JNum 800000)]))) in
  (callApi E 2 orders_request w).2 = Normal (Data (Some orders)) /\
  storage (callApi E 2 orders_request w).1 = Some (Json token_B).
Proof.
  intros E w.
  pose proof (unauthorized_then_refresh_and_retry E 0 orders_request w
                [("token", JStr "A"); ("refreshToken", JStr "R");
                 ("expireAt", JNum 800000)]
                [("token", JStr "B"); ("refreshToken", JStr "R2");
                 ("expireAt", JNum 900000)]
                800000 900000 200 200 None
                (Some (JObj [("status", JNum 200); ("data", token_B)]))
                orders 5 7 5
                eq_refl eq_refl ltac:(vm_compute; discriminate) eq_refl
                eq_refl) as H.
  cbv zeta in H.
  specialize (H ltac:(vm_compute; reflexivity) eq_refl eq_refl eq_refl eq_refl
                eq_refl ltac:(vm_compute; discriminate)
                ltac:(vm_compute; reflexivity) eq_refl eq_refl eq_refl).
  destruct H as [H _]. rewrite H. split; reflexivity.
Defined.

(** *** Expiry *)

Lemma less_than_mono (E : Env) (v : JSON) (t t' : Z) :
  (t <= t')%Z -> less_than E v t = true -> less_than E v t' = true.
Proof.
  intros Hle. unfold less_than.
  destruct v as [| b | n | negative | s | items | ms];
    try destruct (ToNumber E _); try discriminate; try (intros H; exact H);
    rewrite !Z.ltb_lt; lia.
Qed.

(** X10. Expiry is permanent for a given store: a request the
    interceptor rejects as expired is rejected as expired at every later
    time as long as the stored text is the same, whatever [expireAt] holds
    (a number, a boolean, a string, nothing). Only a change of the store,
    which the refresh makes, lets the request through again. *)
Theorem expired_stays_expired (E : Env) (config : AxiosConfig)
        (w w' : World Settled) :
  storage w' = storage w ->
  (now w <= now w')%Z ->
  let expired c :=
    Throw (interceptor_rejection c
             (mkSimple AuthTokenExpiredError (MLit "Token is already expired"))) in
  request_interceptor E config w = (w, expired config) ->
  request_interceptor E config w' = (w', expired config).
Proof.
  intros Hstore Hle expired. unfold expired.
  rewrite !request_interceptor_eq. cbv zeta. rewrite Hstore.
  destruct (truthy (opt config "withoutAuth")); [discriminate |].
  destruct (is_null (read_token (storage w))); [discriminate |].
  unfold isTokenExpired. unfold_M. cbn [snd].
  destruct (less_than E _ (now w)) eqn:Hlt; [| discriminate].
  intros _. rewrite (less_than_mono E _ _ _ Hle Hlt). reflexivity.
Qed.

Lemma expired_stays_expired_witness :
  let E := sample_env NoReply NoReply in
  let config := request_config orders_request in
  let w' : World Settled := advance 500 (world_with (Some (Json token_A))) in
  request_interceptor E config w' =
    (w', Throw (interceptor_rejection config
                  (mkSimple AuthTokenExpiredError
                            (MLit "Token is already expired")))).
Proof.
  intros E config w'.
  apply (expired_stays_expired E config (world_with (Some (Json token_A))) w').
  - reflexivity.
  - vm_compute. discriminate.
  - vm_compute. reflexivity.
Defined.

(** X11. A stored record without an [expireAt] (an object that lacks the
    member or holds [null] there, or an array) counts as expired at every
    positive time: an authenticated request is rejected before sending
    with [AuthTokenExpiredError], so such a record always goes through a
    refresh first. *)
Theorem record_without_expireAt_is_expired (E : Env) (config : AxiosConfig)
        (w : World Settled) (record : JSON) :
  truthy (opt config "withoutAuth") = false ->
  storage w = Some (Json record) ->
  typeof_object record = true ->
  is_null record = false ->
  nullish (of_json (member "expireAt" record)) = true ->
  (0 < now w)%Z ->
  request_interceptor E config w =
    (w, Throw (interceptor_rejection config
                 (mkSimple AuthTokenExpiredError
                           (MLit "Token is already expired")))).
Proof.
  intros Hauth Hstore Hobj Hnn Hmissing Hpos.
  rewrite request_interceptor_eq, Hauth. cbv zeta. rewrite Hstore.
  cbn [read_token]. rewrite Hobj, Hnn.
  unfold isTokenExpired. unfold_M. cbn [snd].
  assert (Hzero : match member "expireAt" record with
                  | None | Some JNull => JNum 0
                  | Some v => v
                  end = JNum 0).
  { destruct (member "expireAt" record) as [[] |];
      first [reflexivity | discriminate]. }
  rewrite Hzero. cbn [less_than].
  destruct (Z.ltb_spec 0 (now w)); [reflexivity | lia].
Qed.

Lemma record_without_expireAt_is_expired_witness :
  let E := sample_env NoReply NoReply in
  let config := request_config orders_request in
  let w : World Settled := world_with (Some (Json (JArr [JStr "A"]))) in
  request_interceptor E config w =
    (w, Throw (interceptor_rejection config
                 (mkSimple AuthTokenExpiredError
                           (MLit "Token is already expired")))).
Proof.
  intros E config w.
  apply (record_without_expireAt_is_expired E config w (JArr [JStr "A"]));
    first [reflexivity | vm_compute; reflexivity].
Defined.

(** *** The manager's slot *)

(** X20. A call made while no refresh is in flight leaves none in
    flight: whatever happened during [callApi] or
    [callApiWithNotification], including a refresh that failed,
    [#worker] is empty again when the call returns, so the next call
    starts from the same state. *)
Theorem call_releases_worker (E : Env) (fuel : nat) (w : World Settled) :
  worker w = None ->
  (forall config, worker (callApi E (S (S fuel)) config w).1 = None) /\
  (forall config options,
      worker (callApiWithNotification E (S (S fuel)) config options w).1
      = None).
Proof.
  intros Hidle.
  assert (Hcall : forall config w0, worker w0 = None ->
                    worker (callApi E (S (S fuel)) config w0).1 = None).
  { intros config w0 Hw0. rewrite callApi_of_instance. cbv zeta. cbn [fst].
    apply (settles_instance E fuel _ w0 Hw0). }
  split; [intros config; apply Hcall; exact Hidle |].
  intros config options.
  unfold callApiWithNotification. unfold bind at 1, gets at 1.
  destruct (objs w !! config) as [fields |]; [| exact Hidle].
  unfold bind at 1, effect at 1.
  rewrite callApiWithNotification_try_eq. cbv zeta. cbn [fst].
  set (written := set_objs _ w).
  specialize (Hcall (default ∅ (objs written !! config)) written Hidle).
  destruct (callApi E (S (S fuel)) _ written) as [w' [[d | e] | t |]];
    cbn [fst snd] in *.
  - destruct (onSuccess options); exact Hcall.
  - destruct (onFail options); [destruct (t_isCancelled e) |]; exact Hcall.
  - exact Hcall.
  - exact Hcall.
Qed.

Lemma call_releases_worker_witness :
  worker (callApi (sample_env (Responded 401 None) refresh_refused) 2
                  orders_request
                  (world_with (Some (Json token_B)))).1 = None.
Proof.
  exact (proj1 (call_releases_worker
                  (sample_env (Responded 401 None) refresh_refused) 0
                  (world_with (Some (Json token_B))) eq_refl)
               orders_request).
Defined.

(** X15. Under the event loop, starting with no promise in the table
    and over any schedule of calls, network answers and continuations in
    which a call is made only when no continuation is waiting to run: at
    every point at most one refresh is in flight. *)
Theorem at_most_one_refresh_in_flight (E : Env) (ts : list Task)
        (w : World nat) :
  calls_at_rest E ts (idle w) ->
  Forall (fun s => live s <= 1) (states E ts (idle w)).
Proof.
  intros Hsched.
  apply single_flight_invariant; [apply slot_invariant_idle | exact Hsched].
Qed.

Lemma at_most_one_refresh_in_flight_witness :
  let E := sample_env NoReply NoReply in
  let ts := window [1; 2; 3] refresh_ok 7 ++ [Call 4; Call 5; Reply 1 NoReply 9;
                                               Job; Job; Call 6] in
  Forall (fun s => live s <= 1)
         (states E ts (idle (world_with (Some (Json token_A))))).
Proof.
  intros E ts.
  apply (at_most_one_refresh_in_flight E ts
           (world_with (Some (Json token_A)))).
  vm_compute. repeat split; reflexivity.
Defined.

(** *** [callApi] on sample data *)

Lemma callApi_returns_witness :
  exists r,
    (callApi (sample_env bad_input refresh_ok) 2 orders_request
             (world_with (Some (Json token_B)))).2 = Normal r /\
    match r with
    | Data _ => True
    | Caught (ThrownReq _) => True
    | Caught (ThrownErr e) => e = new_error TypeError MNone
    end.
Proof.
  exact (callApi_returns (sample_env bad_input refresh_ok) 0 orders_request
           (world_with (Some (Json token_B))) eq_refl).
Defined.

Lemma callApi_whitelist_witness :
  callApi (sample_env bad_input refresh_ok) 2
          (<["retried" := Jv (JBool true)]> orders_request)
  = callApi (sample_env bad_input refresh_ok) 2 orders_request.
Proof.
  apply callApi_whitelist. intros k Hk. apply whitelisted in Hk.
  apply lookup_insert_ne. decompose [or] Hk; subst; discriminate.
Defined.
